(** * Superpowers task executor: configuration accessor and backend dispatch

    A shallow embedding of [scripts/config.py] and [scripts/execute_task.py]
    together with the properties their specification states about them.

    Layout: Python text and its operations, the JSON codec used for the
    configuration document, a POSIX-like file system, the effect monad of the
    scripts, then the two scripts themselves; the lemmas follow the
    definitions. *)

From Stdlib Require Import NArith ZArith List String Ascii Bool Lia.
From stdpp Require Import base decidable option list.

Set Warnings "-register-all".
Local Open Scope N_scope.

(** ** Python text

    A Python [str] is a sequence of Unicode code points. *)

Module PyStr.

Definition pystr : Type := list N.

(** An ASCII literal of the source, as text. *)
Definition lit (s : string) : pystr := map N_of_ascii (list_ascii_of_string s).
Arguments lit : simpl never.

(** [s.startswith(p)] *)
Fixpoint startswith (p s : pystr) : bool :=
  match p, s with
  | [], _ => true
  | _ :: _, [] => false
  | a :: p', b :: s' => if N.eqb a b then startswith p' s' else false
  end.

(** [s.partition(sep)] restricted to its first and last component, [None]
    when [sep] does not occur: the text before the first occurrence of [sep]
    and the text after it. *)
Fixpoint find (sep s : pystr) : option (pystr * pystr) :=
  if startswith sep s then Some ([], drop (length sep) s)
  else match s with
       | [] => None
       | c :: s' =>
           match find sep s' with
           | Some (before, after) => Some (c :: before, after)
           | None => None
           end
       end.

(** [sep in s] *)
Definition contains (sep s : pystr) : bool :=
  match find sep s with Some _ => true | None => false end.

(** [s.split(sep, 1)] for a non-empty [sep]. *)
Definition split1 (sep s : pystr) : list pystr :=
  match find sep s with
  | Some (before, after) => [before; after]
  | None => [s]
  end.

(** [c.isspace()]: the code points Python's [str.strip()] removes. *)
Definition isspace (c : N) : bool :=
  ((0x09 <=? c) && (c <=? 0x0D)) || ((0x1C <=? c) && (c <=? 0x20))
  || (c =? 0x85) || (c =? 0xA0) || (c =? 0x1680)
  || ((0x2000 <=? c) && (c <=? 0x200A))
  || (c =? 0x2028) || (c =? 0x2029) || (c =? 0x202F) || (c =? 0x205F)
  || (c =? 0x3000).

(** [s.lstrip()], [s.rstrip()], [s.strip()] *)
Fixpoint lstrip (s : pystr) : pystr :=
  match s with
  | c :: s' => if isspace c then lstrip s' else s
  | [] => []
  end.

Definition rstrip (s : pystr) : pystr := rev (lstrip (rev s)).

Definition strip (s : pystr) : pystr := rstrip (lstrip s).

(** [s.upper()] on the ASCII letters; the case mapping of other code points
    needs the Unicode database and is left as the identity. It is used for
    one console message only. *)
Definition upper_char (c : N) : N :=
  if (0x61 <=? c) && (c <=? 0x7A) then c - 0x20 else c.

Definition upper (s : pystr) : pystr := map upper_char s.

(** [s.isascii()] *)
Definition isascii (s : pystr) : bool := forallb (fun c => c <? 0x80) s.

(** What successive [readline()] calls return on a text stream holding [s]:
    the lines of [s], each with its newline, the last one possibly without. *)
Fixpoint readlines_aux (cur : pystr) (s : pystr) : list pystr :=
  match s with
  | [] => match cur with [] => [] | _ => [rev cur] end
  | c :: s' =>
      if c =? 0x0A then rev (c :: cur) :: readlines_aux [] s'
      else readlines_aux (c :: cur) s'
  end.

Definition readlines (s : pystr) : list pystr := readlines_aux [] s.

(** [sep.join(l)] *)
Fixpoint join (sep : pystr) (l : list pystr) : pystr :=
  match l with
  | [] => []
  | [x] => x
  | x :: l' => x ++ sep ++ join sep l'
  end.

(** [s[:n]] *)
Definition prefix (n : nat) (s : pystr) : pystr := take n s.

(** Position [i] of [s] starts an occurrence of [sep]. *)
Definition occurs_at (sep s : pystr) (i : nat) : Prop :=
  take (length sep) (drop i s) = sep.

End PyStr.
Export PyStr.

(** ** Python values and the [json] module

    The values [json.loads] produces and [json.dumps] accepts: [None], [bool],
    [int], [float], [str], [list] and [dict] with [str] keys. A dict is kept
    as its items in insertion order. A float is kept as the text of its JSON
    number: float arithmetic and [repr] of floats are outside the model. *)

Module Json.

Inductive pyval : Type :=
| PNone
| PBool (b : bool)
| PInt (z : Z)
| PFloat (literal : pystr)
| PStr (s : pystr)
| PList (items : list pyval)
| PDict (members : list (pystr * pyval)).

Definition dict : Type := list (pystr * pyval).

(** [d.get(k)], [None] standing for a missing key. *)
Fixpoint dict_get (d : dict) (k : pystr) : option pyval :=
  match d with
  | [] => None
  | (k', v) :: d' => if bool_decide (k' = k) then Some v else dict_get d' k
  end.

(** [d[k] = v]: an existing key keeps its position, a new key goes last. *)
Fixpoint dict_set (d : dict) (k : pystr) (v : pyval) : dict :=
  match d with
  | [] => [(k, v)]
  | (k', v') :: d' =>
      if bool_decide (k' = k) then (k', v) :: d' else (k', v') :: dict_set d' k v
  end.

(** [dict(pairs)] *)
Definition dict_of_pairs (pairs : list (pystr * pyval)) : dict :=
  fold_left (fun d kv => dict_set d (fst kv) (snd kv)) pairs [].

(** *** Encoder: [json.dumps(v, indent=n)] with [ensure_ascii] *)

Definition hexdigit (n : N) : N := if n <? 10 then 0x30 + n else 0x61 + (n - 10).

(** ['{0:04x}'.format(n)] for [n < 0x10000]. *)
Definition hex4 (n : N) : pystr :=
  [hexdigit (n / 4096 mod 16); hexdigit (n / 256 mod 16);
   hexdigit (n / 16 mod 16); hexdigit (n mod 16)].

Definition backslash : N := 0x5C.
Definition dquote : N := 0x22.

Definition escape_char (c : N) : pystr :=
  if c =? dquote then [backslash; dquote]
  else if c =? backslash then [backslash; backslash]
  else if c =? 0x0A then [backslash; 0x6E]
  else if c =? 0x0D then [backslash; 0x72]
  else if c =? 0x09 then [backslash; 0x74]
  else if c =? 0x08 then [backslash; 0x62]
  else if c =? 0x0C then [backslash; 0x66]
  else if (0x20 <=? c) && (c <=? 0x7E) then [c]
  else if c <? 0x10000 then backslash :: 0x75 :: hex4 c
  else
    let n := c - 0x10000 in
    let s1 := N.lor 0xD800 (N.land (N.shiftr n 10) 0x3FF) in
    let s2 := N.lor 0xDC00 (N.land n 0x3FF) in
    (backslash :: 0x75 :: hex4 s1) ++ (backslash :: 0x75 :: hex4 s2).

Definition encode_str (s : pystr) : pystr :=
  dquote :: flat_map escape_char s ++ [dquote].

(** [int.__repr__] *)
Fixpoint digits_aux (fuel : nat) (n : N) (acc : pystr) : pystr :=
  match fuel with
  | O => acc
  | S f =>
      let acc' := (0x30 + n mod 10) :: acc in
      if n <? 10 then acc' else digits_aux f (n / 10) acc'
  end.

Definition repr_N (n : N) : pystr := digits_aux (S (N.to_nat (N.size n))) n [].

Definition repr_Z (z : Z) : pystr :=
  if (z <? 0)%Z then 0x2D :: repr_N (Z.to_N (- z)) else repr_N (Z.to_N z).

Definition newline_indent (indent level : nat) : pystr :=
  0x0A :: repeat 0x20 (indent * level).

Fixpoint encode (indent level : nat) (v : pyval) : pystr :=
  match v with
  | PNone => lit "null"
  | PBool true => lit "true"
  | PBool false => lit "false"
  | PInt z => repr_Z z
  | PFloat l => l
  | PStr s => encode_str s
  | PList [] => lit "[]"
  | PList (x :: xs) =>
      lit "[" ++ newline_indent indent (S level) ++ encode indent (S level) x
      ++ flat_map (fun y => lit "," ++ newline_indent indent (S level)
                            ++ encode indent (S level) y) xs
      ++ newline_indent indent level ++ lit "]"
  | PDict [] => lit "{}"
  | PDict (m :: ms) =>
      lit "{" ++ newline_indent indent (S level)
      ++ encode_str (fst m) ++ lit ": " ++ encode indent (S level) (snd m)
      ++ flat_map (fun m' => lit "," ++ newline_indent indent (S level)
                             ++ encode_str (fst m') ++ lit ": "
                             ++ encode indent (S level) (snd m')) ms
      ++ newline_indent indent level ++ lit "}"
  end.

Definition dumps (indent : nat) (v : pyval) : pystr := encode indent 0 v.

(** *** Decoder: [json.loads(s)] *)

Definition is_ws (c : N) : bool :=
  (c =? 0x20) || (c =? 0x09) || (c =? 0x0A) || (c =? 0x0D).

Fixpoint skip_ws (s : pystr) : pystr :=
  match s with
  | c :: s' => if is_ws c then skip_ws s' else s
  | [] => []
  end.

Definition hexval (c : N) : option N :=
  if (0x30 <=? c) && (c <=? 0x39) then Some (c - 0x30)
  else if (0x61 <=? c) && (c <=? 0x66) then Some (c - 0x61 + 10)
  else if (0x41 <=? c) && (c <=? 0x46) then Some (c - 0x41 + 10)
  else None.

(** [_decode_uXXXX]: the four hex digits after a backslash-u. *)
Definition decode_uXXXX (s : pystr) : option (N * pystr) :=
  match s with
  | a :: b :: c :: d :: rest =>
      match hexval a, hexval b, hexval c, hexval d with
      | Some a, Some b, Some c, Some d =>
          Some (4096 * a + 256 * b + 16 * c + d, rest)
      | _, _, _, _ => None
      end
  | _ => None
  end.

(** The [BACKSLASH] table of the decoder. *)
Definition unescape (e : N) : option N :=
  if e =? dquote then Some dquote
  else if e =? backslash then Some backslash
  else if e =? 0x2F then Some 0x2F
  else if e =? 0x62 then Some 0x08
  else if e =? 0x66 then Some 0x0C
  else if e =? 0x6E then Some 0x0A
  else if e =? 0x72 then Some 0x0D
  else if e =? 0x74 then Some 0x09
  else None.

(** A backslash-u escape, the text after the [u] given: one code point, or
    a surrogate pair joined into one. *)
Definition scan_unicode (s : pystr) : option (N * pystr) :=
  match decode_uXXXX s with
  | None => None
  | Some (uni, s1) =>
      if (0xD800 <=? uni) && (uni <=? 0xDBFF) then
        match s1 with
        | b :: u :: s2 =>
            if (b =? backslash) && (u =? 0x75) then
              match decode_uXXXX s2 with
              | None => None
              | Some (uni2, s3) =>
                  if (0xDC00 <=? uni2) && (uni2 <=? 0xDFFF) then
                    Some (0x10000 + N.lor (N.shiftl (uni - 0xD800) 10)
                                          (uni2 - 0xDC00), s3)
                  else Some (uni, s1)
              end
            else Some (uni, s1)
        | _ => Some (uni, s1)
        end
      else Some (uni, s1)
  end.

(** [scanstring] (strict): the text after the opening quote given, the
    string and the text after its closing quote. *)
Fixpoint scanstring (fuel : nat) (s : pystr) : option (pystr * pystr) :=
  match fuel with
  | O => None
  | S f =>
      match s with
      | [] => None
      | c :: s1 =>
          if c =? dquote then Some ([], s1)
          else if c =? backslash then
            match s1 with
            | [] => None
            | e :: s2 =>
                let step :=
                  if e =? 0x75 then scan_unicode s2
                  else match unescape e with
                       | Some ch => Some (ch, s2)
                       | None => None
                       end in
                match step with
                | None => None
                | Some (ch, s3) =>
                    match scanstring f s3 with
                    | Some (str, rest) => Some (ch :: str, rest)
                    | None => None
                    end
                end
            end
          else if c <? 0x20 then None
          else match scanstring f s1 with
               | Some (str, rest) => Some (c :: str, rest)
               | None => None
               end
      end
  end.

Definition is_digit (c : N) : bool := (0x30 <=? c) && (c <=? 0x39).

Fixpoint span_digits (s : pystr) : pystr * pystr :=
  match s with
  | c :: s' =>
      if is_digit c then let '(ds, rest) := span_digits s' in (c :: ds, rest)
      else ([], s)
  | [] => ([], [])
  end.

(** [int(digits)] for ASCII decimal digits. *)
Definition int_of_digits (ds : pystr) : N :=
  fold_left (fun acc d => 10 * acc + (d - 0x30)) ds 0.

(** [NUMBER_RE.match]: sign and integer part, fraction, exponent, rest. *)
Definition match_number (s : pystr)
  : option (bool * pystr * pystr * pystr * pystr) :=
  let '(neg, s1) :=
    match s with
    | c :: t => if c =? 0x2D then (true, t) else (false, s)
    | [] => (false, s)
    end in
  match s1 with
  | [] => None
  | d :: s2 =>
      if is_digit d then
        let '(int, s3) :=
          if d =? 0x30 then ([d], s2)
          else let '(ds, r) := span_digits s2 in (d :: ds, r) in
        let '(frac, s4) :=
          match s3 with
          | p :: t =>
              if p =? 0x2E then
                match span_digits t with
                | ([], _) => ([], s3)
                | (ds, r) => (p :: ds, r)
                end
              else ([], s3)
          | [] => ([], s3)
          end in
        let '(exp, s5) :=
          match s4 with
          | e :: t =>
              if (e =? 0x65) || (e =? 0x45) then
                let '(sg, t') :=
                  match t with
                  | g :: t'' =>
                      if (g =? 0x2D) || (g =? 0x2B) then ([g], t'') else ([], t)
                  | [] => ([], t)
                  end in
                match span_digits t' with
                | ([], _) => ([], s4)
                | (ds, r) => (e :: sg ++ ds, r)
                end
              else ([], s4)
          | [] => ([], s4)
          end in
        Some (neg, int, frac, exp, s5)
      else None
  end.

Definition scan_number (s : pystr) : option (pyval * pystr) :=
  match match_number s with
  | Some (neg, int, frac, exp, rest) =>
      match frac, exp with
      | [], [] =>
          let n := Z.of_N (int_of_digits int) in
          Some (PInt (if neg then (- n)%Z else n), rest)
      | _, _ =>
          Some (PFloat ((if neg then [0x2D] else []) ++ int ++ frac ++ exp), rest)
      end
  | None =>
      if startswith (lit "NaN") s then Some (PFloat (lit "NaN"), drop 3 s)
      else if startswith (lit "Infinity") s
           then Some (PFloat (lit "Infinity"), drop 8 s)
      else if startswith (lit "-Infinity") s
           then Some (PFloat (lit "-Infinity"), drop 9 s)
      else None
  end.

Section Containers.
(** [scan_once] one nesting level down. *)
Variable scan : pystr -> option (pyval * pystr).

(** The loop of [JSONArray], the text at the first value given. *)
Fixpoint array_items (fuel : nat) (s : pystr) : option (list pyval * pystr) :=
  match fuel with
  | O => None
  | S f =>
      match scan s with
      | None => None
      | Some (v, s1) =>
          match skip_ws s1 with
          | [] => None
          | c :: s2 =>
              if c =? 0x5D then Some ([v], s2)
              else if c =? 0x2C then
                match array_items f (skip_ws s2) with
                | Some (vs, rest) => Some (v :: vs, rest)
                | None => None
                end
              else None
          end
      end
  end.

Definition JSONArray (s : pystr) : option (pyval * pystr) :=
  match skip_ws s with
  | [] => None
  | c :: s1 =>
      if c =? 0x5D then Some (PList [], s1)
      else match array_items (length s) (c :: s1) with
           | Some (vs, rest) => Some (PList vs, rest)
           | None => None
           end
  end.

(** The loop of [JSONObject], the text after the opening quote of a key
    given. *)
Fixpoint object_pairs (fuel : nat) (s : pystr)
  : option (list (pystr * pyval) * pystr) :=
  match fuel with
  | O => None
  | S f =>
      match scanstring (length s) s with
      | None => None
      | Some (key, s1) =>
          match skip_ws s1 with
          | [] => None
          | c :: s2 =>
              if c =? 0x3A then
                match scan (skip_ws s2) with
                | None => None
                | Some (v, s3) =>
                    match skip_ws s3 with
                    | [] => None
                    | c' :: s4 =>
                        if c' =? 0x7D then Some ([(key, v)], s4)
                        else if c' =? 0x2C then
                          match skip_ws s4 with
                          | [] => None
                          | q :: s5 =>
                              if q =? dquote then
                                match object_pairs f s5 with
                                | Some (ps, rest) => Some ((key, v) :: ps, rest)
                                | None => None
                                end
                              else None
                          end
                        else None
                    end
                end
              else None
          end
      end
  end.

Definition JSONObject (s : pystr) : option (pyval * pystr) :=
  match skip_ws s with
  | [] => None
  | c :: s1 =>
      if c =? 0x7D then Some (PDict [], s1)
      else if c =? dquote then
        match object_pairs (length s) s1 with
        | Some (ps, rest) => Some (PDict (dict_of_pairs ps), rest)
        | None => None
        end
      else None
  end.
End Containers.

(** [scan_once]; [fuel] bounds the nesting depth. *)
Fixpoint scan_once (fuel : nat) (s : pystr) : option (pyval * pystr) :=
  match fuel with
  | O => None
  | S f =>
      match s with
      | [] => None
      | c :: s' =>
          if c =? dquote then
            match scanstring (length s') s' with
            | Some (str, rest) => Some (PStr str, rest)
            | None => None
            end
          else if c =? 0x7B then JSONObject (scan_once f) s'
          else if c =? 0x5B then JSONArray (scan_once f) s'
          else if startswith (lit "null") s then Some (PNone, drop 4 s)
          else if startswith (lit "true") s then Some (PBool true, drop 4 s)
          else if startswith (lit "false") s then Some (PBool false, drop 5 s)
          else scan_number s
      end
  end.

(** [json.loads(s)]; [None] stands for the [JSONDecodeError] it raises. The
    interpreter's recursion limit is not modelled: on a document nested more
    deeply than that limit [json.loads] raises [RecursionError]. *)
Definition loads (s : pystr) : option pyval :=
  match scan_once (S (length s)) (skip_ws s) with
  | Some (v, rest) =>
      match skip_ws rest with
      | [] => Some v
      | _ :: _ => None
      end
  | None => None
  end.

(** The values on which [dumps] then [loads] is the identity: no floats,
    text made of Unicode scalar values, and no key twice in a dict. *)
Definition scalar_value (c : N) : bool :=
  (c <? 0x110000) && negb ((0xD800 <=? c) && (c <=? 0xDFFF)).

Definition keys_unique (d : dict) : bool :=
  bool_decide (NoDup (map fst d)).

Fixpoint serializable (v : pyval) : bool :=
  match v with
  | PNone | PBool _ | PInt _ => true
  | PFloat _ => false
  | PStr s => forallb scalar_value s
  | PList xs => forallb serializable xs
  | PDict ms =>
      keys_unique ms
      && forallb (fun m => forallb scalar_value (fst m) && serializable (snd m)) ms
  end.

End Json.
Export Json.

(** ** Paths ([pathlib], POSIX flavour) *)

Module Pathlib.

(** A pure path: whether it starts at the root, and its components. *)
Record Path : Type := mkPath { anchored : bool; parts : list pystr }.

#[global] Instance Path_eq_dec : EqDecision Path.
Proof. solve_decision. Defined.

Definition slash : N := 0x2F.
Definition dot : pystr := [0x2E].
Definition dotdot : pystr := [0x2E; 0x2E].

(** [s.split('/')] *)
Fixpoint split_slash (cur : pystr) (s : pystr) : list pystr :=
  match s with
  | [] => [rev cur]
  | c :: s' =>
      if c =? slash then rev cur :: split_slash [] s' else split_slash (c :: cur) s'
  end.

Definition keep_part (p : pystr) : bool :=
  negb (bool_decide (p = [])) && negb (bool_decide (p = dot)).

(** [Path(s)]: empty components and [.] are dropped, [..] is kept. *)
Definition of_str (s : pystr) : Path :=
  {| anchored := match s with c :: _ => c =? slash | [] => false end;
     parts := List.filter keep_part (split_slash [] s) |}.

(** [p / s]: an absolute right-hand side replaces [p]. *)
Definition joinpath (p : Path) (s : pystr) : Path :=
  let q := of_str s in
  if anchored q then q
  else {| anchored := anchored p; parts := parts p ++ parts q |}.

(** [p.parent] *)
Definition parent (p : Path) : Path :=
  {| anchored := anchored p; parts := removelast (parts p) |}.

(** [str(p)] *)
Definition path_str (p : Path) : pystr :=
  if anchored p then slash :: join [slash] (parts p)
  else match parts p with
       | [] => dot
       | _ => join [slash] (parts p)
       end.

(** The [k]-th ancestor of [p]. *)
Definition ancestor (k : nat) (p : Path) : Path := Nat.iter k parent p.

End Pathlib.
Export Pathlib.

Declare Scope path_scope.
Delimit Scope path_scope with path.
Infix "</>" := joinpath (at level 40, left associativity) : path_scope.
Local Open Scope path_scope.

(** ** A file system

    Directories and text files under absolute, normalised keys; the root
    always exists. No symbolic links and no permissions: every failure of a
    system call below is a missing or mistyped path component. *)

Module Posix.

Inductive node : Type :=
| Dir
| File (text : option pystr).  (** [None]: bytes that are not valid UTF-8 *)

Definition key : Type := list pystr.

Inductive errno : Type := ENOENT | ENOTDIR | EEXIST | EISDIR.

(** The entries of the file system, one per key. *)
Definition fsys : Type := list (key * node).

Fixpoint fs_lookup (k : key) (fs : fsys) : option node :=
  match fs with
  | [] => None
  | (k', n) :: fs' => if bool_decide (k' = k) then Some n else fs_lookup k fs'
  end.

Fixpoint fs_insert (k : key) (n : node) (fs : fsys) : fsys :=
  match fs with
  | [] => [(k, n)]
  | (k', n') :: fs' =>
      if bool_decide (k' = k) then (k', n) :: fs' else (k', n') :: fs_insert k n fs'
  end.

#[global] Instance fsys_lookup : Lookup key node fsys := fs_lookup.
#[global] Instance fsys_insert : Insert key node fsys := fs_insert.

Definition node_at (fs : fsys) (k : key) : option node :=
  match k with
  | [] => Some Dir
  | _ :: _ => fs !! k
  end.

(** Path resolution: every component is looked up in a directory. *)
Fixpoint walk (fs : fsys) (cur : key) (comps : list pystr)
  : errno + key :=
  match comps with
  | [] => inr cur
  | c :: rest =>
      match node_at fs cur with
      | Some Dir =>
          walk fs (if bool_decide (c = dotdot) then removelast cur else cur ++ [c]) rest
      | Some (File _) => inl ENOTDIR
      | None => inl ENOENT
      end
  end.

Definition namei (fs : fsys) (cwd : key) (p : Path) : errno + key :=
  walk fs (if anchored p then [] else cwd) (parts p).

(** [os.stat] as far as the scripts use it. *)
Definition stat (fs : fsys) (cwd : key) (p : Path) : errno + node :=
  match namei fs cwd p with
  | inl e => inl e
  | inr k => match node_at fs k with
             | Some n => inr n
             | None => inl ENOENT
             end
  end.

(** [os.mkdir] *)
Definition os_mkdir (fs : fsys) (cwd : key) (p : Path)
  : errno + fsys :=
  match namei fs cwd p with
  | inl e => inl e
  | inr k => match node_at fs k with
             | Some _ => inl EEXIST
             | None => inr (<[k := Dir]> fs)
             end
  end.

(** [open(p, "w")]: the key of the created or truncated file. *)
Definition os_open_w (fs : fsys) (cwd : key) (p : Path)
  : errno + (key * fsys) :=
  match namei fs cwd p with
  | inl e => inl e
  | inr k => match node_at fs k with
             | Some Dir => inl EISDIR
             | _ => inr (k, <[k := File (Some [])]> fs)
             end
  end.

(** [write] on a file opened for writing. *)
Definition os_write (fs : fsys) (k : key) (s : pystr) : fsys :=
  match fs !! k with
  | Some (File (Some t)) => <[k := File (Some (t ++ s))]> fs
  | _ => fs
  end.

(** Lexical normalisation of [..], as [realpath] does without links. *)
Definition normalize (comps : list pystr) : key :=
  fold_left (fun acc c => if bool_decide (c = dotdot) then removelast acc
                          else acc ++ [c]) comps [].

End Posix.
Export Posix.

(** ** The scripts' effects

    State: the file system, the console, the child processes started so
    far, and the sources the scripts read without controlling them (working
    directory, clock, [uuid4], the external programs). A computation returns
    a value or raises an exception. *)

Module Effects.

Inductive exc_class : Type :=
| FileNotFoundError | NotADirectoryError | FileExistsError | IsADirectoryError
| UnicodeDecodeError | JSONDecodeError | KeyError | AttributeError
| TimeoutExpired | BrokenPipeError | OSError
| KeyboardInterrupt.

(** [isinstance(e, Exception)]: what [except Exception] catches. *)
Definition is_Exception (c : exc_class) : bool :=
  match c with
  | KeyboardInterrupt => false
  | _ => true
  end.

(** An exception object: its class and [str(e)]. *)
Record exc : Type := mkExc { exc_cls : exc_class; exc_str : pystr }.

Inductive fd : Type := Stdout | Stderr.

(** What a started child process does: it writes text to its two output
    streams and exits, or the parent's traffic with it raises (broken pipe,
    undecodable output, interrupt). *)
Inductive behaviour : Type :=
| Exits (chunks : list (fd * pystr)) (returncode : Z) (elapsed : Z)
| Faults (e : exc).

Inductive spawn : Type :=
| SpawnFails (e : exc)
| Child (b : behaviour).

Record world : Type := mkWorld {
  w_fs : fsys;
  w_cwd : key;
  w_console : list pystr;            (** one entry per [print] *)
  w_spawned : list (list pystr);     (** arguments of every child started *)
  w_clock : Z;                       (** [time.time()], in whole seconds *)
  w_strftime : Z -> pystr;           (** [time.strftime("%Y%m%d-%H%M%S")] *)
  w_uuid : nat -> pystr;             (** successive [uuid.uuid4().hex] *)
  w_uuid_next : nat;
  w_agent : list pystr -> pystr -> spawn;  (** the external programs *)
  w_repr : pyval -> pystr            (** [repr] of floats and containers *)
}.

Definition set_fs (fs : fsys) (w : world) : world :=
  mkWorld fs (w_cwd w) (w_console w) (w_spawned w) (w_clock w) (w_strftime w)
          (w_uuid w) (w_uuid_next w) (w_agent w) (w_repr w).

Definition add_console (line : pystr) (w : world) : world :=
  mkWorld (w_fs w) (w_cwd w) (w_console w ++ [line]) (w_spawned w) (w_clock w)
          (w_strftime w) (w_uuid w) (w_uuid_next w) (w_agent w) (w_repr w).

Definition add_spawned (cmd : list pystr) (w : world) : world :=
  mkWorld (w_fs w) (w_cwd w) (w_console w) (w_spawned w ++ [cmd]) (w_clock w)
          (w_strftime w) (w_uuid w) (w_uuid_next w) (w_agent w) (w_repr w).

Definition advance_clock (dt : Z) (w : world) : world :=
  mkWorld (w_fs w) (w_cwd w) (w_console w) (w_spawned w) (w_clock w + dt)
          (w_strftime w) (w_uuid w) (w_uuid_next w) (w_agent w) (w_repr w).

Definition next_uuid (w : world) : world :=
  mkWorld (w_fs w) (w_cwd w) (w_console w) (w_spawned w) (w_clock w)
          (w_strftime w) (w_uuid w) (S (w_uuid_next w)) (w_agent w) (w_repr w).

Inductive outcome (A : Type) : Type :=
| Ret (a : A)
| Raise (e : exc).
Arguments Ret {A} a.
Arguments Raise {A} e.

Definition M (A : Type) : Type := world -> outcome A * world.

Definition ret {A} (a : A) : M A := fun w => (Ret a, w).

Definition raise {A} (e : exc) : M A := fun w => (Raise e, w).

Definition bind {A B} (m : M A) (k : A -> M B) : M B :=
  fun w => match m w with
           | (Ret a, w') => k a w'
           | (Raise e, w') => (Raise e, w')
           end.

(** [try: m  except Exception as e: h e] *)
Definition try_except {A} (m : M A) (h : exc -> M A) : M A :=
  fun w => match m w with
           | (Raise e, w') =>
               if is_Exception (exc_cls e) then h e w' else (Raise e, w')
           | r => r
           end.

(** Reading the state. *)
Definition gets {A} (f : world -> A) : M A := fun w => (Ret (f w), w).

(** Changing the state. *)
Definition modify (f : world -> world) : M unit := fun w => (Ret tt, f w).

End Effects.
Export Effects.

Declare Scope monad_scope.
Delimit Scope monad_scope with monad.
Notation "x <- m ;; k" := (bind m (fun x => k))
  (at level 100, m at next level, right associativity) : monad_scope.
Notation "m ;; k" := (bind m (fun _ => k))
  (at level 100, right associativity) : monad_scope.
Local Open Scope monad_scope.

(** ** System calls and library calls as computations *)

Module Sys.

(** [repr(s)] of a text without quotes, backslashes or unprintable code
    points; otherwise the runtime's. *)
Definition plain_char (c : N) : bool :=
  (0x20 <=? c) && (c <=? 0x7E) && negb (c =? 0x27) && negb (c =? backslash).

Definition repr_str (w : world) (s : pystr) : pystr :=
  if forallb plain_char s then [0x27] ++ s ++ [0x27] else w_repr w (PStr s).

Definition strerror (e : errno) : pystr :=
  match e with
  | ENOENT => lit "[Errno 2] No such file or directory: "
  | ENOTDIR => lit "[Errno 20] Not a directory: "
  | EEXIST => lit "[Errno 17] File exists: "
  | EISDIR => lit "[Errno 21] Is a directory: "
  end.

Definition class_of_errno (e : errno) : exc_class :=
  match e with
  | ENOENT => FileNotFoundError
  | ENOTDIR => NotADirectoryError
  | EEXIST => FileExistsError
  | EISDIR => IsADirectoryError
  end.

(** The [OSError] Python raises for a failed call on path [p]. *)
Definition os_error (w : world) (e : errno) (p : Path) : exc :=
  mkExc (class_of_errno e) (strerror e ++ repr_str w (path_str p)).

(** [p.exists()], [p.is_dir()] *)
Definition path_exists (p : Path) (w : world) : bool :=
  match stat (w_fs w) (w_cwd w) p with
  | inr _ => true
  | inl _ => false
  end.

Definition is_dir (p : Path) (w : world) : bool :=
  match stat (w_fs w) (w_cwd w) p with
  | inr Dir => true
  | _ => false
  end.

(** [Path.cwd()] *)
Definition cwd (w : world) : Path := mkPath true (w_cwd w).

(** [p.resolve()] *)
Definition resolve (p : Path) (w : world) : Path :=
  mkPath true (normalize ((if anchored p then [] else w_cwd w) ++ parts p)).

(** [os.mkdir(p)] *)
Definition mkdir1 (p : Path) : M unit :=
  fun w => match os_mkdir (w_fs w) (w_cwd w) p with
           | inr fs' => (Ret tt, set_fs fs' w)
           | inl e => (Raise (os_error w e p), w)
           end.

(** [p.mkdir(parents=True, exist_ok=True)]; [fuel] bounds the recursion on
    the parents. *)
Fixpoint mkdir_fuel (fuel : nat) (parents : bool) (p : Path) : M unit :=
  fun w =>
    match os_mkdir (w_fs w) (w_cwd w) p with
    | inr fs' => (Ret tt, set_fs fs' w)
    | inl ENOENT =>
        match fuel with
        | O => (Raise (os_error w ENOENT p), w)
        | S f =>
            if negb parents || bool_decide (parent p = p)
            then (Raise (os_error w ENOENT p), w)
            else (mkdir_fuel f true (parent p) ;; mkdir_fuel f false p) w
        end
    | inl e =>
        if is_dir p w then (Ret tt, w) else (Raise (os_error w e p), w)
    end.

Definition mkdir_parents (p : Path) : M unit :=
  mkdir_fuel (S (length (parts p))) true p.

(** [p.read_text(encoding="utf-8")]. A file whose bytes are not UTF-8 is
    [File None]: the bytes are not kept, so the message of the
    [UnicodeDecodeError], which quotes them, is cut after its fixed start. *)
Definition read_text (p : Path) : M pystr :=
  fun w => match stat (w_fs w) (w_cwd w) p with
           | inl e => (Raise (os_error w e p), w)
           | inr Dir => (Raise (os_error w EISDIR p), w)
           | inr (File None) =>
               (Raise (mkExc UnicodeDecodeError
                         (lit "'utf-8' codec can't decode bytes")), w)
           | inr (File (Some t)) => (Ret t, w)
           end.

(** [open(p, "w", encoding="utf-8")]: the handle is the file's key. *)
Definition open_w (p : Path) : M key :=
  fun w => match os_open_w (w_fs w) (w_cwd w) p with
           | inr (k, fs') => (Ret k, set_fs fs' w)
           | inl e => (Raise (os_error w e p), w)
           end.

(** [f.write(s)] *)
Definition write (f : key) (s : pystr) : M unit :=
  modify (fun w => set_fs (os_write (w_fs w) f s) w).

(** [p.write_text(s, encoding="utf-8")] *)
Definition write_text (p : Path) (s : pystr) : M unit :=
  f <- open_w p ;; write f s.

(** [print(s)] on a standard output that can encode every text (as under
    [PYTHONIOENCODING=utf-8:surrogatepass]): one more entry on the console.
    On another console [print] raises [UnicodeEncodeError] for a text its
    encoding does not cover; that case is outside the model. *)
Definition print (s : pystr) : M unit := modify (add_console s).

(** [uuid.uuid4().hex] *)
Definition uuid4_hex : M pystr :=
  fun w => (Ret (w_uuid w (w_uuid_next w)), next_uuid w).

(** [time.time()], [time.strftime("%Y%m%d-%H%M%S")] *)
Definition time_time : M Z := gets w_clock.
Definition strftime : M pystr := gets (fun w => w_strftime w (w_clock w)).

(** All the text a child wrote, and the text it wrote to one stream. *)
Definition merged (chunks : list (fd * pystr)) : pystr :=
  flat_map snd chunks.

Definition on_fd (f : fd) (chunks : list (fd * pystr)) : pystr :=
  flat_map (fun c => match fst c, f with
                     | Stdout, Stdout | Stderr, Stderr => snd c
                     | _, _ => []
                     end) chunks.

(** [subprocess.Popen(cmd, stdin=PIPE, ..., shell=True)] followed by writing
    [prompt] to the child's input and closing it. [cmd] is the argument list
    handed to [subprocess], which is what [w_spawned] records: with
    [shell=True] the shell decides what is run from it (on POSIX the first
    item is the command and the others are arguments of the shell itself; on
    Windows the items are joined into one command line). What the child does
    to the files is not part of [behaviour]. *)
Definition Popen (cmd : list pystr) (prompt : pystr) : M behaviour :=
  fun w => match w_agent w cmd prompt with
           | SpawnFails e => (Raise e, w)
           | Child b => (Ret b, add_spawned cmd w)
           end.

(** The type names in Python's [AttributeError] messages. *)
Definition type_name (v : pyval) : pystr :=
  match v with
  | PNone => lit "NoneType"
  | PBool _ => lit "bool"
  | PInt _ => lit "int"
  | PFloat _ => lit "float"
  | PStr _ => lit "str"
  | PList _ => lit "list"
  | PDict _ => lit "dict"
  end.

Definition no_attribute (v : pyval) (attr : string) : exc :=
  mkExc AttributeError
    ([0x27] ++ type_name v ++ lit "' object has no attribute '" ++ lit attr ++ [0x27]).

(** [v.get(k, default)] *)
Definition py_get (v : pyval) (k : pystr) (default : pyval) : M pyval :=
  match v with
  | PDict d => ret (match dict_get d k with Some x => x | None => default end)
  | _ => raise (no_attribute v "get")
  end.

(** [d[k]] on a dict *)
Definition getitem (d : dict) (k : pystr) : M pyval :=
  fun w => match dict_get d k with
           | Some v => (Ret v, w)
           | None => (Raise (mkExc KeyError (repr_str w k)), w)
           end.

(** [v.upper()] *)
Definition py_upper (v : pyval) : M pystr :=
  match v with
  | PStr s => ret (upper s)
  | _ => raise (no_attribute v "upper")
  end.

(** [format(v)] inside an f-string *)
Definition py_format (v : pyval) (w : world) : pystr :=
  match v with
  | PStr s => s
  | PNone => lit "None"
  | PBool true => lit "True"
  | PBool false => lit "False"
  | PInt z => repr_Z z
  | _ => w_repr w v
  end.

End Sys.
Export Sys.

(** ** [config.py] *)

Module Config.


Definition default_config : pyval :=
  PDict [(lit "execution_backend", PStr (lit "gemini"))].

(** The loop of [find_agent_root], [n] iterations left. *)
Fixpoint find_agent_root_loop (n : nat) (curr : Path) (w : world) : Path :=
  match n with
  | O => of_str (lit ".agent")
  | S n' =>
      if path_exists (curr </> lit ".agent") w then curr </> lit ".agent"
      else if path_exists (curr </> lit "skills") w
              && path_exists (parent curr </> lit ".agent") w
           then parent curr </> lit ".agent"
      else if bool_decide (parent curr = curr) then of_str (lit ".agent")
      else find_agent_root_loop n' (parent curr) w
  end.

Definition find_agent_root (start : Path) (w : world) : Path :=
  find_agent_root_loop 10 (resolve start w) w.

Definition root_or_default (root_path : option Path) (w : world) : Path :=
  match root_path with
  | Some p => p
  | None => find_agent_root (cwd w) w
  end.

Definition load_config (root_path : option Path) : M pyval :=
  root <- gets (root_or_default root_path) ;;
  let config_path := root </> lit "config.json" in
  present <- gets (path_exists config_path) ;;
  if negb present then ret default_config
  else
    try_except
      (text <- read_text config_path ;;
       match loads text with
       | Some v => ret v
       | None => raise (mkExc JSONDecodeError (lit "Expecting value"))
       end)
      (fun _ => ret default_config).

Definition save_config (config : pyval) (root_path : option Path) : M unit :=
  root <- gets (root_or_default root_path) ;;
  let config_path := root </> lit "config.json" in
  mkdir_parents (parent config_path) ;;
  write_text config_path (dumps 2 config).

End Config.

(** ** [execute_task.py] *)

Module ExecuteTask.

Definition START_MARKER : pystr := lit "---SUBAGENT-RESULT-START---".
Definition END_MARKER : pystr := lit "---SUBAGENT-RESULT-END---".

(** The loop of [find_repo_root], [n] iterations left. *)
Fixpoint find_repo_root_loop (n : nat) (curr : Path) (w : world) : Path :=
  match n with
  | O => cwd w
  | S n' =>
      if path_exists (curr </> lit ".agent") w then curr
      else if bool_decide (parent curr = curr) then cwd w
      else find_repo_root_loop n' (parent curr) w
  end.

Definition find_repo_root (start : Path) (w : world) : Path :=
  find_repo_root_loop 10 (resolve start w) w.

Definition load_skill_instructions (skill_path : Path) : M pystr :=
  present <- gets (path_exists skill_path) ;;
  if negb present then ret [] else read_text skill_path.

Definition skill_file (repo_root : Path) (skill : pystr) : Path :=
  repo_root </> (lit ".agent/skills/superpowers-" ++ skill ++ lit "/SKILL.md").

Definition skill_not_found (repo_root : Path) (skill : pystr) : dict :=
  [(lit "success", PBool false);
   (lit "error", PStr (lit "Skill not found: " ++ path_str (skill_file repo_root skill)))].

Definition gemini_prompt (skill task skill_instructions id8 : pystr) : pystr :=
  lit "You are a specialized subagent focused on: " ++ skill ++ lit "

IMPORTANT: You have ISOLATED CONTEXT. Do not assume knowledge from other conversations.

Task:
" ++ task ++ lit "

Skill Instructions:
" ++ skill_instructions ++ lit "

Requirements:
1. Follow the skill instructions exactly
2. Complete the task fully
3. Output ONLY the final result at the end
4. Do not include meta-commentary or thinking process in final output
5. Write any artifacts to artifacts/superpowers/subagent-" ++ id8 ++ lit "/

When complete, output:
---SUBAGENT-RESULT-START---
[Your final result here]
---SUBAGENT-RESULT-END---
".

Definition claude_prompt (task skill_instructions : pystr) : pystr :=
  lit "Task: " ++ task ++ lit "

Skill Instructions:
" ++ skill_instructions ++ lit "

Requirements:
1. Follow the skill instructions exactly.
2. Complete the task fully.
3. If creating files, just create them.
".

Definition gemini_cmd (yolo : bool) : list pystr :=
  [lit "gemini"] ++ (if yolo then [lit "--yolo"] else []).

Definition claude_cmd : list pystr :=
  [lit "claude"; lit "-p"; lit "Follow the instructions provided in the input.";
   lit "--dangerously-skip-permissions"].

(** The [readline] loop: every line goes to the log, and to the console
    when [echo] is set; the lines read so far are [full_output]. *)
Fixpoint stream_loop (echo : bool) (log : key) (lines : list pystr)
    (full_output : list pystr) : M (list pystr) :=
  match lines with
  | [] => ret full_output
  | line :: rest =>
      (if echo then print line else ret tt) ;;
      write log line ;;
      stream_loop echo log rest (full_output ++ [line])
  end.

(** [Popen] with the two output streams merged, then the [readline] loop:
    the exit code and the text read. The child's text is the text as the
    parent reads it, after the newline translation of [text=True]. *)
Definition run_streaming (cmd : list pystr) (prompt : pystr) (echo : bool)
    (log : key) : M (Z * pystr) :=
  b <- Popen cmd prompt ;;
  match b with
  | Faults e => raise e
  | Exits chunks returncode elapsed =>
      full_output <- stream_loop echo log (readlines (merged chunks)) [] ;;
      modify (advance_clock elapsed) ;;
      ret (returncode, concat full_output)
  end.

(** [str(TimeoutExpired(cmd, t))]: the list is formatted with [%s] between
    two quote marks. *)
Definition timeout_message (w : world) (cmd : list pystr) (t : Z) : pystr :=
  lit "Command '" ++ lit "[" ++ join (lit ", ") (map (repr_str w) cmd) ++ lit "]"
  ++ lit "' timed out after " ++ repr_Z t ++ lit " seconds".

(** [subprocess.run(cmd, input=prompt, capture_output=True, timeout=t)]:
    exit code, captured standard output, captured standard error. *)
Definition subprocess_run (cmd : list pystr) (prompt : pystr) (t : Z)
  : M (Z * pystr * pystr) :=
  b <- Popen cmd prompt ;;
  match b with
  | Faults e => raise e
  | Exits chunks returncode elapsed =>
      if (t <? elapsed)%Z then
        modify (advance_clock t) ;;
        msg <- gets (fun w => timeout_message w cmd t) ;;
        raise (mkExc TimeoutExpired msg)
      else
        modify (advance_clock elapsed) ;;
        ret (returncode, on_fd Stdout chunks, on_fd Stderr chunks)
  end.

(** The result extraction at the end of [run_gemini_backend]. *)
Definition extract_result (output_str : pystr) : pystr :=
  if contains START_MARKER output_str then
    match split1 START_MARKER output_str with
    | _ :: after :: _ =>
        match split1 END_MARKER after with
        | result :: _ => strip result
        | [] => output_str
        end
    | _ => output_str
    end
  else output_str.

Definition process_result (returncode : Z) (output full_log : pystr) : dict :=
  [(lit "success", PBool (returncode =? 0)%Z);
   (lit "output", PStr output);
   (lit "error", PStr (if (returncode =? 0)%Z then [] else lit "Process failed"));
   (lit "full_log", PStr full_log)].

Definition run_gemini_backend (skill task : pystr) (repo_root : Path)
    (yolo : bool) (log_file : Path) (stream_output : bool) : M dict :=
  skill_instructions <- load_skill_instructions (skill_file repo_root skill) ;;
  if bool_decide (skill_instructions = []) then ret (skill_not_found repo_root skill)
  else
    id <- uuid4_hex ;;
    let prompt := gemini_prompt skill task skill_instructions (prefix 8 id) in
    let cmd := gemini_cmd yolo in
    log <- open_w log_file ;;
    write log (lit "=== GEMINI EXECUTION START ===
") ;;
    write log (lit "Task: " ++ task ++ [0x0A; 0x0A]) ;;
    r <- (if stream_output then run_streaming cmd prompt true log
          else
            res <- subprocess_run cmd prompt 600 ;;
            write log (snd (fst res)) ;;
            write log (lit "
=== STDERR ===
") ;;
            write log (snd res) ;;
            ret (fst (fst res), snd (fst res))) ;;
    ret (process_result (fst r) (extract_result (snd r)) (snd r)).

Definition run_claude_backend (skill task : pystr) (repo_root : Path)
    (yolo : bool) (log_file : Path) (stream_output : bool) : M dict :=
  skill_instructions <- load_skill_instructions (skill_file repo_root skill) ;;
  if bool_decide (skill_instructions = []) then ret (skill_not_found repo_root skill)
  else
    let full_prompt := claude_prompt task skill_instructions in
    log <- open_w log_file ;;
    write log (lit "=== CLAUDE EXECUTION START ===
") ;;
    write log (lit "Task: " ++ task ++ [0x0A; 0x0A]) ;;
    r <- run_streaming claude_cmd full_prompt stream_output log ;;
    ret (process_result (fst r) (snd r) (snd r)).

Definition is_claude (backend : pyval) : bool :=
  match backend with
  | PStr s => bool_decide (s = lit "claude")
  | _ => false
  end.

(** The branch of [execute_task] on the backend name. *)
Definition dispatch (backend : pyval)
  : pystr -> pystr -> Path -> bool -> Path -> bool -> M dict :=
  if is_claude backend then run_claude_backend else run_gemini_backend.

Definition log_dir (repo_root : Path) : Path :=
  repo_root </> lit "artifacts" </> lit "superpowers" </> lit "subagents".

Definition log_name (backend skill timestamp subagent_id : pystr) : pystr :=
  backend ++ lit "-" ++ skill ++ lit "-" ++ timestamp ++ lit "-" ++ subagent_id
  ++ lit ".log".

(** The first characters of the two banner lines, as the source file has
    them. *)
Definition robot : pystr := [0xF8FF; 0xFC; 0xA7; 0xF1; 0x20].
Definition memo : pystr := [0xF8FF; 0xFC; 0xEC; 0xF9; 0x20].

(** The result of [execute_task]. The clock counts whole seconds, and
    [duration_s] is kept as that number of seconds; Python has the float of
    the same value there. *)
Definition summary (success output error : pyval) (log_file : Path)
    (duration_s : Z) (subagent_id : pystr) (backend : pyval) : dict :=
  [(lit "success", success);
   (lit "output", output);
   (lit "error", error);
   (lit "log_file", PStr (path_str log_file));
   (lit "duration_s", PInt duration_s);
   (lit "subagent_id", PStr subagent_id);
   (lit "backend", backend)].

(** The steps of [execute_task] before its [try]: configuration, log path,
    log directory, the two console lines. They yield the backend name, the
    log path, the identifier and the start time. *)
Definition prepare (skill : pystr) (repo_root : Path) (background : bool)
    (output_format : pystr) : M (pyval * Path * pystr * Z) :=
  cfg <- Config.load_config (Some (repo_root </> lit ".agent")) ;;
  backend <- py_get cfg (lit "execution_backend") (PStr (lit "gemini")) ;;
  id <- uuid4_hex ;;
  let subagent_id := prefix 8 id in
  timestamp <- strftime ;;
  mkdir_parents (log_dir repo_root) ;;
  name <- gets (fun w => log_name (py_format backend w) skill timestamp subagent_id) ;;
  let log_file := log_dir repo_root </> name in
  start_time <- time_time ;;
  (if bool_decide (output_format = lit "text") && negb background then
     up <- py_upper backend ;;
     print (robot ++ lit "Executing task using " ++ up ++ lit "...") ;;
     print (memo ++ lit "Logging to: " ++ path_str log_file)
   else ret tt) ;;
  ret (backend, log_file, subagent_id, start_time).

(** The [try] statement of [execute_task], [run] being the dispatched
    backend call. *)
Definition attempt (run : M dict) (backend : pyval) (log_file : Path)
    (subagent_id : pystr) (start_time : Z) : M dict :=
  try_except
    (result <- run ;;
     now <- time_time ;;
     let duration_s := (now - start_time)%Z in
     success <- getitem result (lit "success") ;;
     output <- getitem result (lit "output") ;;
     let error := match dict_get result (lit "error") with
                  | Some e => e
                  | None => PStr []
                  end in
     ret (summary success output error log_file duration_s subagent_id backend))
    (fun e =>
       now <- time_time ;;
       let duration_s := (now - start_time)%Z in
       ret (summary (PBool false) (PStr []) (PStr (exc_str e)) log_file
                    duration_s subagent_id backend)).

Definition execute_task (skill task : pystr) (repo_root : Path)
    (yolo background : bool) (output_format : pystr) : M dict :=
  p <- prepare skill repo_root background output_format ;;
  let '(backend, log_file, subagent_id, start_time) := p in
  attempt (dispatch backend skill task repo_root yolo log_file (negb background))
          backend log_file subagent_id start_time.

End ExecuteTask.

Import Config ExecuteTask.

(** ** Specification vocabulary *)

Module Spec.

(** The text a backend captures from a finished child: everything when the
    child's two streams are piped together, standard output otherwise. *)
Definition captured (piped : bool) (chunks : list (fd * pystr)) : pystr :=
  if piped then merged chunks else on_fd Stdout chunks.

(** What a backend call does, stage by stage: skill check, opening the log,
    starting the child, the child's end. [prompt] builds the prompt from the
    skill text, [piped] tells how the child's output is read (the time limit
    applies to the other way only), [post] turns the captured text into the
    [output] field. *)
Definition backend_post (cmd : list pystr) (prompt : pystr -> pystr)
    (piped : bool) (post : pystr -> pystr) (repo_root : Path) (skill : pystr)
    (log_file : Path) (w : world) (o : outcome dict) (w' : world) : Prop :=
  w_cwd w' = w_cwd w /\ w_agent w' = w_agent w /\
  match load_skill_instructions (skill_file repo_root skill) w with
  | (Raise e, _) => o = Raise e /\ w' = w
  | (Ret si, _) =>
      if bool_decide (si = []) then
        o = Ret (skill_not_found repo_root skill) /\ w' = w
      else
        match os_open_w (w_fs w) (w_cwd w) log_file with
        | inl e =>
            o = Raise (os_error w e log_file)
            /\ w_fs w' = w_fs w /\ w_spawned w' = w_spawned w
        | inr (k, _) =>
            (exists t, w_fs w' = <[k := File (Some t)]> (w_fs w)) /\
            match w_agent w cmd (prompt si) with
            | SpawnFails e => o = Raise e /\ w_spawned w' = w_spawned w
            | Child b =>
                w_spawned w' = w_spawned w ++ [cmd] /\
                match b with
                | Faults e => o = Raise e
                | Exits chunks returncode elapsed =>
                    if negb piped && (600 <? elapsed)%Z then
                      exists msg, o = Raise (mkExc TimeoutExpired msg)
                    else
                      let out := captured piped chunks in
                      o = Ret (process_result returncode (post out) out)
                end
            end
        end
  end.

(** A text that may follow a JSON number: at its start no digit, point or
    exponent mark. *)
Definition number_end (rest : pystr) : bool :=
  match rest with
  | [] => true
  | c :: _ => negb (is_digit c) && negb (c =? 0x2E) && negb (c =? 0x65)
              && negb (c =? 0x45)
  end.

(** The nesting depth of a value. *)
Fixpoint depth (v : pyval) : nat :=
  match v with
  | PList xs => S (fold_right (fun x d => Nat.max (depth x) d) 0%nat xs)
  | PDict ms => S (fold_right (fun m d => Nat.max (depth (snd m)) d) 0%nat ms)
  | _ => 1%nat
  end.


(** The result a run returned, the empty dict standing for a raised
    exception. *)
Definition result_of (run : outcome dict * world) : dict :=
  match fst run with
  | Ret r => r
  | Raise _ => []
  end.

(** [open(p, "w")] would succeed. *)
Definition can_open_w (p : Path) (w : world) : bool :=
  match os_open_w (w_fs w) (w_cwd w) p with
  | inr _ => true
  | inl _ => false
  end.

End Spec.
Export Spec.

(** ** Sample states

    A project [/proj] with one skill, [plan], and external programs that
    print a bracketed answer. *)

Module Examples.

Definition root : Path := of_str (lit "/proj").

Definition skills_fs : fsys :=
  <[ [lit "proj"; lit ".agent"; lit "skills"; lit "superpowers-plan"; lit "SKILL.md"]
       := File (Some (lit "Plan well.")) ]>
  (<[ [lit "proj"; lit ".agent"; lit "skills"; lit "superpowers-plan"] := Dir ]>
  (<[ [lit "proj"; lit ".agent"; lit "skills"] := Dir ]>
  (<[ [lit "proj"; lit ".agent"] := Dir ]>
  (<[ [lit "proj"] := Dir ]> ([] : fsys))))).

(** The same project with a configuration document holding [text]. *)
Definition configured_fs (text : pystr) : fsys :=
  <[ [lit "proj"; lit ".agent"; lit "config.json"] := File (Some text) ]> skills_fs.

Definition answer : pystr := lit "noise
---SUBAGENT-RESULT-START---
DONE
---SUBAGENT-RESULT-END---
more noise".

(** Every program prints [answer] and exits with [returncode] after
    [elapsed] seconds. *)
Definition answering (returncode elapsed : Z) : list pystr -> pystr -> spawn :=
  fun _ _ => Child (Exits [(Stdout, answer)] returncode elapsed).

(** No program can be started: [Popen] raises [e]. *)
Definition unstartable (e : exc) : list pystr -> pystr -> spawn :=
  fun _ _ => SpawnFails e.

Definition state (fs : fsys) (agent : list pystr -> pystr -> spawn)
  : world :=
  {| w_fs := fs; w_cwd := [lit "proj"]; w_console := []; w_spawned := [];
     w_clock := 1700000000; w_strftime := fun _ => lit "20231114-221320";
     w_uuid := fun _ => lit "0123456789abcdef0123456789abcdef";
     w_uuid_next := 0; w_agent := agent; w_repr := fun _ => lit "<repr>" |}.

(** The project configured for a backend the scripts do not know. *)
Definition other_backend_state : world :=
  state (configured_fs
           (dumps 2 (PDict [(lit "execution_backend", PStr (lit "openai"))])))
        (answering 0 5).

(** The project configured for a backend whose name holds a [/]. *)
Definition slash_backend_state : world :=
  state (configured_fs
           (dumps 2 (PDict [(lit "execution_backend", PStr (lit "open/ai"))])))
        (answering 0 5).

(** A state whose [uuid4] values differ from one call to the next, and
    whose [gemini] answers only the prompt of [plan] that names the
    artifacts directory of the second one; nothing else can be started. *)
Definition numbered_uuid (n : nat) : pystr :=
  match n with
  | O => lit "aaaaaaaa0000000000000000aaaaaaaa"
  | S _ => lit "bbbbbbbb1111111111111111bbbbbbbb"
  end.

Definition checking_agent : list pystr -> pystr -> spawn :=
  fun cmd prompt =>
    if bool_decide (prompt = gemini_prompt (lit "plan") (lit "do it")
                               (lit "Plan well.") (lit "bbbbbbbb"))
    then Child (Exits [(Stdout, answer)] 0 5)
    else SpawnFails (mkExc FileNotFoundError
                       (lit "[Errno 2] No such file or directory: 'gemini'")).

Definition checking_state : world :=
  {| w_fs := skills_fs; w_cwd := [lit "proj"]; w_console := []; w_spawned := [];
     w_clock := 1700000000; w_strftime := fun _ => lit "20231114-221320";
     w_uuid := numbered_uuid; w_uuid_next := 0; w_agent := checking_agent;
     w_repr := fun _ => lit "<repr>" |}.

Definition log_path : Path :=
  of_str (lit "/proj/run.log").

End Examples.

(** ** [set_backend.py] *)

Module SetBackend.

(** The values [argparse] accepts for [--backend]. *)
Inductive choice : Type := Gemini | Claude.

Definition choice_name (c : choice) : pystr :=
  match c with
  | Gemini => lit "gemini"
  | Claude => lit "claude"
  end.

(** How a run of [main] ends: it returns, or the item assignment raises
    [TypeError], or an exception of the configuration accessor leaves it. *)
Inductive ending : Type :=
| Finished
| TypeError (msg : pystr)
| Uncaught (e : exc).

(** The message of [v["execution_backend"] = ...] on a value that is not a
    dict. *)
Definition item_assignment_error (v : pyval) : pystr :=
  match v with
  | PList _ => lit "list indices must be integers or slices, not str"
  | _ => [0x27] ++ type_name v ++ lit "' object does not support item assignment"
  end.

Definition switched (backend : choice) : pystr :=
  [0x2705] ++ lit " Execution backend switched to: " ++ choice_name backend.

Definition saved : pystr := lit "Configuration saved to .agent/config.json".

Definition main (backend : choice) (w : world) : ending * world :=
  match load_config None w with
  | (Raise e, w1) => (Uncaught e, w1)
  | (Ret (PDict current_config), w1) =>
      match (save_config
               (PDict (dict_set current_config (lit "execution_backend")
                         (PStr (choice_name backend))))
               None ;;
             print (switched backend) ;;
             print saved) w1 with
      | (Ret _, w2) => (Finished, w2)
      | (Raise e, w2) => (Uncaught e, w2)
      end
  | (Ret v, w1) => (TypeError (item_assignment_error v), w1)
  end.

End SetBackend.

(** ** [execute_task.py], the command line *)

Module ExecuteTaskMain.

(** The parsed arguments. *)
Record args : Type := mkArgs {
  arg_skill : pystr;
  arg_task : pystr;
  arg_no_yolo : bool;
  arg_background : bool;
  arg_output_format : pystr
}.

(** Arithmetic on floats is outside the model. The two operations of [main]
    that may meet a float are parameters: the truth value of a float given by
    its literal, and [format(v, ".1f")], which gives a text or raises an
    exception of some class with some message. *)
Record formatting : Type := mkFormatting {
  float_truth : pystr -> bool;
  format_1f : pyval -> (pystr * pystr) + pystr
}.

(** How a run of [main] ends: it returns the exit code, or an exception of
    [execute_task] leaves it, or formatting the duration raises. *)
Inductive ending : Type :=
| Returned (code : Z)
| Uncaught (e : exc)
| FormatError (class_name message : pystr).

(** [bool(v)] *)
Definition truthy (F : formatting) (v : pyval) : bool :=
  match v with
  | PNone => false
  | PBool b => b
  | PInt z => negb (z =? 0)%Z
  | PFloat l => float_truth F l
  | PStr [] => false
  | PStr (_ :: _) => true
  | PList [] => false
  | PList (_ :: _) => true
  | PDict [] => false
  | PDict (_ :: _) => true
  end.

(** The two marks of the text summary, as the source file has them. *)
Definition check_mark : pystr := [0x201A; 0xFA; 0xD6].
Definition cross_mark : pystr := [0x201A; 0xF9; 0xE5].

(** [0 if result["success"] else 1] *)
Definition exit_code (F : formatting) (result : dict) (w : world)
  : ending * world :=
  match dict_get result (lit "success") with
  | Some success => (Returned (if truthy F success then 0 else 1), w)
  | None => (Uncaught (mkExc KeyError (repr_str w (lit "success"))), w)
  end.

(** The text summary printed outside background mode. *)
Definition text_summary (F : formatting) (result : dict) (w : world)
  : ending * world :=
  match dict_get result (lit "success") with
  | None => (Uncaught (mkExc KeyError (repr_str w (lit "success"))), w)
  | Some success =>
      match dict_get result (lit "duration_s") with
      | None => (Uncaught (mkExc KeyError (repr_str w (lit "duration_s"))), w)
      | Some duration_s =>
          match format_1f F duration_s with
          | inl (class_name, message) => (FormatError class_name message, w)
          | inr seconds =>
              let w1 :=
                add_console
                  ([0x0A] ++ (if truthy F success then check_mark else cross_mark)
                   ++ lit " Task completed in " ++ seconds ++ lit "s") w in
              if truthy F success then exit_code F result w1
              else
                match dict_get result (lit "error") with
                | None => (Uncaught (mkExc KeyError (repr_str w1 (lit "error"))), w1)
                | Some error =>
                    exit_code F result
                      (add_console (lit "Error: " ++ py_format error w1) w1)
                end
          end
      end
  end.

Definition main (F : formatting) (a : args) (w : world) : ending * world :=
  let repo_root := find_repo_root (cwd w) w in
  match execute_task (arg_skill a) (arg_task a) repo_root (negb (arg_no_yolo a))
          (arg_background a) (arg_output_format a) w with
  | (Raise e, w1) => (Uncaught e, w1)
  | (Ret result, w1) =>
      if bool_decide (arg_output_format a = lit "json") then
        exit_code F result (add_console (dumps 2 (PDict result)) w1)
      else if arg_background a then exit_code F result w1
      else text_summary F result w1
  end.

End ExecuteTaskMain.

(** * Properties *)

(** ** Text *)

Section TextFacts.

Lemma startswith_app (p r : pystr) : startswith p (p ++ r) = true.
Proof.
  induction p as [|a p IH]; simpl; [reflexivity|].
  rewrite N.eqb_refl. exact IH.
Qed.

Lemma startswith_take (p s : pystr) :
  startswith p s = true <-> take (length p) s = p.
Proof.
  revert s. induction p as [|a p IH]; intros s; simpl.
  - split; reflexivity.
  - destruct s as [|b s]; simpl.
    + split; discriminate.
    + destruct (N.eqb_spec a b) as [->|Hne].
      * rewrite IH. split; [intros ->; reflexivity | intros [= H]; exact H].
      * split; [discriminate | intros [= H _]; congruence].
Qed.

Lemma startswith_drop (p s : pystr) :
  startswith p s = true -> s = p ++ drop (length p) s.
Proof.
  intros H. apply startswith_take in H.
  rewrite <- H at 1. symmetry. apply take_drop.
Qed.

Lemma occurs_at_0 (sep s : pystr) : occurs_at sep s 0 <-> startswith sep s = true.
Proof. unfold occurs_at. rewrite drop_0. symmetry. apply startswith_take. Qed.

Lemma occurs_at_S (sep : pystr) (c : N) (s : pystr) (j : nat) :
  occurs_at sep (c :: s) (S j) <-> occurs_at sep s j.
Proof. unfold occurs_at. reflexivity. Qed.

(** [find] returns the first occurrence. *)
Lemma find_Some (sep s before after : pystr) :
  find sep s = Some (before, after) ->
  s = before ++ sep ++ after /\
  forall j, (j < length before)%nat -> ~ occurs_at sep s j.
Proof.
  revert before after. induction s as [|c s IH]; intros before after.
  - simpl. destruct (startswith sep []) eqn:E; [|discriminate].
    intros [= <- <-]. split; [|simpl; intros; lia].
    apply startswith_drop in E. exact E.
  - simpl. destruct (startswith sep (c :: s)) eqn:E.
    + intros [= <- <-]. split; [|simpl; intros; lia].
      apply startswith_drop in E. exact E.
    + destruct (find sep s) as [[b a]|] eqn:F; [|discriminate].
      intros [= <- <-]. destruct (IH _ _ eq_refl) as [Hs Hj]. split.
      * simpl. congruence.
      * intros [|j] Hlt.
        -- rewrite occurs_at_0. congruence.
        -- rewrite occurs_at_S. apply Hj. simpl in Hlt. lia.
Qed.

Lemma find_None (sep s : pystr) :
  find sep s = None -> forall j, ~ occurs_at sep s j.
Proof.
  induction s as [|c s IH]; simpl.
  - destruct (startswith sep []) eqn:E; [discriminate|]. intros _ j.
    unfold occurs_at. rewrite drop_nil. rewrite <- startswith_take. congruence.
  - destruct (startswith sep (c :: s)) eqn:E; [discriminate|].
    destruct (find sep s) as [[b a]|] eqn:F; [discriminate|]. intros _ [|j].
    + rewrite occurs_at_0. congruence.
    + rewrite occurs_at_S. apply IH. reflexivity.
Qed.

Lemma find_first (sep before after : pystr) :
  (forall j, (j < length before)%nat -> ~ occurs_at sep (before ++ sep ++ after) j) ->
  find sep (before ++ sep ++ after) = Some (before, after).
Proof.
  induction before as [|c b IH]; intros Hj.
  - simpl app. destruct (sep ++ after) as [|x l] eqn:E; simpl;
      rewrite <- E, startswith_app, drop_app_length; reflexivity.
  - simpl app. simpl find.
    destruct (startswith sep (c :: b ++ sep ++ after)) eqn:E.
    + exfalso. apply (Hj 0%nat); [simpl; lia|]. apply occurs_at_0. exact E.
    + rewrite IH; [reflexivity|]. intros j Hlt.
      rewrite <- (occurs_at_S sep c). apply Hj. simpl. lia.
Qed.

Lemma contains_true (sep s : pystr) :
  contains sep s = true <-> exists j, occurs_at sep s j.
Proof.
  unfold contains. destruct (find sep s) as [[b a]|] eqn:F.
  - split; [intros _|reflexivity]. apply find_Some in F as [-> _].
    exists (length b). unfold occurs_at.
    rewrite drop_app_length, take_app_length. reflexivity.
  - split; [discriminate|]. intros [j Hj]. exfalso. exact (find_None _ _ F j Hj).
Qed.

(** Reading a text line by line loses nothing. *)
Lemma readlines_aux_concat (cur s : pystr) :
  concat (readlines_aux cur s) = rev cur ++ s.
Proof.
  revert cur. induction s as [|c s IH]; intros cur; simpl.
  - destruct cur; simpl; rewrite ?app_nil_r; reflexivity.
  - destruct (c =? 10); simpl; rewrite IH; simpl; rewrite <- ?app_assoc; reflexivity.
Qed.

Lemma readlines_concat (s : pystr) : concat (readlines s) = s.
Proof. apply readlines_aux_concat. Qed.

(** [strip] removes white space at both ends and nothing else. *)
Lemma lstrip_spec (s : pystr) :
  exists l, s = l ++ lstrip s /\ forallb isspace l = true
            /\ match lstrip s with c :: _ => isspace c = false | [] => True end.
Proof.
  induction s as [|c s (l & Hs & Hl & Hc)]; simpl.
  - exists []. auto.
  - destruct (isspace c) eqn:E.
    + exists (c :: l). simpl. rewrite E, Hl. split; [congruence|auto].
    + exists []. simpl. auto.
Qed.

Lemma strip_spec (s : pystr) :
  exists l r, s = l ++ strip s ++ r
              /\ forallb isspace l = true /\ forallb isspace r = true
              /\ match strip s with c :: _ => isspace c = false | [] => True end
              /\ match rev (strip s) with c :: _ => isspace c = false | [] => True end.
Proof.
  destruct (lstrip_spec s) as (l & Hs & Hl & Hc).
  destruct (lstrip_spec (rev (lstrip s))) as (r & Hr & Hrs & Hrc).
  exists l, (rev r). unfold strip, rstrip.
  assert (E : lstrip s = rev (lstrip (rev (lstrip s))) ++ rev r).
  { rewrite <- rev_app_distr, <- Hr, rev_involutive. reflexivity. }
  repeat split.
  - rewrite <- E. exact Hs.
  - exact Hl.
  - rewrite forallb_forall in *. intros x Hx. apply Hrs. apply in_rev. exact Hx.
  - rewrite E in Hc.
    destruct (rev (lstrip (rev (lstrip s)))) as [|c t]; [exact I|exact Hc].
  - rewrite rev_involutive. exact Hrc.
Qed.

End TextFacts.

(** ** The file system *)

Section FileSystemFacts.

Lemma fs_lookup_insert_eq (fs : fsys) (k : key) (n : node) :
  <[k := n]> fs !! k = Some n.
Proof.
  unfold lookup, insert, fsys_lookup, fsys_insert.
  induction fs as [|[k' n'] fs IH]; simpl.
  - rewrite bool_decide_eq_true_2; reflexivity.
  - destruct (bool_decide (k' = k)) eqn:E; simpl; rewrite E; [reflexivity|exact IH].
Qed.

Lemma fs_lookup_insert_ne (fs : fsys) (k j : key) (n : node) :
  k <> j -> <[k := n]> fs !! j = fs !! j.
Proof.
  intros Hne. unfold lookup, insert, fsys_lookup, fsys_insert.
  induction fs as [|[k' n'] fs IH]; simpl.
  - rewrite bool_decide_eq_false_2; [reflexivity|exact Hne].
  - destruct (bool_decide (k' = k)) eqn:E; simpl.
    + apply bool_decide_eq_true_1 in E. subst k'.
      rewrite bool_decide_eq_false_2; [reflexivity|exact Hne].
    + rewrite IH. reflexivity.
Qed.

Lemma fs_insert_insert_eq (fs : fsys) (k : key) (n n' : node) :
  <[k := n']> (<[k := n]> fs) = <[k := n']> fs.
Proof.
  unfold insert, fsys_insert.
  induction fs as [|[k0 n0] fs IH]; simpl.
  - rewrite bool_decide_eq_true_2; reflexivity.
  - destruct (bool_decide (k0 = k)) eqn:E; simpl; rewrite E; [reflexivity|].
    rewrite IH. reflexivity.
Qed.

Lemma node_at_insert_eq (fs : fsys) (k : key) (n : node) :
  k <> [] -> node_at (<[k := n]> fs) k = Some n.
Proof.
  intros Hk. destruct k as [|c k]; [congruence|]. simpl. apply fs_lookup_insert_eq.
Qed.

Lemma node_at_insert_ne (fs : fsys) (k j : key) (n : node) :
  k <> j -> node_at (<[k := n]> fs) j = node_at fs j.
Proof.
  intros Hk. destruct j as [|c j]; [reflexivity|]. simpl.
  apply fs_lookup_insert_ne. exact Hk.
Qed.

(** Resolution only looks at directories: a file system with at least the
    same directories resolves a path to the same key. *)
Lemma walk_mono (fs fs' : fsys) (cur : key) (comps : list pystr) (k : key) :
  (forall j, node_at fs j = Some Dir -> node_at fs' j = Some Dir) ->
  walk fs cur comps = inr k -> walk fs' cur comps = inr k.
Proof.
  intros Hd. revert cur. induction comps as [|c rest IH]; intros cur; simpl.
  - auto.
  - destruct (node_at fs cur) as [[|t]|] eqn:E; try discriminate.
    rewrite (Hd _ E). apply IH.
Qed.

(** Writing a file, or making a directory, where there is no directory keeps
    every directory. *)
Lemma dirs_kept_by_insert (fs : fsys) (k : key) (n : node) :
  node_at fs k <> Some Dir ->
  forall j, node_at fs j = Some Dir -> node_at (<[k := n]> fs) j = Some Dir.
Proof.
  intros Hk j Hj. rewrite node_at_insert_ne; [exact Hj|]. congruence.
Qed.

(** A file that was opened for writing exists afterwards, whatever was
    written to it. *)
Lemma opened_file_exists (fs : fsys) (cwd : key) (p : Path) (k : key)
    (fs1 : fsys) (t : pystr) :
  os_open_w fs cwd p = inr (k, fs1) ->
  stat (<[k := File (Some t)]> fs) cwd p = inr (File (Some t)).
Proof.
  unfold os_open_w, stat, namei. intros H.
  destruct (walk fs _ (parts p)) as [e|k'] eqn:W; [discriminate|].
  assert (Hk : node_at fs k' <> Some Dir /\ k' = k).
  { destruct (node_at fs k') as [[|t']|]; try discriminate;
      injection H as <- _; split; congruence. }
  destruct Hk as [Hk ->].
  rewrite (walk_mono fs _ _ _ k (dirs_kept_by_insert fs k _ Hk) W).
  rewrite node_at_insert_eq; [reflexivity|].
  intros ->. apply Hk. reflexivity.
Qed.

(** A path that can be opened for writing leads to no directory. *)
Lemma os_open_w_inv (fs : fsys) (cwd : key) (p : Path) (k : key) (fs1 : fsys) :
  os_open_w fs cwd p = inr (k, fs1) ->
  namei fs cwd p = inr k /\ node_at fs k <> Some Dir.
Proof.
  unfold os_open_w. destruct (namei fs cwd p) as [e|k']; [discriminate|].
  destruct (node_at fs k') as [[|t]|] eqn:Nk; try discriminate;
    intros [= <- _]; split; congruence.
Qed.


End FileSystemFacts.

(** ** Effects *)

(** Closed equations between runs of the model, checked by evaluating both
    sides. *)
Ltac by_evaluation :=
  match goal with
  | |- ?l = ?r => let v := eval vm_compute in l in vm_cast_no_check (@eq_refl _ v)
  | |- ?l <> ?r => vm_compute; discriminate
  end.

(** Projections of updated states, computed without touching the texts. *)
Ltac wsimpl :=
  cbn [w_fs w_cwd w_console w_spawned w_clock w_strftime w_uuid w_uuid_next
       w_agent w_repr set_fs add_console add_spawned advance_clock next_uuid
       fst snd] in *.

Ltac fin := wsimpl; cbn [negb andb captured]; repeat split; eauto.

Section EffectFacts.

(** A run is its outcome and its final state. *)
Lemma run_eq {A : Type} (run : outcome A * world) (o : outcome A) :
  fst run = o -> run = (o, snd run).
Proof. intros <-. apply surjective_pairing. Qed.

Lemma returned_eq (run : outcome dict * world) :
  match fst run with Ret _ => true | Raise _ => false end = true ->
  run = (Ret (result_of run), snd run).
Proof.
  unfold result_of. destruct run as [[r|e] w']; simpl; [reflexivity|discriminate].
Qed.

Lemma os_error_next_uuid (w : world) (e : errno) (p : Path) :
  os_error (next_uuid w) e p = os_error w e p.
Proof. reflexivity. Qed.

Lemma load_skill_instructions_world (p : Path) (w : world) :
  snd (load_skill_instructions p w) = w.
Proof.
  unfold load_skill_instructions, bind, gets, ret, read_text.
  destruct (path_exists p w); simpl; [|reflexivity].
  destruct (stat (w_fs w) (w_cwd w) p) as [e|[|[t|]]]; reflexivity.
Qed.

Lemma load_skill_instructions_eq (p : Path) (w : world) (o : outcome pystr) :
  fst (load_skill_instructions p w) = o -> load_skill_instructions p w = (o, w).
Proof.
  intros <-. rewrite <- (load_skill_instructions_world p w) at 3.
  apply surjective_pairing.
Qed.



Lemma os_write_insert (fs : fsys) (k : key) (t s : pystr) :
  os_write (<[k := File (Some t)]> fs) k s = <[k := File (Some (t ++ s))]> fs.
Proof.
  unfold os_write. rewrite fs_lookup_insert_eq. apply fs_insert_insert_eq.
Qed.

(** The [readline] loop returns all the lines, only adds to the log file and
    to the console, and starts no process. *)
Lemma stream_loop_spec (echo : bool) (k : key) (lines acc : list pystr)
    (w : world) (fs0 : fsys) (t : pystr) :
  w_fs w = <[k := File (Some t)]> fs0 ->
  exists w',
    stream_loop echo k lines acc w = (Ret (acc ++ lines), w')
    /\ w_fs w' = <[k := File (Some (t ++ concat lines))]> fs0
    /\ w_cwd w' = w_cwd w /\ w_agent w' = w_agent w
    /\ w_spawned w' = w_spawned w /\ w_clock w' = w_clock w.
Proof.
  revert acc w t. induction lines as [|line lines IH]; intros acc w t Hfs.
  - exists w. simpl. unfold ret. rewrite !app_nil_r. repeat split; auto.
  - simpl. unfold bind at 1.
    set (w1 := snd ((if echo then print line else ret tt) w)).
    assert (E1 : (if echo then print line else ret tt) w = (Ret tt, w1)).
    { subst w1. destruct echo; reflexivity. }
    assert (F1 : w_fs w1 = w_fs w /\ w_cwd w1 = w_cwd w /\ w_agent w1 = w_agent w
                 /\ w_spawned w1 = w_spawned w /\ w_clock w1 = w_clock w).
    { subst w1. destruct echo; simpl; auto. }
    rewrite E1. destruct F1 as (F1 & F2 & F3 & F4 & F5).
    unfold bind at 1. unfold write, modify. cbv beta iota.
    set (w2 := set_fs (os_write (w_fs w1) k line) w1).
    destruct (IH (acc ++ [line]) w2 (t ++ line)) as (w' & E & G1 & G2 & G3 & G4 & G5).
    { subst w2. simpl. rewrite F1, Hfs. apply os_write_insert. }
    exists w'. rewrite E. rewrite <- !app_assoc in *. simpl in *.
    repeat split; congruence.
Qed.

Lemma run_streaming_spec (cmd : list pystr) (prompt : pystr) (echo : bool)
    (k : key) (w : world) (fs0 : fsys) (t : pystr) (o : outcome (Z * pystr))
    (w' : world) :
  w_fs w = <[k := File (Some t)]> fs0 ->
  run_streaming cmd prompt echo k w = (o, w') ->
  w_cwd w' = w_cwd w /\ w_agent w' = w_agent w
  /\ (exists t', w_fs w' = <[k := File (Some t')]> fs0)
  /\ match w_agent w cmd prompt with
     | SpawnFails e => o = Raise e /\ w_spawned w' = w_spawned w
     | Child b =>
         w_spawned w' = w_spawned w ++ [cmd]
         /\ match b with
            | Faults e => o = Raise e
            | Exits chunks returncode _ => o = Ret (returncode, merged chunks)
            end
     end.
Proof.
  intros Hfs. unfold run_streaming, bind at 1, Popen.
  destruct (w_agent w cmd prompt) as [e|[chunks rc el|e]].
  - intros [= <- <-]. eauto 10.
  - unfold bind at 1.
    destruct (stream_loop_spec echo k (readlines (merged chunks)) [] (add_spawned cmd w)
                fs0 t Hfs) as (w1 & E & G1 & G2 & G3 & G4 & G5).
    rewrite E. unfold bind, modify, ret. intros [= <- <-]. simpl.
    rewrite readlines_concat. repeat split; eauto.
  - unfold raise. intros [= <- <-]. simpl. eauto 10.
Qed.

Lemma subprocess_run_spec (cmd : list pystr) (prompt : pystr) (limit : Z)
    (w : world) (o : outcome (Z * pystr * pystr)) (w' : world) :
  subprocess_run cmd prompt limit w = (o, w') ->
  w_cwd w' = w_cwd w /\ w_agent w' = w_agent w /\ w_fs w' = w_fs w
  /\ match w_agent w cmd prompt with
     | SpawnFails e => o = Raise e /\ w_spawned w' = w_spawned w
     | Child b =>
         w_spawned w' = w_spawned w ++ [cmd]
         /\ match b with
            | Faults e => o = Raise e
            | Exits chunks returncode elapsed =>
                if (limit <? elapsed)%Z then
                  exists msg, o = Raise (mkExc TimeoutExpired msg)
                else o = Ret (returncode, on_fd Stdout chunks, on_fd Stderr chunks)
            end
     end.
Proof.
  unfold subprocess_run, bind at 1, Popen.
  destruct (w_agent w cmd prompt) as [e|[chunks rc el|e]].
  - intros [= <- <-]. auto.
  - destruct (limit <? el)%Z.
    + unfold bind, modify, gets, raise. intros [= <- <-]. simpl. eauto 10.
    + unfold bind, modify, ret. intros [= <- <-]. simpl. auto.
  - unfold raise. intros [= <- <-]. simpl. auto.
Qed.

(** Opening the log: the file is created empty under its key. *)
Lemma open_w_spec (p : Path) (w : world) :
  match os_open_w (w_fs w) (w_cwd w) p with
  | inl e => open_w p w = (Raise (os_error w e p), w)
  | inr (k, _) => open_w p w = (Ret k, set_fs (<[k := File (Some [])]> (w_fs w)) w)
  end.
Proof.
  unfold open_w, os_open_w.
  destruct (namei (w_fs w) (w_cwd w) p) as [e|k]; [reflexivity|].
  destruct (node_at (w_fs w) k) as [[|t]|]; reflexivity.
Qed.

Theorem run_gemini_backend_post (skill task : pystr) (repo_root : Path)
    (yolo : bool) (log_file : Path) (stream_output : bool) (w : world)
    (o : outcome dict) (w' : world) :
  run_gemini_backend skill task repo_root yolo log_file stream_output w = (o, w') ->
  backend_post (gemini_cmd yolo)
    (fun si => gemini_prompt skill task si (prefix 8 (w_uuid w (w_uuid_next w))))
    stream_output extract_result repo_root skill log_file w o w'.
Proof.
  unfold run_gemini_backend, backend_post, bind at 1.
  pose proof (load_skill_instructions_world (skill_file repo_root skill) w) as Hw.
  destruct (load_skill_instructions (skill_file repo_root skill) w) as [[si|e] w0];
    simpl in Hw; subst w0.
  2:{ intros [= <- <-]. fin. }
  destruct (bool_decide (si = [])).
  { unfold ret. intros [= <- <-]. fin. }
  unfold bind at 1, uuid4_hex. unfold bind at 1.
  pose proof (open_w_spec log_file (next_uuid w)) as Ho. wsimpl.
  destruct (os_open_w (w_fs w) (w_cwd w) log_file) as [e|[k fs1]]; rewrite Ho.
  { intros [= <- <-]. fin. }
  unfold bind at 1, write at 1, modify. unfold bind at 1, write at 1, modify.
  wsimpl. rewrite !os_write_insert.
  match goal with |- bind _ _ ?W = _ -> _ => set (w2 := W) end.
  unfold bind at 1. destruct stream_output.
  - destruct (run_streaming _ _ _ _ w2) as [o1 w3] eqn:R.
    eapply run_streaming_spec in R; [|reflexivity].
    destruct R as (R1 & R2 & R3 & R4). subst w2. wsimpl.
    destruct (w_agent w _ _) as [e|[chunks rc el|e]].
    + destruct R4 as [-> R4]. intros [= <- <-]. fin.
    + destruct R4 as [R4 ->]. unfold ret. intros [= <- <-]. fin.
    + destruct R4 as [R4 ->]. intros [= <- <-]. fin.
  - unfold bind at 1.
    destruct (subprocess_run _ _ _ w2) as [o1 w3] eqn:R.
    apply subprocess_run_spec in R.
    destruct R as (R1 & R2 & R3 & R4). subst w2. wsimpl.
    destruct (w_agent w _ _) as [e|[chunks rc el|e]].
    + destruct R4 as [-> R4]. intros [= <- <-]. rewrite R3. fin.
    + destruct R4 as [R4 R5]. cbn [negb andb]. destruct (600 <? el)%Z.
      * destruct R5 as [msg ->]. intros [= <- <-]. rewrite R3. fin.
      * subst o1. unfold bind, write, modify, ret. intros [= <- <-]. wsimpl.
        rewrite R3. rewrite !os_write_insert. fin.
    + destruct R4 as [R4 ->]. intros [= <- <-]. rewrite R3. fin.
Qed.

Theorem run_claude_backend_post (skill task : pystr) (repo_root : Path)
    (yolo : bool) (log_file : Path) (stream_output : bool) (w : world)
    (o : outcome dict) (w' : world) :
  run_claude_backend skill task repo_root yolo log_file stream_output w = (o, w') ->
  backend_post claude_cmd (claude_prompt task) true (fun out => out)
    repo_root skill log_file w o w'.
Proof.
  unfold run_claude_backend, backend_post, bind at 1.
  pose proof (load_skill_instructions_world (skill_file repo_root skill) w) as Hw.
  destruct (load_skill_instructions (skill_file repo_root skill) w) as [[si|e] w0];
    simpl in Hw; subst w0.
  2:{ intros [= <- <-]. fin. }
  destruct (bool_decide (si = [])).
  { unfold ret. intros [= <- <-]. fin. }
  unfold bind at 1.
  pose proof (open_w_spec log_file w) as Ho.
  destruct (os_open_w (w_fs w) (w_cwd w) log_file) as [e|[k fs1]]; rewrite Ho.
  { intros [= <- <-]. fin. }
  unfold bind at 1, write at 1, modify. unfold bind at 1, write at 1, modify.
  wsimpl. rewrite !os_write_insert.
  match goal with |- bind _ _ ?W = _ -> _ => set (w2 := W) end.
  unfold bind at 1.
  destruct (run_streaming _ _ _ _ w2) as [o1 w3] eqn:R.
  eapply run_streaming_spec in R; [|reflexivity].
  destruct R as (R1 & R2 & R3 & R4). subst w2. wsimpl.
  destruct (w_agent w _ _) as [e|[chunks rc el|e]].
  - destruct R4 as [-> R4]. intros [= <- <-]. fin.
  - destruct R4 as [R4 ->]. unfold ret. intros [= <- <-]. fin.
  - destruct R4 as [R4 ->]. intros [= <- <-]. fin.
Qed.

End EffectFacts.

(** ** The executor, step by step *)

Section ExecutorFacts.

Lemma execute_task_unfold (skill task : pystr) (repo_root : Path)
    (yolo background : bool) (output_format : pystr) (w : world) :
  execute_task skill task repo_root yolo background output_format w =
  match prepare skill repo_root background output_format w with
  | (Ret (backend, log_file, subagent_id, start_time), w1) =>
      attempt (dispatch backend skill task repo_root yolo log_file (negb background))
              backend log_file subagent_id start_time w1
  | (Raise e, w1) => (Raise e, w1)
  end.
Proof.
  unfold execute_task, bind.
  destruct (prepare skill repo_root background output_format w)
    as [[[[[backend lf] id] st]|e] w1]; reflexivity.
Qed.

(** A backend result goes through the [try] unchanged, unless a field the
    summary reads is missing: the [KeyError] is then caught like any other
    exception. *)
Lemma attempt_ret (run : M dict) (backend : pyval) (log_file : Path)
    (subagent_id : pystr) (start_time : Z) (w w2 : world) (result : dict) :
  run w = (Ret result, w2) ->
  attempt run backend log_file subagent_id start_time w =
  (Ret match dict_get result (lit "success"), dict_get result (lit "output") with
       | Some success, Some output =>
           summary success output
             (match dict_get result (lit "error") with
              | Some e => e
              | None => PStr []
              end)
             log_file (w_clock w2 - start_time) subagent_id backend
       | Some _, None =>
           summary (PBool false) (PStr []) (PStr (repr_str w2 (lit "output")))
             log_file (w_clock w2 - start_time) subagent_id backend
       | None, _ =>
           summary (PBool false) (PStr []) (PStr (repr_str w2 (lit "success")))
             log_file (w_clock w2 - start_time) subagent_id backend
       end, w2).
Proof.
  intros H. unfold attempt, try_except, bind at 1. rewrite H.
  unfold bind at 1, time_time, gets. unfold bind at 1, getitem at 1.
  destruct (dict_get result (lit "success")) as [s|]; [|reflexivity].
  unfold bind at 1, getitem.
  destruct (dict_get result (lit "output")) as [o|]; reflexivity.
Qed.

Lemma attempt_raise (run : M dict) (backend : pyval) (log_file : Path)
    (subagent_id : pystr) (start_time : Z) (w w2 : world) (e : exc) :
  run w = (Raise e, w2) ->
  attempt run backend log_file subagent_id start_time w =
  if is_Exception (exc_cls e) then
    (Ret (summary (PBool false) (PStr []) (PStr (exc_str e)) log_file
            (w_clock w2 - start_time) subagent_id backend), w2)
  else (Raise e, w2).
Proof.
  intros H. unfold attempt, try_except, bind at 1. rewrite H.
  destruct (is_Exception (exc_cls e)); reflexivity.
Qed.

(** [load_config] in one equation: it never raises and leaves the state as
    it is; it returns what the document parses to, and the default in every
    other case. *)
Lemma load_config_eq (root_path : option Path) (w : world) :
  load_config root_path w =
  (Ret match stat (w_fs w) (w_cwd w)
               (root_or_default root_path w </> lit "config.json") with
       | inr (File (Some text)) =>
           match loads text with
           | Some v => v
           | None => default_config
           end
       | _ => default_config
       end, w).
Proof.
  unfold load_config, bind, gets, ret, try_except, read_text, raise, path_exists.
  destruct (stat (w_fs w) (w_cwd w) _) as [e|[|[text|]]] eqn:E; cbn [negb];
    cbv beta; rewrite ?E; try reflexivity.
  destruct (loads text); reflexivity.
Qed.

Lemma load_config_world (root_path : option Path) (w : world) :
  snd (load_config root_path w) = w.
Proof. rewrite load_config_eq. reflexivity. Qed.

Lemma set_fs_id (w : world) : set_fs (w_fs w) w = w.
Proof. destruct w; reflexivity. Qed.

(** Creating directories touches the file system only. *)
Lemma mkdir_fuel_frame (fuel : nat) (parents : bool) (p : Path) (w : world)
    (o : outcome unit) (w' : world) :
  mkdir_fuel fuel parents p w = (o, w') -> w' = set_fs (w_fs w') w.
Proof.
  revert parents p w o w'.
  induction fuel as [|f IH]; intros parents p w o w'; simpl.
  - destruct (os_mkdir _ _ _) as [[]|fs'];
      repeat match goal with |- context [if ?b then _ else _] => destruct b end;
      intros [= <- <-]; rewrite ?set_fs_id; reflexivity.
  - destruct (os_mkdir _ _ _) as [[]|fs'];
      repeat match goal with |- context [if ?b then _ else _] => destruct b end;
      try (intros [= <- <-]; rewrite ?set_fs_id; reflexivity).
    unfold bind.
    destruct (mkdir_fuel f true (parent p) w) as [[[]|e] w1] eqn:E1.
    + apply IH in E1. intros E2. apply IH in E2.
      rewrite E2, E1. reflexivity.
    + apply IH in E1. intros [= <- <-]. exact E1.
Qed.


(** The steps before the [try] start no process and leave the working
    directory and the external programs as they are. *)
Lemma prepare_frame (skill : pystr) (repo_root : Path) (background : bool)
    (output_format : pystr) (w : world)
    (o : outcome (pyval * Path * pystr * Z)) (w1 : world) :
  prepare skill repo_root background output_format w = (o, w1) ->
  w_spawned w1 = w_spawned w /\ w_agent w1 = w_agent w /\ w_cwd w1 = w_cwd w.
Proof.
  unfold prepare, bind at 1.
  pose proof (load_config_world (Some (repo_root </> lit ".agent")) w) as Hw.
  destruct (load_config _ w) as [[cfg|e] w0]; simpl in Hw; subst w0.
  2:{ intros [= <- <-]. auto. }
  unfold bind at 1.
  destruct (py_get cfg _ _ w) as [[backend|e] w0] eqn:G.
  2:{ destruct cfg; simpl in G; inversion G; subst; intros [= <- <-]; auto. }
  assert (w0 = w) as -> by (destruct cfg; simpl in G; inversion G; reflexivity).
  unfold bind at 1, uuid4_hex. unfold bind at 1, strftime, gets. unfold bind at 1.
  destruct (mkdir_parents _ _) as [[[]|e] w2] eqn:Mk;
    apply mkdir_fuel_frame in Mk; rewrite Mk.
  2:{ intros [= <- <-]. auto. }
  unfold bind at 1. unfold bind at 1, time_time, gets. unfold bind at 1.
  destruct (bool_decide _ && negb background).
  - unfold bind at 1.
    destruct backend; unfold py_upper, raise, ret, bind, print, modify;
      intros [= <- <-]; auto.
  - unfold ret. intros [= <- <-]. auto.
Qed.

End ExecutorFacts.

(** ** The backends *)

Section BackendClaims.



(** The fields of the results, by name. *)
Lemma process_result_fields (returncode : Z) (output full_log : pystr) :
  dict_get (process_result returncode output full_log) (lit "success")
    = Some (PBool (returncode =? 0)%Z)
  /\ dict_get (process_result returncode output full_log) (lit "output")
    = Some (PStr output)
  /\ dict_get (process_result returncode output full_log) (lit "error")
    = Some (PStr (if (returncode =? 0)%Z then [] else lit "Process failed"))
  /\ dict_get (process_result returncode output full_log) (lit "full_log")
    = Some (PStr full_log).
Proof. repeat split; reflexivity. Qed.


Lemma skill_not_found_fields (repo_root : Path) (skill : pystr) :
  dict_get (skill_not_found repo_root skill) (lit "success") = Some (PBool false)
  /\ dict_get (skill_not_found repo_root skill) (lit "output") = None
  /\ dict_get (skill_not_found repo_root skill) (lit "full_log") = None.
Proof. repeat split; reflexivity. Qed.

(** Whatever the backend name, the dispatched call is one of the two
    backends. *)
Lemma dispatch_post (backend : pyval) (skill task : pystr) (repo_root : Path)
    (yolo : bool) (log_file : Path) (stream_output : bool) (w : world)
    (o : outcome dict) (w' : world) :
  dispatch backend skill task repo_root yolo log_file stream_output w = (o, w') ->
  exists cmd prompt piped post,
    backend_post cmd prompt piped post repo_root skill log_file w o w'.
Proof.
  unfold dispatch. destruct (is_claude backend); intros H.
  - apply run_claude_backend_post in H. eauto.
  - apply run_gemini_backend_post in H. eauto.
Qed.

(** The extraction at the end of the Gemini backend. *)
Lemma extract_result_between (pre mid post : pystr) :
  (forall j, (j < length pre)%nat ->
     ~ occurs_at START_MARKER (pre ++ START_MARKER ++ mid ++ END_MARKER ++ post) j) ->
  (forall j, (j < length mid)%nat ->
     ~ occurs_at END_MARKER (mid ++ END_MARKER ++ post) j) ->
  extract_result (pre ++ START_MARKER ++ mid ++ END_MARKER ++ post) = strip mid.
Proof.
  intros H1 H2. unfold extract_result, contains, split1.
  rewrite (find_first START_MARKER pre (mid ++ END_MARKER ++ post) H1).
  rewrite (find_first END_MARKER mid post H2). reflexivity.
Qed.

Lemma extract_result_absent (out : pystr) :
  (forall j, ~ occurs_at START_MARKER out j) -> extract_result out = out.
Proof.
  intros H. unfold extract_result.
  destruct (contains START_MARKER out) eqn:E; [|reflexivity].
  apply contains_true in E as [j Hj]. exfalso. exact (H j Hj).
Qed.

(** A returned result that carries a [full_log] comes from a child that ran
    to its end, and [full_log] is the text captured from it. *)
Lemma backend_post_full_log (cmd : list pystr) (prompt : pystr -> pystr)
    (piped : bool) (post : pystr -> pystr) (repo_root : Path) (skill : pystr)
    (log_file : Path) (w w' : world) (r : dict) (out : pystr) :
  backend_post cmd prompt piped post repo_root skill log_file w (Ret r) w' ->
  dict_get r (lit "full_log") = Some (PStr out) ->
  (exists p chunks returncode elapsed,
     w_agent w cmd p = Child (Exits chunks returncode elapsed)
     /\ out = captured piped chunks)
  /\ dict_get r (lit "output") = Some (PStr (post out)).
Proof.
  intros (_ & _ & B) F.
  destruct (load_skill_instructions _ w) as [[si|e] w0]; [|destruct B; discriminate].
  destruct (bool_decide (si = [])).
  { destruct B as [[= ->] _]. discriminate F. }
  destruct (os_open_w _ _ log_file) as [e|[k fs1]]; [destruct B; discriminate|].
  destruct B as (_ & B).
  destruct (w_agent w cmd (prompt si)) as [e|[chunks rc el|e]] eqn:Ag;
    [destruct B; discriminate| |destruct B; discriminate].
  destruct B as (_ & B).
  destruct (negb piped && (600 <? el)%Z); [destruct B; discriminate|].
  cbv zeta in B. injection B as ->.
  destruct (process_result_fields rc (post (captured piped chunks))
              (captured piped chunks)) as (_ & F2 & _ & F4).
  rewrite F4 in F. injection F as <-. split; [eauto 10|exact F2].
Qed.

(** C1, as the code has it. For the Gemini backend, when the captured output
    holds the start marker and, after its first occurrence, the end marker,
    the [output] field is the text between that start marker and the next end
    marker, stripped; when the start marker is absent, [output] is the captured
    output verbatim. The Claude backend extracts nothing: its [output] is
    always the captured output verbatim. *)
Theorem output_is_marked_text_for_gemini_and_verbatim_for_claude
    (skill task : pystr) (repo_root : Path) (yolo : bool) (log_file : Path)
    (stream_output : bool) (w w' : world) (r : dict) (out : pystr) :
  dict_get r (lit "full_log") = Some (PStr out) ->
  (run_gemini_backend skill task repo_root yolo log_file stream_output w
     = (Ret r, w') ->
   (exists p chunks returncode elapsed,
      w_agent w (gemini_cmd yolo) p = Child (Exits chunks returncode elapsed)
      /\ out = captured stream_output chunks)
   /\ (forall pre mid post,
         out = pre ++ START_MARKER ++ mid ++ END_MARKER ++ post ->
         (forall j, (j < length pre)%nat -> ~ occurs_at START_MARKER out j) ->
         (forall j, (j < length mid)%nat ->
            ~ occurs_at END_MARKER (mid ++ END_MARKER ++ post) j) ->
         dict_get r (lit "output") = Some (PStr (strip mid)))
   /\ ((forall j, ~ occurs_at START_MARKER out j) ->
       dict_get r (lit "output") = Some (PStr out)))
  /\ (run_claude_backend skill task repo_root yolo log_file stream_output w
        = (Ret r, w') ->
      (exists p chunks returncode elapsed,
         w_agent w claude_cmd p = Child (Exits chunks returncode elapsed)
         /\ out = merged chunks)
      /\ dict_get r (lit "output") = Some (PStr out)).
Proof.
  intros F. split; intros E.
  - apply run_gemini_backend_post in E.
    destruct (backend_post_full_log _ _ _ _ _ _ _ _ _ _ _ E F) as [Hc Ho].
    split; [|split].
    + destruct Hc as (p & chunks & rc & el & Hc1 & Hc2). eauto 10.
    + intros pre mid post -> H1 H2. rewrite Ho.
      rewrite extract_result_between; auto.
    + intros H. rewrite Ho, extract_result_absent; auto.
  - apply run_claude_backend_post in E.
    destruct (backend_post_full_log _ _ _ _ _ _ _ _ _ _ _ E F) as [Hc Ho].
    split; [exact Hc|exact Ho].
Qed.

Lemma output_is_marked_text_for_gemini_and_verbatim_for_claude_witness :
  dict_get
    (result_of
       (run_gemini_backend (lit "plan") (lit "do it") Examples.root true
          Examples.log_path true
          (Examples.state Examples.skills_fs (Examples.answering 0 5))))
    (lit "output") = Some (PStr (strip (lit "
DONE
"))).
Proof.
  assert (F1 : find START_MARKER Examples.answer
               = Some (lit "noise
", lit "
DONE
" ++ END_MARKER ++ lit "
more noise")) by by_evaluation.
  assert (F2 : find END_MARKER (lit "
DONE
" ++ END_MARKER ++ lit "
more noise") = Some (lit "
DONE
", lit "
more noise")) by by_evaluation.
  apply find_Some in F1 as [A1 B1]. apply find_Some in F2 as [_ B2].
  refine (proj1 (proj2 (proj1
            (output_is_marked_text_for_gemini_and_verbatim_for_claude
               (lit "plan") (lit "do it") Examples.root true Examples.log_path
               true (Examples.state Examples.skills_fs (Examples.answering 0 5))
               _ _ Examples.answer _) _)) _ _ _ A1 B1 B2).
  - by_evaluation.
  - apply returned_eq. by_evaluation.
Defined.

(** C1 fails for the Claude backend: on an output with both markers around
    [DONE], its [output] field is the whole output. *)
Lemma claude_output_keeps_the_markers :
  Examples.answer = lit "noise
" ++ START_MARKER ++ lit "
DONE
" ++ END_MARKER ++ lit "
more noise"
  /\ dict_get
       (result_of
          (run_claude_backend (lit "plan") (lit "do it") Examples.root true
             Examples.log_path true
             (Examples.state Examples.skills_fs (Examples.answering 0 5))))
       (lit "output") = Some (PStr Examples.answer)
  /\ Some (PStr Examples.answer) <> Some (PStr (strip (lit "
DONE
"))).
Proof. repeat split; by_evaluation. Qed.

(** Consequences of the stage-by-stage description. *)
Lemma backend_post_spawned (cmd : list pystr) (prompt : pystr -> pystr)
    (piped : bool) (post : pystr -> pystr) (repo_root : Path) (skill : pystr)
    (log_file : Path) (w w' : world) (o : outcome dict) :
  backend_post cmd prompt piped post repo_root skill log_file w o w' ->
  w_spawned w' = w_spawned w \/ w_spawned w' = w_spawned w ++ [cmd].
Proof.
  intros (_ & _ & B).
  destruct (load_skill_instructions _ w) as [[si|e] w0]; [|destruct B as [_ ->]; auto].
  destruct (bool_decide (si = [])); [destruct B as [_ ->]; auto|].
  destruct (os_open_w _ _ log_file) as [e|[k fs1]]; [destruct B as (_ & _ & B); auto|].
  destruct B as (_ & B).
  destruct (w_agent w cmd (prompt si)) as [e|b]; destruct B; auto.
Qed.



End BackendClaims.

(** ** The executor *)

Section ExecutorClaims.

















(** C3, as the code has it. The [try] of [execute_task] covers the dispatch
    and the backend call only. An exception (an instance of [Exception]) raised
    there is caught and turned into a failure result whose [error] is the
    exception's message; an exception raised before, while the configuration
    is loaded, the backend name read, or the log directory made, leaves
    [execute_task]. *)
Theorem exceptions_of_the_backend_call_become_failures (skill task : pystr)
    (repo_root : Path) (yolo background : bool) (output_format : pystr)
    (w : world) :
  (forall backend log_file subagent_id start_time w1 e w2,
     prepare skill repo_root background output_format w
       = (Ret (backend, log_file, subagent_id, start_time), w1) ->
     dispatch backend skill task repo_root yolo log_file (negb background) w1
       = (Raise e, w2) ->
     is_Exception (exc_cls e) = true ->
     execute_task skill task repo_root yolo background output_format w
     = (Ret (summary (PBool false) (PStr []) (PStr (exc_str e)) log_file
               (w_clock w2 - start_time) subagent_id backend), w2))
  /\ (forall e w1,
        prepare skill repo_root background output_format w = (Raise e, w1) ->
        execute_task skill task repo_root yolo background output_format w
        = (Raise e, w1)).
Proof.
  split.
  - intros backend lf id st w1 e w2 P D He.
    rewrite execute_task_unfold, P, (attempt_raise _ _ _ _ _ _ _ _ D), He.
    reflexivity.
  - intros e w1 P. rewrite execute_task_unfold, P. reflexivity.
Qed.

Lemma exceptions_of_the_backend_call_become_failures_witness :
  fst (execute_task (lit "plan") (lit "do it") Examples.root true true (lit "json")
         (Examples.state Examples.skills_fs
            (Examples.unstartable
               (mkExc OSError (lit "[Errno 12] Cannot allocate memory")))))
  = Ret (summary (PBool false) (PStr [])
           (PStr (lit "[Errno 12] Cannot allocate memory"))
           (of_str (lit "/proj/artifacts/superpowers/subagents/gemini-plan-20231114-221320-01234567.log"))
           0 (lit "01234567") (PStr (lit "gemini"))).
Proof.
  refine (eq_trans
            (f_equal fst
               (proj1 (exceptions_of_the_backend_call_become_failures (lit "plan")
                         (lit "do it") Examples.root true true (lit "json")
                         (Examples.state Examples.skills_fs
                            (Examples.unstartable
                               (mkExc OSError
                                  (lit "[Errno 12] Cannot allocate memory")))))
                  (PStr (lit "gemini"))
                  (of_str (lit "/proj/artifacts/superpowers/subagents/gemini-plan-20231114-221320-01234567.log"))
                  (lit "01234567") 1700000000%Z _
                  (mkExc OSError (lit "[Errno 12] Cannot allocate memory")) _
                  _ _ _)) _).
  - apply run_eq. by_evaluation.
  - apply run_eq. by_evaluation.
  - reflexivity.
  - by_evaluation.
Defined.

(** C3 fails as stated: with a configuration document that is valid JSON but
    not an object, reading the backend name raises [AttributeError] before the
    [try], and the exception leaves [execute_task]. *)
Lemma attribute_error_escapes_execute_task :
  fst (execute_task (lit "plan") (lit "do it") Examples.root true true (lit "json")
         (Examples.state (Examples.configured_fs (lit "[]"))
            (Examples.answering 0 5)))
  = Raise (mkExc AttributeError (lit "'list' object has no attribute 'get'")).
Proof. by_evaluation. Qed.

Lemma load_config_fst (root_path : option Path) (w : world) (o : outcome pyval) :
  fst (load_config root_path w) = o -> load_config root_path w = (o, w).
Proof.
  intros <-. rewrite <- (load_config_world root_path w) at 3.
  apply surjective_pairing.
Qed.

(** The steps before the [try] in one equation, for a configuration that is
    a JSON object. *)
Lemma prepare_eq (skill : pystr) (repo_root : Path) (background : bool)
    (output_format : pystr) (w : world) (d : dict) (backend : pyval) :
  load_config (Some (repo_root </> lit ".agent")) w = (Ret (PDict d), w) ->
  match dict_get d (lit "execution_backend") with
  | Some x => x
  | None => PStr (lit "gemini")
  end = backend ->
  prepare skill repo_root background output_format w =
  match mkdir_parents (log_dir repo_root) (next_uuid w) with
  | (Raise e, w2) => (Raise e, w2)
  | (Ret _, w2) =>
      if bool_decide (output_format = lit "text") && negb background then
        match backend with
        | PStr b =>
            (Ret (backend,
                  log_dir repo_root
                  </> log_name (py_format backend w) skill
                        (w_strftime w (w_clock w))
                        (prefix 8 (w_uuid w (w_uuid_next w))),
                  prefix 8 (w_uuid w (w_uuid_next w)), w_clock w),
             add_console
               (memo ++ lit "Logging to: "
                ++ path_str
                     (log_dir repo_root
                      </> log_name (py_format backend w) skill
                            (w_strftime w (w_clock w))
                            (prefix 8 (w_uuid w (w_uuid_next w)))))
               (add_console
                  (robot ++ lit "Executing task using " ++ upper b ++ lit "...")
                  w2))
        | _ => (Raise (no_attribute backend "upper"), w2)
        end
      else
        (Ret (backend,
              log_dir repo_root
              </> log_name (py_format backend w) skill (w_strftime w (w_clock w))
                    (prefix 8 (w_uuid w (w_uuid_next w))),
              prefix 8 (w_uuid w (w_uuid_next w)), w_clock w), w2)
  end.
Proof.
  intros L G. unfold prepare, bind at 1. rewrite L.
  unfold bind at 1, py_get, ret. rewrite G.
  unfold bind at 1, uuid4_hex. unfold bind at 1, strftime, gets. unfold bind at 1.
  destruct (mkdir_parents _ _) as [[[]|e] w2] eqn:Mk; [|reflexivity].
  apply mkdir_fuel_frame in Mk. rewrite Mk.
  unfold bind at 1. unfold bind at 1, time_time, gets. unfold bind at 1.
  destruct (bool_decide _ && negb background); [|reflexivity].
  unfold bind at 1. destruct backend; reflexivity.
Qed.

(** The log file's name, as the steps before the [try] build it. *)
Lemma prepare_log_name (skill : pystr) (repo_root : Path) (background : bool)
    (output_format : pystr) (w w1 : world) (backend : pyval) (log_file : Path)
    (subagent_id : pystr) (start_time : Z) :
  prepare skill repo_root background output_format w
    = (Ret (backend, log_file, subagent_id, start_time), w1) ->
  log_file = log_dir repo_root
             </> log_name (py_format backend w) skill (w_strftime w (w_clock w))
                   subagent_id.
Proof.
  unfold prepare, bind at 1.
  pose proof (load_config_world (Some (repo_root </> lit ".agent")) w) as Hw.
  destruct (load_config _ w) as [[cfg|e] w0]; cbn [snd] in Hw; subst w0;
    [|discriminate].
  unfold bind at 1.
  destruct (py_get cfg _ _ w) as [[v|e] w0] eqn:G; [|discriminate].
  assert (w0 = w) as -> by (destruct cfg; simpl in G; inversion G; reflexivity).
  unfold bind at 1, uuid4_hex. unfold bind at 1, strftime, gets. unfold bind at 1.
  destruct (mkdir_parents _ _) as [[[]|e] w2] eqn:Mk;
    apply mkdir_fuel_frame in Mk; rewrite Mk; [|discriminate].
  unfold bind at 1. unfold bind at 1, time_time, gets. unfold bind at 1.
  destruct (bool_decide _ && negb background).
  - unfold bind at 1.
    destruct v; unfold py_upper, raise, ret, bind, print, modify; try discriminate.
    intros [= <- <- <- <-]. reflexivity.
  - unfold ret. intros [= <- <- <- <-]. reflexivity.
Qed.

(** C10, as the code has it. The configuration is a JSON object whose
    [execution_backend] is missing or is any value other than the text
    ["claude"]; [v] is that value, or ["gemini"] when it is missing. The branch
    of [execute_task] is then the Gemini backend: whenever the steps before the
    [try] complete, the call is the [try] around [run_gemini_backend], with [v]
    as backend name and at the start of the log file's name. A failure to make
    the log directory leaves [execute_task] as it is raised. In background
    mode and in JSON mode nothing else can stop the steps before the [try]:
    they complete whenever the directory is made. In text mode outside
    background mode the banner is built from the name before the [try], and a
    value that is not a text raises [AttributeError] there, once the directory
    is made. *)
Theorem other_backend_names_run_gemini (skill task : pystr) (repo_root : Path)
    (yolo background : bool) (output_format : pystr) (w : world) (d : dict)
    (v : pyval) :
  load_config (Some (repo_root </> lit ".agent")) w = (Ret (PDict d), w) ->
  match dict_get d (lit "execution_backend") with
  | Some x => x
  | None => PStr (lit "gemini")
  end = v ->
  v <> PStr (lit "claude") ->
  dispatch v = run_gemini_backend
  /\ (forall backend log_file subagent_id start_time w1,
        prepare skill repo_root background output_format w
          = (Ret (backend, log_file, subagent_id, start_time), w1) ->
        backend = v
        /\ log_file = log_dir repo_root
                      </> log_name (py_format v w) skill
                            (w_strftime w (w_clock w)) subagent_id
        /\ execute_task skill task repo_root yolo background output_format w
           = attempt (run_gemini_backend skill task repo_root yolo log_file
                        (negb background))
                     v log_file subagent_id start_time w1)
  /\ (forall e w2,
        mkdir_parents (log_dir repo_root) (next_uuid w) = (Raise e, w2) ->
        execute_task skill task repo_root yolo background output_format w
          = (Raise e, w2))
  /\ (bool_decide (output_format = lit "text") && negb background = false ->
      forall u w2,
        mkdir_parents (log_dir repo_root) (next_uuid w) = (Ret u, w2) ->
        exists log_file subagent_id start_time,
          prepare skill repo_root background output_format w
            = (Ret (v, log_file, subagent_id, start_time), w2))
  /\ (bool_decide (output_format = lit "text") && negb background = true ->
      (forall s, v <> PStr s) ->
      forall u w2,
        mkdir_parents (log_dir repo_root) (next_uuid w) = (Ret u, w2) ->
        execute_task skill task repo_root yolo background output_format w
          = (Raise (no_attribute v "upper"), w2)).
Proof.
  intros L G Hv.
  pose proof (prepare_eq skill repo_root background output_format w d v L G) as P.
  assert (D : dispatch v = run_gemini_backend).
  { unfold dispatch, is_claude. destruct v; try reflexivity.
    rewrite bool_decide_eq_false_2; [reflexivity|]. congruence. }
  split; [exact D|]. split; [|split; [|split]].
  - intros backend log_file subagent_id start_time w1 P1.
    assert (backend = v) as ->.
    { rewrite P1 in P. destruct (mkdir_parents _ _) as [[u|e] w2]; [|discriminate].
      destruct (bool_decide _ && negb background); [destruct v|];
        congruence. }
    split; [reflexivity|].
    split; [exact (prepare_log_name _ _ _ _ _ _ _ _ _ _ P1)|].
    rewrite execute_task_unfold, P1, D. reflexivity.
  - intros e w2 Mk. rewrite execute_task_unfold, P, Mk. reflexivity.
  - intros Q u w2 Mk. rewrite P, Mk, Q. eauto.
  - intros Q Hs u w2 Mk. rewrite execute_task_unfold, P, Mk, Q.
    destruct v as [| b | z | l | s | xs | m]; try reflexivity.
    exfalso. exact (Hs s eq_refl).
Qed.

Lemma other_backend_names_run_gemini_witness :
  dispatch (PStr (lit "openai")) = run_gemini_backend
  /\ exists log_file subagent_id start_time,
       prepare (lit "plan") Examples.root true (lit "json")
         Examples.other_backend_state
       = (Ret (PStr (lit "openai"), log_file, subagent_id, start_time),
          snd (mkdir_parents (log_dir Examples.root)
                 (next_uuid Examples.other_backend_state))).
Proof.
  refine ((fun H => conj (proj1 H)
                      (proj1 (proj2 (proj2 (proj2 H))) _ tt _ _))
            (other_backend_names_run_gemini (lit "plan") (lit "do it")
               Examples.root true true (lit "json") Examples.other_backend_state
               [(lit "execution_backend", PStr (lit "openai"))]
               (PStr (lit "openai")) _ _ _)).
  - reflexivity.
  - apply run_eq. by_evaluation.
  - apply load_config_fst. by_evaluation.
  - reflexivity.
  - discriminate.
Defined.

(** C10 fails as stated: the name is not checked, but it is the start of the
    log file's name. With a name that holds a [/] the log file lies in a
    directory that does not exist: the Gemini backend is called, its [open]
    raises [FileNotFoundError], and the call ends as a failure with that
    error, no child started. *)
Lemma backend_name_with_a_slash_fails :
  fst (load_config (Some (Examples.root </> lit ".agent"))
         Examples.slash_backend_state)
  = Ret (PDict [(lit "execution_backend", PStr (lit "open/ai"))])
  /\ fst (run_gemini_backend (lit "plan") (lit "do it") Examples.root true
            (log_dir Examples.root
             </> log_name (lit "open/ai") (lit "plan") (lit "20231114-221320")
                   (lit "01234567"))
            false
            (snd (prepare (lit "plan") Examples.root true (lit "json")
                    Examples.slash_backend_state)))
     = Raise (mkExc FileNotFoundError
                (lit "[Errno 2] No such file or directory: '/proj/artifacts/superpowers/subagents/open/ai-plan-20231114-221320-01234567.log'"))
  /\ dict_get (result_of (execute_task (lit "plan") (lit "do it") Examples.root
                            true true (lit "json") Examples.slash_backend_state))
       (lit "success") = Some (PBool false)
  /\ dict_get (result_of (execute_task (lit "plan") (lit "do it") Examples.root
                            true true (lit "json") Examples.slash_backend_state))
       (lit "error")
     = Some (PStr (lit "[Errno 2] No such file or directory: '/proj/artifacts/superpowers/subagents/open/ai-plan-20231114-221320-01234567.log'"))
  /\ w_spawned (snd (execute_task (lit "plan") (lit "do it") Examples.root true
                       true (lit "json") Examples.slash_backend_state)) = [].
Proof. repeat split; by_evaluation. Qed.

End ExecutorClaims.

(** ** The JSON codec *)

Section JsonFacts.

Ltac div_mod_lia := zify; Z.to_euclidean_division_equations; lia.

Lemma hexval_hexdigit (d : N) : d < 16 -> hexval (hexdigit d) = Some d.
Proof.
  intros H. unfold hexval, hexdigit.
  destruct (N.ltb_spec d 10).
  - replace ((48 <=? 48 + d) && (48 + d <=? 57)) with true
      by (symmetry; apply andb_true_iff; split; apply N.leb_le; lia).
    f_equal. lia.
  - replace ((48 <=? 97 + (d - 10)) && (97 + (d - 10) <=? 57)) with false
      by (symmetry; apply andb_false_iff; right; apply N.leb_gt; lia).
    replace ((97 <=? 97 + (d - 10)) && (97 + (d - 10) <=? 102)) with true
      by (symmetry; apply andb_true_iff; split; apply N.leb_le; lia).
    f_equal. lia.
Qed.

(** Four hex digits read back as the number they were printed from. *)
Lemma decode_hex4 (n : N) (rest : pystr) :
  n < 0x10000 -> decode_uXXXX (hex4 n ++ rest) = Some (n, rest).
Proof.
  intros H. unfold hex4, decode_uXXXX. cbn [app].
  rewrite !hexval_hexdigit by div_mod_lia.
  f_equal. f_equal. div_mod_lia.
Qed.

Lemma lor_shifted (a b : N) : b < 2 ^ 10 -> N.lor (a * 2 ^ 10) b = a * 2 ^ 10 + b.
Proof.
  intros Hb.
  assert (L : N.land (a * 2 ^ 10) b = 0).
  { apply N.bits_inj_0. intros m. rewrite N.land_spec.
    destruct (N.lt_ge_cases m 10) as [Hm|Hm].
    - rewrite N.mul_pow2_bits_low by exact Hm. reflexivity.
    - destruct (N.eq_dec b 0) as [->|Hb0]; [rewrite N.bits_0; apply andb_false_r|].
      rewrite (N.bits_above_log2 b m); [apply andb_false_r|].
      apply N.lt_le_trans with 10; [|exact Hm].
      apply N.log2_lt_pow2; [lia|exact Hb]. }
  rewrite N.add_nocarry_lxor by exact L. symmetry. apply N.lxor_lor. exact L.
Qed.

(** The two halves of a surrogate pair, and the code point they give back. *)
Lemma surrogate_pair (c : N) :
  0x10000 <= c -> c < 0x110000 ->
  let n := c - 0x10000 in
  let s1 := N.lor 0xD800 (N.land (N.shiftr n 10) 0x3FF) in
  let s2 := N.lor 0xDC00 (N.land n 0x3FF) in
  (0xD800 <= s1 /\ s1 <= 0xDBFF) /\ (0xDC00 <= s2 /\ s2 <= 0xDFFF)
  /\ 0x10000 + N.lor (N.shiftl (s1 - 0xD800) 10) (s2 - 0xDC00) = c.
Proof.
  intros Hlo Hhi n s1 s2.
  assert (Hn : n < 2 ^ 20) by (subst n; change (2 ^ 20) with 1048576; lia).
  assert (H1 : N.land (N.shiftr n 10) 0x3FF = n / 2 ^ 10).
  { change 0x3FF with (N.ones 10). rewrite N.land_ones, N.shiftr_div_pow2.
    apply N.mod_small. change (2 ^ 10) with 1024 in *.
    change (2 ^ 20) with 1048576 in Hn. div_mod_lia. }
  assert (H2 : N.land n 0x3FF = n mod 2 ^ 10).
  { change 0x3FF with (N.ones 10). apply N.land_ones. }
  assert (E1 : s1 = 0xD800 + n / 2 ^ 10).
  { subst s1. rewrite H1. change 0xD800 with (54 * 2 ^ 10) at 1.
    rewrite lor_shifted; [reflexivity|].
    change (2 ^ 10) with 1024 in *. change (2 ^ 20) with 1048576 in Hn. div_mod_lia. }
  assert (E2 : s2 = 0xDC00 + n mod 2 ^ 10).
  { subst s2. rewrite H2. change 0xDC00 with (55 * 2 ^ 10) at 1.
    rewrite lor_shifted; [reflexivity|].
    change (2 ^ 10) with 1024. div_mod_lia. }
  change (2 ^ 10) with 1024 in *. change (2 ^ 20) with 1048576 in Hn.
  split; [div_mod_lia|]. split; [div_mod_lia|].
  rewrite E1, E2.
  replace (55296 + n / 1024 - 55296) with (n / 1024) by lia.
  replace (56320 + n mod 1024 - 56320) with (n mod 1024) by lia.
  rewrite N.shiftl_mul_pow2. rewrite lor_shifted.
  - change (2 ^ 10) with 1024. subst n. div_mod_lia.
  - change (2 ^ 10) with 1024. div_mod_lia.
Qed.

Lemma range_test (a b c : N) : a <= c -> c <= b -> (a <=? c) && (c <=? b) = true.
Proof.
  intros H1 H2. apply andb_true_iff. split; apply N.leb_le; assumption.
Qed.

Lemma range_test_false (a b c : N) : c < a \/ b < c -> (a <=? c) && (c <=? b) = false.
Proof.
  intros H. apply andb_false_iff. destruct H; [left|right]; apply N.leb_gt; assumption.
Qed.

(** One escaped code point is read back as that code point. *)
Lemma scanstring_escape_char (c : N) (rest : pystr) (f : nat) :
  scalar_value c = true ->
  scanstring (S f) (escape_char c ++ rest) =
  match scanstring f rest with
  | Some (str, r) => Some (c :: str, r)
  | None => None
  end.
Proof.
  unfold scalar_value. rewrite andb_true_iff, negb_true_iff, N.ltb_lt.
  intros [Hmax Hsur].
  apply andb_false_iff in Hsur. rewrite !N.leb_gt in Hsur.
  unfold escape_char, dquote, backslash.
  repeat match goal with
         | |- context [?x =? ?y] =>
             is_var x; destruct (N.eqb_spec x y); [subst x; reflexivity|]
         end.
  destruct ((32 <=? c) && (c <=? 126)) eqn:Hp.
  - apply andb_true_iff in Hp as [Hp1 Hp2]. apply N.leb_le in Hp1, Hp2.
    cbn [app scanstring]. unfold dquote, backslash.
    destruct (N.eqb_spec c 34); [contradiction|].
    destruct (N.eqb_spec c 92); [contradiction|].
    destruct (N.ltb_spec c 32); [lia|]. reflexivity.
  - apply andb_false_iff in Hp. rewrite !N.leb_gt in Hp.
    destruct (N.ltb_spec c 65536) as [Hc|Hc].
    + cbn [app scanstring]. unfold dquote, backslash. cbn [N.eqb Pos.eqb].
      unfold scan_unicode. rewrite decode_hex4 by exact Hc.
      rewrite range_test_false by lia. reflexivity.
    + destruct (surrogate_pair c Hc Hmax) as ((A1 & A2) & (B1 & B2) & E).
      cbv zeta in *. cbn [app scanstring]. unfold dquote, backslash.
      cbn [N.eqb Pos.eqb]. unfold scan_unicode. rewrite <- app_assoc.
      rewrite decode_hex4 by lia. rewrite range_test by assumption.
      cbn [app]. unfold backslash. cbn [N.eqb Pos.eqb andb].
      rewrite decode_hex4 by lia. rewrite range_test by assumption.
      rewrite E. reflexivity.
Qed.

(** A printed string is read back, given fuel for its code points. *)
Lemma scanstring_encoded (s rest : pystr) (f : nat) :
  forallb scalar_value s = true -> (length s < f)%nat ->
  scanstring f (flat_map escape_char s ++ dquote :: rest) = Some (s, rest).
Proof.
  revert f. induction s as [|c s IH]; intros f Hs Hf.
  - destruct f; [simpl in Hf; lia|]. reflexivity.
  - destruct f; [simpl in Hf; lia|].
    simpl in Hs. apply andb_true_iff in Hs as [Hc Hs].
    cbn [flat_map]. rewrite <- app_assoc.
    rewrite scanstring_escape_char by exact Hc.
    rewrite IH; [reflexivity|exact Hs|simpl in Hf; lia].
Qed.

Lemma escape_char_nonempty (c : N) : (1 <= length (escape_char c))%nat.
Proof.
  unfold escape_char.
  repeat match goal with |- context [if ?b then _ else _] => destruct b end;
    simpl; lia.
Qed.

Lemma length_flat_map_escape (s : pystr) :
  (length s <= length (flat_map escape_char s))%nat.
Proof.
  induction s as [|c s IH]; simpl; [lia|].
  rewrite length_app. pose proof (escape_char_nonempty c). lia.
Qed.

Lemma digits_aux_S (f : nat) (n : N) (acc : pystr) :
  digits_aux (S f) n acc =
  if n <? 10 then (0x30 + n mod 10) :: acc
  else digits_aux f (n / 10) ((0x30 + n mod 10) :: acc).
Proof. reflexivity. Qed.

(** The decimal digits of a number: digits only, no leading zero, and read
    back as the number. *)
Lemma digits_aux_spec (f : nat) (n : N) (acc : pystr) :
  n < 2 ^ N.of_nat f ->
  exists d ds,
    digits_aux (S f) n acc = (d :: ds) ++ acc
    /\ forallb is_digit (d :: ds) = true
    /\ (n <> 0 -> d <> 0x30)
    /\ (n = 0 -> d :: ds = [0x30])
    /\ int_of_digits (d :: ds) = n.
Proof.
  revert n acc. induction f as [|f IH]; intros n acc Hn.
  - assert (n = 0) as -> by (change (2 ^ N.of_nat 0) with 1 in Hn; lia).
    exists 0x30, []. repeat split; try reflexivity. congruence.
  - rewrite digits_aux_S. destruct (N.ltb_spec n 10) as [Hs|Hs].
    + exists (48 + n mod 10), []. rewrite N.mod_small by exact Hs.
      repeat split.
      * cbn [forallb]. unfold is_digit. rewrite range_test by lia. reflexivity.
      * lia.
      * intros ->. reflexivity.
      * unfold int_of_digits. cbn [fold_left]. lia.
    + assert (Hq : n / 10 < 2 ^ N.of_nat f).
      { rewrite Nat2N.inj_succ, N.pow_succ_r' in Hn.
        assert (n / 10 <= n / 2) by div_mod_lia. div_mod_lia. }
      destruct (IH (n / 10) ((48 + n mod 10) :: acc) Hq)
        as (d & ds & E & Hd & Hz & _ & Hv).
      exists d, (ds ++ [48 + n mod 10]). repeat split.
      * rewrite E. cbn [app]. rewrite <- app_assoc. reflexivity.
      * change (d :: ds ++ [48 + n mod 10]) with ((d :: ds) ++ [48 + n mod 10]).
        rewrite forallb_app, Hd. cbn [forallb]. unfold is_digit.
        rewrite range_test by div_mod_lia. reflexivity.
      * intros _. apply Hz. div_mod_lia.
      * intros ->. lia.
      * change (d :: ds ++ [48 + n mod 10]) with ((d :: ds) ++ [48 + n mod 10]).
        unfold int_of_digits in *. rewrite fold_left_app, Hv. cbn [fold_left].
        div_mod_lia.
Qed.

Lemma repr_N_spec (n : N) :
  exists d ds,
    repr_N n = d :: ds
    /\ forallb is_digit (d :: ds) = true
    /\ (n <> 0 -> d <> 0x30)
    /\ (n = 0 -> d :: ds = [0x30])
    /\ int_of_digits (d :: ds) = n.
Proof.
  unfold repr_N.
  destruct (digits_aux_spec (N.to_nat (N.size n)) n []) as (d & ds & E & H).
  - rewrite N2Nat.id. apply N.size_gt.
  - exists d, ds. rewrite E, app_nil_r. auto.
Qed.

Lemma span_digits_app (ds rest : pystr) :
  forallb is_digit ds = true ->
  match rest with c :: _ => is_digit c = false | [] => True end ->
  span_digits (ds ++ rest) = (ds, rest).
Proof.
  intros Hd Hr. induction ds as [|d ds IH]; cbn [app].
  - destruct rest as [|c rest]; [reflexivity|]. cbn [span_digits]. rewrite Hr.
    reflexivity.
  - cbn [forallb] in Hd. apply andb_true_iff in Hd as [H1 H2].
    cbn [span_digits]. rewrite H1, (IH H2). reflexivity.
Qed.

Lemma number_end_digit (rest : pystr) :
  number_end rest = true ->
  match rest with c :: _ => is_digit c = false | [] => True end.
Proof.
  destruct rest as [|c rest]; [auto|]. cbn [number_end].
  rewrite !andb_true_iff, !negb_true_iff. tauto.
Qed.

(** After its integer part a printed number has no fraction and no
    exponent. *)
Lemma match_number_digits (neg : bool) (d : N) (ds rest : pystr) :
  forallb is_digit (d :: ds) = true ->
  (d = 0x30 -> ds = []) ->
  number_end rest = true ->
  match_number ((if neg then [0x2D] else []) ++ d :: ds ++ rest)
  = Some (neg, d :: ds, [], [], rest).
Proof.
  intros Hd Hz Hr. cbn [forallb] in Hd. apply andb_true_iff in Hd as [Hd1 Hd2].
  assert (Hm : d <> 0x2D).
  { intros ->. discriminate Hd1. }
  assert (E2 : (if d =? 0x30 then ([d], ds ++ rest)
                else let '(ds0, r) := span_digits (ds ++ rest) in (d :: ds0, r))
               = (d :: ds, rest)).
  { destruct (N.eqb_spec d 0x30) as [E0|E0].
    - rewrite (Hz E0). reflexivity.
    - rewrite span_digits_app; [reflexivity|exact Hd2|].
      apply number_end_digit. exact Hr. }
  assert (Hr' := Hr). destruct rest as [|c rest'].
  - unfold match_number. destruct neg; cbn [app].
    + cbn [N.eqb Pos.eqb]. rewrite Hd1, E2. reflexivity.
    + destruct (N.eqb_spec d 0x2D); [contradiction|]. rewrite Hd1, E2. reflexivity.
  - cbn [number_end] in Hr'. rewrite !andb_true_iff, !negb_true_iff in Hr'.
    destruct Hr' as [[[_ Hp] He] HE].
    unfold match_number. destruct neg; cbn [app].
    + cbn [N.eqb Pos.eqb]. rewrite Hd1, E2, Hp, He, HE. reflexivity.
    + destruct (N.eqb_spec d 0x2D); [contradiction|].
      rewrite Hd1, E2, Hp, He, HE. reflexivity.
Qed.

Lemma scan_number_repr (z : Z) (rest : pystr) :
  number_end rest = true ->
  scan_number (repr_Z z ++ rest) = Some (PInt z, rest).
Proof.
  intros Hr. unfold scan_number, repr_Z.
  destruct (Z.ltb_spec z 0) as [Hz|Hz].
  - destruct (repr_N_spec (Z.to_N (- z))) as (d & ds & E & Hd & Hnz & _ & Hv).
    rewrite E.
    change ((0x2D :: d :: ds) ++ rest) with ([0x2D] ++ d :: ds ++ rest).
    rewrite (match_number_digits true d ds rest Hd); [|intros ->; exfalso; apply Hnz; [lia|reflexivity]|exact Hr].
    rewrite Hv. do 3 f_equal. lia.
  - destruct (repr_N_spec (Z.to_N z)) as (d & ds & E & Hd & Hnz & Hz0 & Hv).
    rewrite E.
    change ((d :: ds) ++ rest) with ([] ++ d :: ds ++ rest).
    rewrite (match_number_digits false d ds rest Hd); [| |exact Hr].
    + rewrite Hv. do 3 f_equal. lia.
    + intros ->. destruct (N.eq_dec (Z.to_N z) 0) as [E0|E0].
      * specialize (Hz0 E0). congruence.
      * exfalso. apply (Hnz E0). reflexivity.
Qed.

(** The first character of a printed number is a minus sign or a digit. *)
Lemma repr_Z_head (z : Z) :
  exists c t, repr_Z z = c :: t /\ (c = 0x2D \/ is_digit c = true).
Proof.
  unfold repr_Z. destruct (z <? 0)%Z.
  - eauto.
  - destruct (repr_N_spec (Z.to_N z)) as (d & ds & E & Hd & _).
    cbn [forallb] in Hd. apply andb_true_iff in Hd as [Hd _]. rewrite E. eauto.
Qed.

(** Induction on values, with the items of lists and dicts. *)
Lemma pyval_ind_nested (P : pyval -> Prop) :
  P PNone -> (forall b, P (PBool b)) -> (forall z, P (PInt z)) ->
  (forall l, P (PFloat l)) -> (forall s, P (PStr s)) ->
  (forall xs, Forall P xs -> P (PList xs)) ->
  (forall ms, Forall (fun m => P (snd m)) ms -> P (PDict ms)) ->
  forall v, P v.
Proof.
  intros HN HB HI HF HS HL HD.
  fix IH 1. intros [| b | z | l | s | xs | ms].
  - exact HN.
  - apply HB.
  - apply HI.
  - apply HF.
  - apply HS.
  - apply HL. induction xs as [|x xs IHxs]; constructor; [apply IH|exact IHxs].
  - apply HD. induction ms as [|m ms IHms]; constructor; [apply IH|exact IHms].
Qed.

Lemma skip_ws_indent (indent level : nat) (s : pystr) :
  skip_ws (newline_indent indent level ++ s) = skip_ws s.
Proof.
  unfold newline_indent. cbn [app skip_ws is_ws N.eqb Pos.eqb orb].
  induction (indent * level)%nat as [|n IH]; [reflexivity|exact IH].
Qed.

Lemma skip_ws_head (c : N) (s : pystr) : is_ws c = false -> skip_ws (c :: s) = c :: s.
Proof. intros H. cbn [skip_ws]. rewrite H. reflexivity. Qed.

(** A printed value starts with a character that is neither white space
    nor a closing bracket. *)
Lemma encode_head (indent level : nat) (v : pyval) :
  serializable v = true ->
  exists c t, encode indent level v = c :: t
              /\ is_ws c = false /\ (c =? 0x5D) = false.
Proof.
  destruct v as [| [|] | z | l | s | [|x xs] | [|m ms]]; intros Hv;
    try discriminate Hv;
    try (eexists; eexists; split; [reflexivity|split; reflexivity]).
  destruct (repr_Z_head z) as (c & t & E & [->|Hc]); cbn [encode]; rewrite E.
  - eexists; eexists; split; [reflexivity|split; reflexivity].
  - exists c, t. split; [reflexivity|].
    unfold is_digit in Hc. apply andb_true_iff in Hc as [H1 H2].
    apply N.leb_le in H1, H2. unfold is_ws.
    repeat match goal with
           | |- context [c =? ?k] => destruct (N.eqb_spec c k); [lia|]
           end.
    split; reflexivity.
Qed.

Lemma skip_ws_encode (indent level : nat) (v : pyval) (rest : pystr) :
  serializable v = true ->
  skip_ws (encode indent level v ++ rest) = encode indent level v ++ rest.
Proof.
  intros Hv. destruct (encode_head indent level v Hv) as (c & t & E & Hc & _).
  rewrite E. cbn [app]. apply skip_ws_head. exact Hc.
Qed.

Lemma length_flat_map_ge {A : Type} (g : A -> pystr) (xs : list A) :
  (forall x, 1 <= length (g x))%nat -> (length xs <= length (flat_map g xs))%nat.
Proof.
  intros Hg. induction xs as [|x xs IH]; simpl; [lia|].
  rewrite length_app. specialize (Hg x). lia.
Qed.

(** Building a dict from pairs with distinct keys keeps the pairs. *)
Lemma dict_set_fresh (d : dict) (k : pystr) (v : pyval) :
  ~ In k (map fst d) -> dict_set d k v = d ++ [(k, v)].
Proof.
  induction d as [|[k' v'] d IH]; intros Hk; [reflexivity|].
  cbn [dict_set]. rewrite bool_decide_eq_false_2.
  - rewrite IH; [reflexivity|]. intros H. apply Hk. right. exact H.
  - intros ->. apply Hk. left. reflexivity.
Qed.

Lemma dict_of_pairs_unique (ms : list (pystr * pyval)) :
  keys_unique ms = true -> dict_of_pairs ms = ms.
Proof.
  assert (G : forall acc, NoDup (map fst (acc ++ ms)) ->
              fold_left (fun d kv => dict_set d (fst kv) (snd kv)) ms acc = acc ++ ms).
  { induction ms as [|[k v] ms IH]; intros acc Hnd; cbn [fold_left].
    - rewrite app_nil_r. reflexivity.
    - cbn [fst snd]. rewrite dict_set_fresh.
      + rewrite IH.
        * rewrite <- app_assoc. reflexivity.
        * rewrite <- app_assoc. exact Hnd.
      + rewrite map_app in Hnd. apply NoDup_app in Hnd as (_ & Hd & _).
        intros Hin. apply (Hd k).
        * apply list_elem_of_In. exact Hin.
        * cbn [map fst]. left. }
  unfold keys_unique, dict_of_pairs. intros H. apply bool_decide_eq_true_1 in H.
  apply (G []). exact H.
Qed.

Lemma JSONArray_nonempty (scan : pystr -> option (pyval * pystr))
    (s : pystr) (c : N) (s1 : pystr) :
  skip_ws s = c :: s1 -> (c =? 0x5D) = false ->
  JSONArray scan s =
  match array_items scan (length s) (c :: s1) with
  | Some (vs, rest) => Some (PList vs, rest)
  | None => None
  end.
Proof. intros E H. unfold JSONArray. rewrite E, H. reflexivity. Qed.

(** The loop of [JSONArray] reads back the printed items. *)
Lemma array_items_encoded (indent level f : nat) (xs : list pyval) :
  Forall (fun x => serializable x = true
                   /\ forall level rest, number_end rest = true ->
                        scan_once f (encode indent level x ++ rest) = Some (x, rest))
         xs ->
  forall x k rest,
    serializable x = true ->
    (forall level rest, number_end rest = true ->
       scan_once f (encode indent level x ++ rest) = Some (x, rest)) ->
    (length xs < k)%nat ->
    array_items (scan_once f) k
      (encode indent (S level) x
       ++ flat_map (fun y => lit "," ++ newline_indent indent (S level)
                             ++ encode indent (S level) y) xs
       ++ newline_indent indent level ++ 0x5D :: rest)
    = Some (x :: xs, rest).
Proof.
  induction 1 as [|y ys [Hy1 Hy2] Hys IH]; intros x k rest Hx1 Hx2 Hk;
    (destruct k as [|k]; [simpl in Hk; lia|]); cbn [array_items flat_map].
  - cbn [app]. rewrite Hx2 by reflexivity.
    rewrite skip_ws_indent. reflexivity.
  - change (lit ",") with [0x2C]. rewrite <- !app_assoc. cbn [app].
    rewrite Hx2 by reflexivity.
    rewrite skip_ws_head by reflexivity. cbn [N.eqb Pos.eqb].
    rewrite skip_ws_indent, skip_ws_encode by exact Hy1.
    rewrite IH; [reflexivity|exact Hy1|exact Hy2|simpl in Hk; lia].
Qed.

Lemma depth_items (xs : list pyval) (x : pyval) :
  In x xs -> (depth x <= fold_right (fun x d => Nat.max (depth x) d) 0 xs)%nat.
Proof.
  induction xs as [|y ys IH]; [intros []|intros [->|H]]; cbn [fold_right]; [lia|].
  specialize (IH H). lia.
Qed.

Lemma depth_members (ms : list (pystr * pyval)) (m : pystr * pyval) :
  In m ms ->
  (depth (snd m) <= fold_right (fun m d => Nat.max (depth (snd m)) d) 0 ms)%nat.
Proof.
  induction ms as [|y ys IH]; [intros []|intros [->|H]]; cbn [fold_right]; [lia|].
  specialize (IH H). lia.
Qed.

Lemma JSONObject_nonempty (scan : pystr -> option (pyval * pystr))
    (s s1 : pystr) :
  skip_ws s = dquote :: s1 ->
  JSONObject scan s =
  match object_pairs scan (length s) s1 with
  | Some (ps, rest) => Some (PDict (dict_of_pairs ps), rest)
  | None => None
  end.
Proof. intros E. unfold JSONObject. rewrite E. reflexivity. Qed.

Lemma encode_str_app (s rest : pystr) :
  encode_str s ++ rest = dquote :: flat_map escape_char s ++ dquote :: rest.
Proof. unfold encode_str. cbn [app]. rewrite <- app_assoc. reflexivity. Qed.

Lemma lit_comma_app (s : pystr) : lit "," ++ s = 0x2C :: s.
Proof. reflexivity. Qed.

Lemma lit_colon_app (s : pystr) : lit ": " ++ s = 0x3A :: 0x20 :: s.
Proof. reflexivity. Qed.

(** The loop of [JSONObject] reads back the printed members. *)
Lemma object_pairs_encoded (indent level f : nat) (ms : list (pystr * pyval)) :
  Forall (fun m => forallb scalar_value (fst m) = true
                   /\ serializable (snd m) = true
                   /\ forall level rest, number_end rest = true ->
                        scan_once f (encode indent level (snd m) ++ rest)
                        = Some (snd m, rest))
         ms ->
  forall m k rest,
    forallb scalar_value (fst m) = true ->
    serializable (snd m) = true ->
    (forall level rest, number_end rest = true ->
       scan_once f (encode indent level (snd m) ++ rest) = Some (snd m, rest)) ->
    (length ms < k)%nat ->
    object_pairs (scan_once f) k
      (flat_map escape_char (fst m) ++ dquote :: lit ": "
       ++ encode indent (S level) (snd m)
       ++ flat_map (fun m' => lit "," ++ newline_indent indent (S level)
                              ++ encode_str (fst m') ++ lit ": "
                              ++ encode indent (S level) (snd m')) ms
       ++ newline_indent indent level ++ 0x7D :: rest)
    = Some (m :: ms, rest).
Proof.
  induction 1 as [|y ys (Hy1 & Hy2 & Hy3) Hys IH];
    intros [key v] k rest Hk1 Hv1 Hv2 Hk;
    (destruct k as [|k]; [simpl in Hk; lia|]); cbn [object_pairs flat_map fst snd] in *.
  - rewrite scanstring_encoded;
      [|exact Hk1
       |rewrite length_app; pose proof (length_flat_map_escape key); simpl; lia].
    rewrite lit_colon_app. cbn [app].
    rewrite skip_ws_head by reflexivity. cbn [N.eqb Pos.eqb].
    cbn [skip_ws is_ws N.eqb Pos.eqb orb].
    rewrite skip_ws_encode by exact Hv1. rewrite Hv2 by reflexivity.
    rewrite skip_ws_indent. reflexivity.
  - rewrite scanstring_encoded;
      [|exact Hk1
       |rewrite length_app; pose proof (length_flat_map_escape key); simpl; lia].
    rewrite lit_colon_app.
    rewrite skip_ws_head by reflexivity. cbn [N.eqb Pos.eqb].
    cbn [skip_ws is_ws N.eqb Pos.eqb orb].
    rewrite skip_ws_encode by exact Hv1.
    rewrite <- !app_assoc. rewrite lit_comma_app.
    rewrite Hv2 by reflexivity.
    rewrite skip_ws_head by reflexivity. cbn [N.eqb Pos.eqb].
    rewrite skip_ws_indent, encode_str_app.
    rewrite skip_ws_head by reflexivity. rewrite N.eqb_refl.
    match goal with
    | |- match ?X with _ => _ end = _ =>
        replace X with (Some (y :: ys, rest)); [reflexivity|]
    end.
    symmetry. apply (IH y k rest Hy1 Hy2 Hy3). simpl in Hk. lia.
Qed.

(** Reading a printed value gives the value back and stops after it. *)
Lemma scan_once_encode (indent : nat) (v : pyval) :
  serializable v = true ->
  forall level rest fuel,
    (depth v < fuel)%nat -> number_end rest = true ->
    scan_once fuel (encode indent level v ++ rest) = Some (v, rest).
Proof.
  induction v as [| b | z | l | s | xs IH | ms IH] using pyval_ind_nested;
    intros Hv level rest fuel Hf Hr;
    (destruct fuel as [|f]; [simpl in Hf; lia|]).
  - reflexivity.
  - destruct b; reflexivity.
  - cbn [encode]. destruct (repr_Z_head z) as (c & t & E & Hc).
    assert (S1 : scan_once (S f) (repr_Z z ++ rest) = scan_number (repr_Z z ++ rest)).
    { rewrite E. cbn [app scan_once]. unfold dquote.
      change (lit "null") with [110; 117; 108; 108].
      change (lit "true") with [116; 114; 117; 101].
      change (lit "false") with [102; 97; 108; 115; 101].
      cbn [startswith].
      assert (Hrange : c = 0x2D \/ (0x30 <= c /\ c <= 0x39)).
      { destruct Hc as [->|Hc]; [auto|]. right. unfold is_digit in Hc.
        apply andb_true_iff in Hc as [H1 H2]. apply N.leb_le in H1, H2. auto. }
      repeat match goal with
             | |- context [c =? ?k] => destruct (N.eqb_spec c k); [lia|]
             | |- context [?k =? c] => destruct (N.eqb_spec k c); [lia|]
             end.
      reflexivity. }
    rewrite S1. apply scan_number_repr. exact Hr.
  - discriminate Hv.
  - cbn [encode]. rewrite encode_str_app. cbn [scan_once]. unfold dquote at 1.
    cbn [N.eqb Pos.eqb]. cbn [serializable] in Hv.
    rewrite scanstring_encoded; [reflexivity|exact Hv|].
    rewrite length_app. pose proof (length_flat_map_escape s). simpl. lia.
  - cbn [serializable] in Hv. destruct xs as [|x xs]; [reflexivity|].
    cbn [encode]. change (lit "[") with [0x5B]. change (lit "]") with [0x5D].
    rewrite <- !app_assoc. cbn [app scan_once]. unfold dquote at 1.
    cbn [N.eqb Pos.eqb].
    cbn [forallb] in Hv. apply andb_true_iff in Hv as [Hx Hxs].
    assert (Hd : forall y, In y (x :: xs) -> (depth y < f)%nat).
    { intros y Hy. apply depth_items in Hy. cbn [depth] in Hf. lia. }
    inversion IH as [|x' xs' IHx IHxs]; subst.
    destruct (encode_head indent (S level) x Hx) as (c & t & E & Hc1 & Hc2).
    erewrite JSONArray_nonempty;
      [|rewrite skip_ws_indent, E; cbn [app]; apply skip_ws_head; exact Hc1
       |exact Hc2].
    change (c :: t ++ ?r) with ((c :: t) ++ r). rewrite <- E.
    rewrite array_items_encoded.
    + reflexivity.
    + apply List.Forall_forall. intros y Hy. split.
      * rewrite forallb_forall in Hxs. apply Hxs. exact Hy.
      * intros lv rs Hrs. rewrite List.Forall_forall in IHxs. apply IHxs; auto.
        -- rewrite forallb_forall in Hxs. apply Hxs. exact Hy.
        -- apply Hd. right. exact Hy.
    + exact Hx.
    + intros lv rs Hrs. apply IHx; auto. apply Hd. left. reflexivity.
    + match goal with
      | |- context [flat_map ?g xs] =>
          pose proof (length_flat_map_ge g xs) as L
      end.
      specialize (L ltac:(intros; cbv beta; rewrite lit_comma_app; cbn [length]; lia)).
      repeat (rewrite ?length_app; cbn [length]). lia.
  - cbn [serializable] in Hv. apply andb_true_iff in Hv as [Hu Hv].
    destruct ms as [|[key v] ms]; [reflexivity|].
    cbn [encode fst snd]. change (lit "{") with [0x7B]. change (lit "}") with [0x7D].
    rewrite <- !app_assoc. cbn [app scan_once]. unfold dquote at 1.
    cbn [N.eqb Pos.eqb].
    cbn [forallb fst snd] in Hv. apply andb_true_iff in Hv as [Hm Hms].
    apply andb_true_iff in Hm as [Hk Hx].
    assert (Hd : forall y, In y ((key, v) :: ms) -> (depth (snd y) < f)%nat).
    { intros y Hy. apply depth_members in Hy. cbn [depth] in Hf. lia. }
    inversion IH as [|x' xs' IHx IHxs]; subst. cbn [snd] in IHx.
    rewrite encode_str_app.
    erewrite JSONObject_nonempty;
      [|rewrite skip_ws_indent; apply skip_ws_head; reflexivity].
    rewrite (object_pairs_encoded indent level f ms) with (m := (key, v)).
    + rewrite dict_of_pairs_unique by exact Hu. reflexivity.
    + apply List.Forall_forall. intros y Hy. rewrite forallb_forall in Hms.
      specialize (Hms y Hy). apply andb_true_iff in Hms as [Hy1 Hy2].
      split; [exact Hy1|]. split; [exact Hy2|].
      intros lv rs Hrs. rewrite List.Forall_forall in IHxs. apply IHxs; auto.
      apply Hd. right. exact Hy.
    + exact Hk.
    + exact Hx.
    + intros lv rs Hrs. apply IHx; auto. apply (Hd (key, v)). left. reflexivity.
    + match goal with
      | |- context [flat_map ?g ms] =>
          pose proof (length_flat_map_ge g ms) as L
      end.
      specialize (L ltac:(intros; cbv beta; rewrite lit_comma_app; cbn [length]; lia)).
      repeat (rewrite ?length_app; cbn [length]). lia.
Qed.

Lemma in_flat_map_length {A : Type} (g : A -> pystr) (l : list A) (y : A) :
  In y l -> (length (g y) <= length (flat_map g l))%nat.
Proof.
  induction l as [|x l IH]; [intros []|intros [->|H]]; cbn [flat_map];
    rewrite length_app; [lia|]. specialize (IH H). lia.
Qed.

Lemma fold_max_le {A : Type} (h : A -> nat) (l : list A) (bound : nat) :
  (forall y, In y l -> (h y <= bound)%nat) ->
  (fold_right (fun y d => Nat.max (h y) d) 0 l <= bound)%nat.
Proof.
  induction l as [|x l IH]; intros H; cbn [fold_right]; [lia|].
  pose proof (H x (or_introl eq_refl)).
  specialize (IH (fun y Hy => H y (or_intror Hy))). lia.
Qed.

(** A printed value is at least as long as the value is deep, so the fuel
    [loads] starts with is enough. *)
Lemma depth_le_length (indent : nat) (v : pyval) :
  serializable v = true ->
  forall level, (depth v <= length (encode indent level v))%nat.
Proof.
  induction v as [| b | z | l | s | xs IH | ms IH] using pyval_ind_nested;
    intros Hv level.
  - apply Nat.leb_le. reflexivity.
  - destruct b; apply Nat.leb_le; reflexivity.
  - cbn [encode depth]. destruct (repr_Z_head z) as (c & t & E & _). rewrite E.
    cbn [length]. lia.
  - discriminate Hv.
  - cbn [encode depth]. unfold encode_str. cbn [length]. lia.
  - cbn [serializable] in Hv. destruct xs as [|x xs]; [apply Nat.leb_le; reflexivity|].
    cbn [encode depth]. change (lit "[") with [0x5B].
    repeat (rewrite ?length_app; cbn [length]).
    apply le_n_S. apply fold_max_le. intros y Hy.
    rewrite List.Forall_forall in IH. rewrite forallb_forall in Hv.
    specialize (IH y Hy (Hv y Hy) (S level)).
    destruct Hy as [->|Hy]; [lia|].
    pose proof (in_flat_map_length
                  (fun y => lit "," ++ newline_indent indent (S level)
                            ++ encode indent (S level) y) xs y Hy) as L.
    cbv beta in L. rewrite !length_app in L. lia.
  - cbn [serializable] in Hv. apply andb_true_iff in Hv as [_ Hv].
    destruct ms as [|m ms]; [apply Nat.leb_le; reflexivity|].
    cbn [encode depth]. change (lit "{") with [0x7B].
    repeat (rewrite ?length_app; cbn [length]).
    apply le_n_S. apply (fold_max_le (fun m => depth (snd m))). intros y Hy.
    rewrite List.Forall_forall in IH. rewrite forallb_forall in Hv.
    pose proof (Hv y Hy) as Hy'. apply andb_true_iff in Hy' as [_ Hy'].
    specialize (IH y Hy Hy' (S level)).
    destruct Hy as [->|Hy]; [lia|].
    pose proof (in_flat_map_length
                  (fun m' : pystr * pyval =>
                     lit "," ++ newline_indent indent (S level)
                     ++ encode_str (fst m') ++ lit ": "
                     ++ encode indent (S level) (snd m')) ms y Hy) as L.
    cbv beta in L. rewrite !length_app in L. lia.
Qed.

(** [json.loads(json.dumps(v, indent=n)) == v] for every value without
    floats, made of well-formed text and dicts with distinct keys. *)
Theorem loads_dumps (indent : nat) (v : pyval) :
  serializable v = true -> loads (dumps indent v) = Some v.
Proof.
  intros Hv. unfold loads, dumps.
  pose proof (skip_ws_encode indent 0 v [] Hv) as E. rewrite app_nil_r in E.
  rewrite E.
  pose proof (scan_once_encode indent v Hv 0 [] (S (length (encode indent 0 v)))) as S1.
  rewrite app_nil_r in S1. rewrite S1; [reflexivity| |reflexivity].
  pose proof (depth_le_length indent v Hv 0). lia.
Qed.

End JsonFacts.

(** ** The configuration accessor *)

Section ConfigClaims.

Lemma walk_app (fs : fsys) (cur : key) (a b : list pystr) :
  walk fs cur (a ++ b) =
  match walk fs cur a with
  | inr k => walk fs k b
  | inl e => inl e
  end.
Proof.
  revert cur. induction a as [|c a IH]; intros cur; cbn [app walk]; [reflexivity|].
  destruct (node_at fs cur) as [[|t]|]; try reflexivity. apply IH.
Qed.

Lemma is_dir_namei (p : Path) (w : world) :
  is_dir p w = true ->
  exists k, namei (w_fs w) (w_cwd w) p = inr k /\ node_at (w_fs w) k = Some Dir.
Proof.
  unfold is_dir, stat. destruct (namei _ _ p) as [e|k]; [discriminate|].
  destruct (node_at (w_fs w) k) as [[|t]|] eqn:E; try discriminate. eauto.
Qed.

(** Making a directory that exists changes nothing. *)
Lemma mkdir_existing (fuel : nat) (parents : bool) (p : Path) (w : world) :
  is_dir p w = true -> mkdir_fuel fuel parents p w = (Ret tt, w).
Proof.
  intros H. destruct (is_dir_namei p w H) as (k & Hk & Hn).
  destruct fuel; cbn [mkdir_fuel]; unfold os_mkdir; rewrite Hk, Hn, H; reflexivity.
Qed.

Lemma joinpath_name (p : Path) (name : pystr) :
  of_str name = mkPath false [name] ->
  p </> name = mkPath (anchored p) (parts p ++ [name])
  /\ parent (p </> name) = p.
Proof.
  intros E. unfold joinpath, parent. rewrite E. cbn [anchored parts]. split.
  - reflexivity.
  - rewrite removelast_last. destruct p; reflexivity.
Qed.

(** A file directly inside an existing directory can be opened for writing
    unless its name is taken by a directory. *)
Lemma can_open_in_dir (p : Path) (name : pystr) (w : world) :
  of_str name = mkPath false [name] -> name <> dotdot ->
  is_dir p w = true -> is_dir (p </> name) w = false ->
  can_open_w (p </> name) w = true.
Proof.
  intros E Hdd Hp Hf. destruct (is_dir_namei p w Hp) as (k & Hk & Hn).
  destruct (joinpath_name p name E) as [J _].
  unfold can_open_w, os_open_w, is_dir, stat, namei in *. rewrite J in *.
  cbn [anchored parts] in *. rewrite walk_app, Hk in *. cbn [walk] in *.
  rewrite Hn in *. rewrite bool_decide_eq_false_2 in * by exact Hdd.
  destruct (node_at (w_fs w) (k ++ [name])) as [[|t]|]; [discriminate|reflexivity..].
Qed.







Lemma ancestor_S (k : nat) (p : Path) : ancestor (S k) p = ancestor k (parent p).
Proof.
  unfold ancestor. induction k as [|k IH]; [reflexivity|].
  change (Nat.iter (S (S k)) parent p) with (parent (Nat.iter (S k) parent p)).
  rewrite IH. reflexivity.
Qed.

Lemma ancestor_fixed (k : nat) (p : Path) : parent p = p -> ancestor k p = p.
Proof.
  intros H. induction k as [|k IH]; [reflexivity|].
  rewrite ancestor_S, H. exact IH.
Qed.



(** The loop of [find_repo_root]: the nearest level that holds the marker,
    among the levels it may look at, or the working directory. *)
Lemma find_repo_root_loop_spec (n : nat) (curr : Path) (w : world) :
  (exists k,
     (k < n)%nat
     /\ find_repo_root_loop n curr w = ancestor k curr
     /\ path_exists (ancestor k curr </> lit ".agent") w = true
     /\ forall j, (j < k)%nat ->
          path_exists (ancestor j curr </> lit ".agent") w = false)
  \/ (find_repo_root_loop n curr w = cwd w
      /\ forall j, (j < n)%nat ->
           path_exists (ancestor j curr </> lit ".agent") w = false).
Proof.
  revert curr. induction n as [|n IH]; intros curr.
  - right. split; [reflexivity|]. intros j Hj. lia.
  - cbn [find_repo_root_loop].
    destruct (path_exists (curr </> lit ".agent") w) eqn:E0.
    { left. exists 0%nat. repeat split; [lia|exact E0|]. intros j Hj. lia. }
    destruct (bool_decide (parent curr = curr)) eqn:E2.
    { apply bool_decide_eq_true_1 in E2. right. split; [reflexivity|].
      intros j _. rewrite ancestor_fixed by exact E2. exact E0. }
    destruct (IH (parent curr)) as [(k & Hk & Hr & He & Hn)|(Hr & Hn)].
    + left. exists (S k). rewrite ancestor_S. repeat split; [lia|exact Hr|exact He|].
      intros [|j] Hj; [exact E0|]. rewrite ancestor_S. apply Hn. lia.
    + right. split; [exact Hr|]. intros [|j] Hj; [exact E0|].
      rewrite ancestor_S. apply Hn. lia.
Qed.

Lemma ancestor_anchored (k : nat) (p : Path) : anchored (ancestor k p) = anchored p.
Proof.
  induction k as [|k IH]; [reflexivity|].
  unfold ancestor in *. cbn [Nat.iter]. unfold parent at 1. cbn [anchored]. exact IH.
Qed.




End ConfigClaims.

(** ** More on the executor's helpers *)

Section RepoRootFacts.

(** [find_repo_root] looks at the start directory and its first nine
    ancestors. It returns the nearest of them that holds [.agent], and the
    working directory when none does; either way the path is absolute. *)
Theorem find_repo_root_nearest_or_cwd (start : Path) (w : world) :
  ((exists k,
      (k < 10)%nat
      /\ find_repo_root start w = ancestor k (resolve start w)
      /\ path_exists (ancestor k (resolve start w) </> lit ".agent") w = true
      /\ forall j, (j < k)%nat ->
           path_exists (ancestor j (resolve start w) </> lit ".agent") w = false)
   \/ (find_repo_root start w = mkPath true (w_cwd w)
       /\ forall j, (j < 10)%nat ->
            path_exists (ancestor j (resolve start w) </> lit ".agent") w = false))
  /\ anchored (find_repo_root start w) = true.
Proof.
  unfold find_repo_root.
  pose proof (find_repo_root_loop_spec 10 (resolve start w) w) as S.
  split; [exact S|].
  destruct S as [(k & _ & -> & _)|[-> _]]; [|reflexivity].
  rewrite ancestor_anchored. reflexivity.
Qed.

End RepoRootFacts.

Section ExtractFacts.

(** With a start marker and no end marker after it, the result is all the
    text after the first start marker, stripped. *)
Theorem extract_result_without_end_marker (pre tail : pystr) :
  (forall j, (j < length pre)%nat ->
     ~ occurs_at START_MARKER (pre ++ START_MARKER ++ tail) j) ->
  (forall j, ~ occurs_at END_MARKER tail j) ->
  extract_result (pre ++ START_MARKER ++ tail) = strip tail.
Proof.
  intros H1 H2. unfold extract_result, contains, split1.
  rewrite (find_first START_MARKER pre tail H1).
  destruct (find END_MARKER tail) as [[b a]|] eqn:F; [|reflexivity].
  exfalso. apply find_Some in F as [-> _]. apply (H2 (length b)).
  unfold occurs_at. rewrite drop_app_length, take_app_length. reflexivity.
Qed.

Lemma extract_result_without_end_marker_witness :
  extract_result (lit "log line
" ++ START_MARKER ++ lit "
  partial answer
") = lit "partial answer".
Proof.
  replace (lit "partial answer") with (strip (lit "
  partial answer
")) by by_evaluation.
  apply extract_result_without_end_marker.
  - assert (F : find START_MARKER (lit "log line
" ++ START_MARKER ++ lit "
  partial answer
") = Some (lit "log line
", lit "
  partial answer
")) by by_evaluation.
    apply find_Some in F as [_ F]. exact F.
  - apply find_None. by_evaluation.
Defined.

End ExtractFacts.

(** ** More on [execute_task] *)

Section ExecutorEdgeFacts.




(** Once the steps before the [try] are done, [execute_task] returns a
    result with the seven summary fields, naming the prepared log file,
    identifier and backend; only an exception that is not an [Exception]
    (an interrupt) can still leave it. *)
Theorem execute_task_returns_a_summary (skill task : pystr) (repo_root : Path)
    (yolo background : bool) (output_format : pystr) (w w1 w' : world)
    (o : outcome dict) (backend : pyval) (log_file : Path) (subagent_id : pystr)
    (start_time : Z) :
  prepare skill repo_root background output_format w
    = (Ret (backend, log_file, subagent_id, start_time), w1) ->
  execute_task skill task repo_root yolo background output_format w = (o, w') ->
  (exists success output error,
     o = Ret (summary success output error log_file (w_clock w' - start_time)
                subagent_id backend))
  \/ (exists e, o = Raise e /\ is_Exception (exc_cls e) = false).
Proof.
  intros P. rewrite execute_task_unfold, P.
  destruct (dispatch backend skill task repo_root yolo log_file (negb background) w1)
    as [[r|e] w2] eqn:D.
  - rewrite (attempt_ret _ _ _ _ _ _ _ _ D). intros [= <- <-]. left.
    destruct (dict_get r (lit "success")); [destruct (dict_get r (lit "output"))|];
      eauto.
  - rewrite (attempt_raise _ _ _ _ _ _ _ _ D).
    destruct (is_Exception (exc_cls e)) eqn:He; intros [= <- <-]; eauto.
Qed.

Lemma execute_task_returns_a_summary_witness :
  (exists success output error,
     fst (execute_task (lit "plan") (lit "do it") Examples.root true true (lit "json")
            (Examples.state Examples.skills_fs (Examples.answering 3 5)))
     = Ret (summary success output error
              (of_str (lit "/proj/artifacts/superpowers/subagents/gemini-plan-20231114-221320-01234567.log"))
              (w_clock
                 (snd (execute_task (lit "plan") (lit "do it") Examples.root true
                         true (lit "json")
                         (Examples.state Examples.skills_fs
                            (Examples.answering 3 5))))
               - 1700000000)
              (lit "01234567") (PStr (lit "gemini"))))
  \/ (exists e,
        fst (execute_task (lit "plan") (lit "do it") Examples.root true true
               (lit "json")
               (Examples.state Examples.skills_fs (Examples.answering 3 5)))
        = Raise e /\ is_Exception (exc_cls e) = false).
Proof.
  apply (execute_task_returns_a_summary (lit "plan") (lit "do it") Examples.root
           true true (lit "json")
           (Examples.state Examples.skills_fs (Examples.answering 3 5))
           (snd (prepare (lit "plan") Examples.root true (lit "json")
                   (Examples.state Examples.skills_fs (Examples.answering 3 5))))).
  - apply run_eq. by_evaluation.
  - apply surjective_pairing.
Defined.



End ExecutorEdgeFacts.

(** ** What the backends leave behind *)

Section TranscriptFacts.

(** The [readline] loop prints exactly the lines it reads when [echo] is
    set, and nothing otherwise. *)
Lemma stream_loop_console (echo : bool) (k : key) (lines acc : list pystr)
    (w : world) :
  w_console (snd (stream_loop echo k lines acc w))
  = w_console w ++ (if echo then lines else []).
Proof.
  revert acc w. induction lines as [|line lines IH]; intros acc w.
  - cbn. destruct echo; rewrite app_nil_r; reflexivity.
  - cbn [stream_loop]. unfold bind at 1.
    destruct echo.
    + unfold print at 1, modify at 1. unfold bind at 1, write at 1, modify at 1.
      rewrite IH. cbn [w_console set_fs add_console]. rewrite <- app_assoc.
      reflexivity.
    + unfold ret at 1. unfold bind at 1, write at 1, modify at 1.
      rewrite IH. reflexivity.
Qed.

(** Only the background mode of the Gemini backend has a time limit: there a
    child that runs for more than 600 seconds ends the call with
    [TimeoutExpired]; in streaming mode, and in the Claude backend in either
    mode, the result is built from the exit code however long the child
    ran. *)
Theorem only_gemini_background_has_a_time_limit (skill task : pystr)
    (repo_root : Path) (yolo : bool) (log_file : Path) (stream_output : bool)
    (w : world) (si : pystr) (chunks : list (fd * pystr)) (returncode elapsed : Z) :
  load_skill_instructions (skill_file repo_root skill) w = (Ret si, w) ->
  si <> [] ->
  can_open_w log_file w = true ->
  (forall cmd prompt, w_agent w cmd prompt = Child (Exits chunks returncode elapsed)) ->
  ((600 < elapsed)%Z ->
   exists msg,
     fst (run_gemini_backend skill task repo_root yolo log_file false w)
     = Raise (mkExc TimeoutExpired msg))
  /\ ((elapsed <= 600)%Z ->
      fst (run_gemini_backend skill task repo_root yolo log_file false w)
      = Ret (process_result returncode (extract_result (on_fd Stdout chunks))
               (on_fd Stdout chunks)))
  /\ fst (run_gemini_backend skill task repo_root yolo log_file true w)
     = Ret (process_result returncode (extract_result (merged chunks))
              (merged chunks))
  /\ fst (run_claude_backend skill task repo_root yolo log_file stream_output w)
     = Ret (process_result returncode (merged chunks) (merged chunks)).
Proof.
  intros L Hsi Ho Hag. unfold can_open_w in Ho.
  assert (G : forall stream,
            let run := run_gemini_backend skill task repo_root yolo log_file stream w in
            if negb stream && (600 <? elapsed)%Z
            then exists msg, fst run = Raise (mkExc TimeoutExpired msg)
            else fst run = Ret (process_result returncode
                                  (extract_result (captured stream chunks))
                                  (captured stream chunks))).
  { intros stream run.
    pose proof (run_gemini_backend_post skill task repo_root yolo log_file stream w
                  (fst run) (snd run) (surjective_pairing _)) as (_ & _ & B).
    rewrite L in B. rewrite bool_decide_eq_false_2 in B by exact Hsi.
    destruct (os_open_w _ _ log_file) as [e|[k fs1]]; [discriminate|].
    rewrite Hag in B. destruct B as (_ & _ & B). exact B. }
  assert (C : fst (run_claude_backend skill task repo_root yolo log_file
                     stream_output w)
              = Ret (process_result returncode (merged chunks) (merged chunks))).
  { pose proof (run_claude_backend_post skill task repo_root yolo log_file
                  stream_output w _ _ (surjective_pairing _)) as (_ & _ & B).
    rewrite L in B. rewrite bool_decide_eq_false_2 in B by exact Hsi.
    destruct (os_open_w _ _ log_file) as [e|[k fs1]]; [discriminate|].
    rewrite Hag in B. destruct B as (_ & _ & B). exact B. }
  split; [|split; [|split]].
  - intros Hlt. specialize (G false). cbn [negb andb] in G.
    apply Z.ltb_lt in Hlt. rewrite Hlt in G. exact G.
  - intros Hle. specialize (G false). cbn [negb andb] in G.
    apply Z.ltb_ge in Hle. rewrite Hle in G. exact G.
  - exact (G true).
  - exact C.
Qed.

Lemma only_gemini_background_has_a_time_limit_witness :
  exists msg,
    fst (run_gemini_backend (lit "plan") (lit "do it") Examples.root true
           Examples.log_path false
           (Examples.state Examples.skills_fs (Examples.answering 0 900)))
    = Raise (mkExc TimeoutExpired msg).
Proof.
  refine (proj1 (only_gemini_background_has_a_time_limit (lit "plan") (lit "do it")
                   Examples.root true Examples.log_path false
                   (Examples.state Examples.skills_fs (Examples.answering 0 900))
                   (lit "Plan well.") [(Stdout, Examples.answer)] 0 900 _ _ _ _) _).
  - apply load_skill_instructions_eq. by_evaluation.
  - discriminate.
  - by_evaluation.
  - intros cmd prompt. reflexivity.
  - lia.
Defined.

End TranscriptFacts.

(** ** Log and console *)

Section LogAndConsoleFacts.

Lemma world_eq (w1 w2 : world) :
  w_fs w1 = w_fs w2 -> w_cwd w1 = w_cwd w2 -> w_console w1 = w_console w2 ->
  w_spawned w1 = w_spawned w2 -> w_clock w1 = w_clock w2 ->
  w_strftime w1 = w_strftime w2 -> w_uuid w1 = w_uuid w2 ->
  w_uuid_next w1 = w_uuid_next w2 -> w_agent w1 = w_agent w2 ->
  w_repr w1 = w_repr w2 -> w1 = w2.
Proof. destruct w1, w2. cbn. intros. subst. reflexivity. Qed.

(** The [readline] loop in one equation. *)
Lemma stream_loop_exact (echo : bool) (k : key) (lines acc : list pystr)
    (w : world) (fs0 : fsys) (t : pystr) :
  w_fs w = <[k := File (Some t)]> fs0 ->
  stream_loop echo k lines acc w =
  (Ret (acc ++ lines),
   mkWorld (<[k := File (Some (t ++ concat lines))]> fs0) (w_cwd w)
     (w_console w ++ (if echo then lines else [])) (w_spawned w) (w_clock w)
     (w_strftime w) (w_uuid w) (w_uuid_next w) (w_agent w) (w_repr w)).
Proof.
  revert acc w t. induction lines as [|line lines IH]; intros acc w t Hfs.
  - cbn [stream_loop]. unfold ret. change (concat []) with (@nil N).
    rewrite (app_nil_r t), (app_nil_r acc).
    destruct w; wsimpl; subst. destruct echo; rewrite app_nil_r; reflexivity.
  - cbn [stream_loop]. unfold bind at 1.
    destruct echo.
    + unfold print at 1, modify at 1. unfold bind at 1, write at 1, modify at 1.
      rewrite (IH _ _ (t ++ line)).
      * wsimpl. change (concat (line :: lines)) with (line ++ concat lines).
        rewrite <- !app_assoc. reflexivity.
      * wsimpl. rewrite Hfs. apply os_write_insert.
    + unfold ret at 1. unfold bind at 1, write at 1, modify at 1.
      rewrite (IH _ _ (t ++ line)).
      * wsimpl. change (concat (line :: lines)) with (line ++ concat lines).
        rewrite <- !app_assoc. reflexivity.
      * wsimpl. rewrite Hfs. apply os_write_insert.
Qed.

(** A streamed child that exits: exit code and text, and the state left. *)
Lemma run_streaming_exact (cmd : list pystr) (prompt : pystr) (echo : bool)
    (k : key) (w : world) (fs0 : fsys) (t : pystr)
    (chunks : list (fd * pystr)) (returncode elapsed : Z) :
  w_fs w = <[k := File (Some t)]> fs0 ->
  w_agent w cmd prompt = Child (Exits chunks returncode elapsed) ->
  run_streaming cmd prompt echo k w =
  (Ret (returncode, merged chunks),
   mkWorld (<[k := File (Some (t ++ merged chunks))]> fs0) (w_cwd w)
     (w_console w ++ (if echo then readlines (merged chunks) else []))
     (w_spawned w ++ [cmd]) (w_clock w + elapsed)
     (w_strftime w) (w_uuid w) (w_uuid_next w) (w_agent w) (w_repr w)).
Proof.
  intros Hfs Hag. unfold run_streaming, bind at 1, Popen. rewrite Hag.
  unfold bind at 1.
  rewrite (stream_loop_exact echo k _ [] (add_spawned cmd w) fs0 t Hfs).
  unfold bind, modify, ret. wsimpl. cbn [app]. rewrite !readlines_concat.
  reflexivity.
Qed.

Lemma run_claude_backend_exact (skill task : pystr) (repo_root : Path)
    (yolo : bool) (log_file : Path) (stream_output : bool) (w : world)
    (si : pystr) (k : key) (fs1 : fsys) (chunks : list (fd * pystr))
    (returncode elapsed : Z) :
  load_skill_instructions (skill_file repo_root skill) w = (Ret si, w) ->
  si <> [] ->
  os_open_w (w_fs w) (w_cwd w) log_file = inr (k, fs1) ->
  w_agent w claude_cmd (claude_prompt task si)
  = Child (Exits chunks returncode elapsed) ->
  run_claude_backend skill task repo_root yolo log_file stream_output w =
  (Ret (process_result returncode (merged chunks) (merged chunks)),
   mkWorld
     (<[k := File (Some (lit "=== CLAUDE EXECUTION START ===
" ++ lit "Task: " ++ task ++ [0x0A; 0x0A] ++ merged chunks))]> (w_fs w))
     (w_cwd w)
     (w_console w ++ (if stream_output then readlines (merged chunks) else []))
     (w_spawned w ++ [claude_cmd]) (w_clock w + elapsed)
     (w_strftime w) (w_uuid w) (w_uuid_next w) (w_agent w) (w_repr w)).
Proof.
  intros L Hsi Ho Hag. unfold run_claude_backend, bind at 1. rewrite L.
  rewrite bool_decide_eq_false_2 by exact Hsi.
  unfold bind at 1. pose proof (open_w_spec log_file w) as O. rewrite Ho in O.
  rewrite O.
  unfold bind at 1, write at 1, modify. unfold bind at 1, write at 1, modify.
  wsimpl. rewrite !os_write_insert. unfold bind at 1.
  erewrite run_streaming_exact; [|wsimpl; reflexivity|wsimpl; exact Hag].
  unfold ret. wsimpl. rewrite app_nil_l, <- !app_assoc. reflexivity.
Qed.

Lemma run_gemini_backend_exact (skill task : pystr) (repo_root : Path)
    (yolo : bool) (log_file : Path) (stream_output : bool) (w : world)
    (si : pystr) (k : key) (fs1 : fsys) (chunks : list (fd * pystr))
    (returncode elapsed : Z) :
  load_skill_instructions (skill_file repo_root skill) w = (Ret si, w) ->
  si <> [] ->
  os_open_w (w_fs w) (w_cwd w) log_file = inr (k, fs1) ->
  w_agent w (gemini_cmd yolo)
    (gemini_prompt skill task si (prefix 8 (w_uuid w (w_uuid_next w))))
  = Child (Exits chunks returncode elapsed) ->
  run_gemini_backend skill task repo_root yolo log_file stream_output w =
  if negb stream_output && (600 <? elapsed)%Z then
    (Raise (mkExc TimeoutExpired (timeout_message w (gemini_cmd yolo) 600)),
     mkWorld
       (<[k := File (Some (lit "=== GEMINI EXECUTION START ===
" ++ lit "Task: " ++ task ++ [0x0A; 0x0A]))]> (w_fs w))
       (w_cwd w) (w_console w) (w_spawned w ++ [gemini_cmd yolo])
       (w_clock w + 600) (w_strftime w) (w_uuid w) (S (w_uuid_next w))
       (w_agent w) (w_repr w))
  else
    (Ret (process_result returncode
            (extract_result (captured stream_output chunks))
            (captured stream_output chunks)),
     mkWorld
       (<[k := File (Some (lit "=== GEMINI EXECUTION START ===
" ++ lit "Task: " ++ task ++ [0x0A; 0x0A]
           ++ (if stream_output then merged chunks
               else on_fd Stdout chunks ++ lit "
=== STDERR ===
" ++ on_fd Stderr chunks)))]> (w_fs w))
       (w_cwd w)
       (w_console w ++ (if stream_output then readlines (merged chunks) else []))
       (w_spawned w ++ [gemini_cmd yolo]) (w_clock w + elapsed)
       (w_strftime w) (w_uuid w) (S (w_uuid_next w)) (w_agent w) (w_repr w)).
Proof.
  intros L Hsi Ho Hag. unfold run_gemini_backend, bind at 1. rewrite L.
  rewrite bool_decide_eq_false_2 by exact Hsi.
  unfold bind at 1, uuid4_hex. unfold bind at 1.
  pose proof (open_w_spec log_file (next_uuid w)) as O. wsimpl. rewrite Ho in O.
  rewrite O.
  unfold bind at 1, write at 1, modify. unfold bind at 1, write at 1, modify.
  wsimpl. rewrite !os_write_insert. unfold bind at 1.
  destruct stream_output; cbn [negb andb captured].
  - erewrite run_streaming_exact; [|wsimpl; reflexivity|wsimpl; exact Hag].
    unfold ret. wsimpl. rewrite app_nil_l, <- !app_assoc. reflexivity.
  - unfold bind at 1, subprocess_run. unfold bind at 1, Popen. wsimpl.
    rewrite Hag. destruct (600 <? elapsed)%Z.
    + unfold bind, modify, gets, raise, timeout_message, repr_str.
      apply pair_equal_spec. split; [wsimpl; reflexivity|].
      apply world_eq; wsimpl; rewrite ?app_nil_l; reflexivity.
    + unfold bind, modify, ret, write, modify. wsimpl.
      rewrite !os_write_insert.
      apply pair_equal_spec. split; [reflexivity|].
      apply world_eq; wsimpl; rewrite ?app_nil_l, <- ?app_assoc, ?app_nil_r;
        reflexivity.
Qed.




(** The child's text reaches the console line by line when the run streams,
    and not at all when it does not: the Claude backend echoes on request, the
    Gemini backend echoes in its streaming branch and captures silently in the
    other. *)
Theorem child_output_is_echoed_only_when_streaming (skill task : pystr)
    (repo_root : Path) (yolo : bool) (log_file : Path) (w : world) (si : pystr)
    (chunks : list (fd * pystr)) (returncode elapsed : Z) :
  load_skill_instructions (skill_file repo_root skill) w = (Ret si, w) ->
  si <> [] ->
  can_open_w log_file w = true ->
  (forall cmd prompt, w_agent w cmd prompt = Child (Exits chunks returncode elapsed)) ->
  (forall stream_output,
     w_console (snd (run_claude_backend skill task repo_root yolo log_file
                       stream_output w))
     = w_console w ++ (if stream_output then readlines (merged chunks) else []))
  /\ (forall stream_output,
        w_console (snd (run_gemini_backend skill task repo_root yolo log_file
                          stream_output w))
        = w_console w ++ (if stream_output then readlines (merged chunks) else []))
  /\ concat (readlines (merged chunks)) = merged chunks.
Proof.
  intros L Hsi Ho Hag. unfold can_open_w in Ho.
  destruct (os_open_w (w_fs w) (w_cwd w) log_file) as [e|[k fs1]] eqn:O;
    [discriminate|].
  split; [|split].
  - intros stream_output.
    rewrite (run_claude_backend_exact _ _ _ _ _ _ _ _ _ _ _ _ _ L Hsi O (Hag _ _)).
    reflexivity.
  - intros stream_output.
    rewrite (run_gemini_backend_exact _ _ _ _ _ _ _ _ _ _ _ _ _ L Hsi O (Hag _ _)).
    destruct stream_output; cbn [negb andb]; [reflexivity|].
    destruct (600 <? elapsed)%Z; cbn [snd w_console]; rewrite ?app_nil_r; reflexivity.
  - apply readlines_concat.
Qed.

Lemma child_output_is_echoed_only_when_streaming_witness :
  w_console
    (snd (run_claude_backend (lit "plan") (lit "do it") Examples.root true
            Examples.log_path true
            (Examples.state Examples.skills_fs (Examples.answering 0 5))))
  = [lit "noise
"; lit "---SUBAGENT-RESULT-START---
"; lit "DONE
"; lit "---SUBAGENT-RESULT-END---
"; lit "more noise"].
Proof.
  refine (eq_trans
            (proj1 (child_output_is_echoed_only_when_streaming (lit "plan")
                      (lit "do it") Examples.root true Examples.log_path
                      (Examples.state Examples.skills_fs (Examples.answering 0 5))
                      (lit "Plan well.") [(Stdout, Examples.answer)] 0 5 _ _ _ _)
               true) _).
  - apply load_skill_instructions_eq. by_evaluation.
  - discriminate.
  - by_evaluation.
  - intros cmd prompt. reflexivity.
  - by_evaluation.
Defined.

(** Without echo, reading the child prints nothing, whatever the child
    does. *)
Lemma run_streaming_silent (cmd : list pystr) (prompt : pystr) (k : key)
    (w : world) :
  w_console (snd (run_streaming cmd prompt false k w)) = w_console w.
Proof.
  unfold run_streaming, bind at 1, Popen.
  destruct (w_agent w cmd prompt) as [e|[chunks rc el|e]]; try reflexivity.
  unfold bind at 1.
  pose proof (stream_loop_console false k (readlines (merged chunks)) []
                (add_spawned cmd w)) as C.
  destruct (stream_loop _ _ _ _ _) as [[out|e] w1]; cbn [snd] in C |- *.
  - unfold bind, modify, ret. cbn [snd]. wsimpl. rewrite C. apply app_nil_r.
  - rewrite C. apply app_nil_r.
Qed.

Lemma subprocess_run_silent (cmd : list pystr) (prompt : pystr) (limit : Z)
    (w : world) :
  w_console (snd (subprocess_run cmd prompt limit w)) = w_console w.
Proof.
  unfold subprocess_run, bind at 1, Popen.
  destruct (w_agent w cmd prompt) as [e|[chunks rc el|e]]; try reflexivity.
  destruct (limit <? el)%Z; reflexivity.
Qed.

Lemma open_w_console (p : Path) (w : world) :
  w_console (snd (open_w p w)) = w_console w.
Proof.
  unfold open_w. destruct (os_open_w _ _ p) as [e|[k fs1]]; reflexivity.
Qed.

(** A backend call that does not stream prints nothing. *)
Lemma dispatch_silent (backend : pyval) (skill task : pystr) (repo_root : Path)
    (yolo : bool) (log_file : Path) (w : world) :
  w_console (snd (dispatch backend skill task repo_root yolo log_file false w))
  = w_console w.
Proof.
  unfold dispatch.
  pose proof (load_skill_instructions_world (skill_file repo_root skill) w) as Hw.
  destruct (is_claude backend).
  - unfold run_claude_backend, bind at 1.
    destruct (load_skill_instructions _ w) as [[si|e] w0]; cbn [snd] in Hw; subst w0;
      [|reflexivity].
    destruct (bool_decide (si = [])); [reflexivity|].
    unfold bind at 1. pose proof (open_w_console log_file w) as C.
    destruct (open_w log_file w) as [[k|e] w1]; cbn [snd] in C; [|exact C].
    unfold bind at 1, write at 1, modify. unfold bind at 1, write at 1, modify.
    unfold bind at 1.
    match goal with
    | |- context [run_streaming ?c ?p false ?k ?W] =>
        pose proof (run_streaming_silent c p k W) as R;
        destruct (run_streaming c p false k W) as [[r|e] w2]
    end; wsimpl.
    + unfold ret. cbn [snd]. rewrite R. exact C.
    + rewrite R. exact C.
  - unfold run_gemini_backend, bind at 1.
    destruct (load_skill_instructions _ w) as [[si|e] w0]; cbn [snd] in Hw; subst w0;
      [|reflexivity].
    destruct (bool_decide (si = [])); [reflexivity|].
    unfold bind at 1, uuid4_hex. unfold bind at 1.
    pose proof (open_w_console log_file (next_uuid w)) as C.
    destruct (open_w log_file (next_uuid w)) as [[k|e] w1]; cbn [snd] in C;
      [|exact C].
    unfold bind at 1, write at 1, modify. unfold bind at 1, write at 1, modify.
    unfold bind at 1. unfold bind at 1.
    match goal with
    | |- context [subprocess_run ?c ?p ?t ?W] =>
        pose proof (subprocess_run_silent c p t W) as R;
        destruct (subprocess_run c p t W) as [[r|e] w2]
    end; wsimpl; [|rewrite R; exact C].
    unfold bind, write, modify, ret. wsimpl. rewrite R. exact C.
Qed.

(** The steps before the [try] print only in text mode outside background
    mode. *)
Lemma prepare_silent (skill : pystr) (repo_root : Path) (background : bool)
    (output_format : pystr) (w : world) :
  bool_decide (output_format = lit "text") && negb background = false ->
  w_console (snd (prepare skill repo_root background output_format w))
  = w_console w.
Proof.
  intros Hq. unfold prepare, bind at 1.
  pose proof (load_config_world (Some (repo_root </> lit ".agent")) w) as Hw.
  destruct (load_config _ w) as [[cfg|e] w0]; cbn [snd] in Hw; subst w0;
    [|reflexivity].
  unfold bind at 1.
  destruct (py_get cfg _ _ w) as [[backend|e] w0] eqn:G.
  2:{ destruct cfg; simpl in G; inversion G; subst; reflexivity. }
  assert (w0 = w) as -> by (destruct cfg; simpl in G; inversion G; reflexivity).
  unfold bind at 1, uuid4_hex. unfold bind at 1, strftime, gets. unfold bind at 1.
  destruct (mkdir_parents _ _) as [[[]|e] w2] eqn:Mk;
    apply mkdir_fuel_frame in Mk; rewrite Mk; [|reflexivity].
  unfold bind at 1. unfold bind at 1, time_time, gets. unfold bind at 1.
  rewrite Hq. reflexivity.
Qed.

(** The [try] statement ends in the state its backend call ends in. *)
Lemma attempt_world (run : M dict) (backend : pyval) (log_file : Path)
    (subagent_id : pystr) (start_time : Z) (w : world) :
  snd (attempt run backend log_file subagent_id start_time w) = snd (run w).
Proof.
  destruct (run w) as [[r|e] w2] eqn:R.
  - rewrite (attempt_ret _ _ _ _ _ _ _ _ R). reflexivity.
  - rewrite (attempt_raise _ _ _ _ _ _ _ _ R).
    destruct (is_Exception (exc_cls e)); reflexivity.
Qed.

(** In background mode [execute_task] prints nothing: not the two
    announcement lines, not the child's output, whatever the format, the
    configuration, the skill and the child. *)
Theorem background_runs_print_nothing (skill task : pystr) (repo_root : Path)
    (yolo : bool) (output_format : pystr) (w : world) :
  w_console (snd (execute_task skill task repo_root yolo true output_format w))
  = w_console w.
Proof.
  rewrite execute_task_unfold.
  pose proof (prepare_silent skill repo_root true output_format w
                (andb_false_r _)) as P.
  destruct (prepare skill repo_root true output_format w)
    as [[[[[backend lf] id] st]|e] w1]; cbn [snd] in P; [|exact P].
  rewrite attempt_world. cbn [negb]. rewrite dispatch_silent. exact P.
Qed.

(** In text mode outside background mode the steps before the [try] end
    with the two announcement lines, which need a text as backend name. *)
Lemma prepare_announces (skill : pystr) (repo_root : Path) (w w1 : world)
    (backend : pyval) (log_file : Path) (subagent_id : pystr) (start_time : Z) :
  prepare skill repo_root false (lit "text") w
    = (Ret (backend, log_file, subagent_id, start_time), w1) ->
  exists b,
    backend = PStr b
    /\ w_console w1
       = w_console w
         ++ [robot ++ lit "Executing task using " ++ upper b ++ lit "...";
             memo ++ lit "Logging to: " ++ path_str log_file].
Proof.
  unfold prepare, bind at 1.
  pose proof (load_config_world (Some (repo_root </> lit ".agent")) w) as Hw.
  destruct (load_config _ w) as [[cfg|e] w0]; cbn [snd] in Hw; subst w0;
    [|discriminate].
  unfold bind at 1.
  destruct (py_get cfg _ _ w) as [[v|e] w0] eqn:G; [|discriminate].
  assert (w0 = w) as -> by (destruct cfg; simpl in G; inversion G; reflexivity).
  unfold bind at 1, uuid4_hex. unfold bind at 1, strftime, gets. unfold bind at 1.
  destruct (mkdir_parents _ _) as [[[]|e] w2] eqn:Mk;
    apply mkdir_fuel_frame in Mk; rewrite Mk; [|discriminate].
  unfold bind at 1. unfold bind at 1, time_time, gets. unfold bind at 1.
  rewrite bool_decide_eq_true_2 by reflexivity. cbn [negb andb].
  unfold bind at 1.
  destruct v as [| b | z | l | s | xs | d]; try discriminate.
  unfold py_upper, ret, bind, print, modify. intros [= <- <- <- <- <-].
  exists s. split; [reflexivity|]. wsimpl. rewrite <- app_assoc. reflexivity.
Qed.

(** An interactive run in text mode, with a backend name of ASCII characters
    and on a console that can encode what is printed, prints the two
    announcement lines, the name in upper case in the first, and then the
    child's output, line by line, whichever backend runs. *)
Theorem interactive_run_announces_then_echoes (skill task : pystr)
    (repo_root : Path) (yolo : bool) (w w1 : world) (b : pystr) (log_file : Path)
    (subagent_id : pystr) (start_time : Z) (si : pystr)
    (chunks : list (fd * pystr)) (returncode elapsed : Z) :
  isascii b = true ->
  prepare skill repo_root false (lit "text") w
    = (Ret (PStr b, log_file, subagent_id, start_time), w1) ->
  load_skill_instructions (skill_file repo_root skill) w1 = (Ret si, w1) ->
  si <> [] ->
  can_open_w log_file w1 = true ->
  (forall cmd prompt, w_agent w1 cmd prompt = Child (Exits chunks returncode elapsed)) ->
  w_console (snd (execute_task skill task repo_root yolo false (lit "text") w))
  = w_console w
    ++ [robot ++ lit "Executing task using " ++ upper b ++ lit "...";
        memo ++ lit "Logging to: " ++ path_str log_file]
    ++ readlines (merged chunks).
Proof.
  intros _ P L Hsi Ho Hag. unfold can_open_w in Ho.
  destruct (os_open_w (w_fs w1) (w_cwd w1) log_file) as [e|[k fs1]] eqn:O;
    [discriminate|].
  rewrite execute_task_unfold, P, attempt_world. cbn [negb].
  destruct (prepare_announces _ _ _ _ _ _ _ _ P) as (b' & [= <-] & C).
  unfold dispatch. destruct (is_claude (PStr b)).
  - rewrite (run_claude_backend_exact _ _ _ _ _ _ _ _ _ _ _ _ _ L Hsi O (Hag _ _)).
    cbn [snd w_console]. rewrite C, <- app_assoc. reflexivity.
  - rewrite (run_gemini_backend_exact _ _ _ _ _ _ _ _ _ _ _ _ _ L Hsi O (Hag _ _)).
    cbn [negb andb snd w_console]. rewrite C, <- app_assoc. reflexivity.
Qed.

Lemma interactive_run_announces_then_echoes_witness :
  w_console
    (snd (execute_task (lit "plan") (lit "do it") Examples.root true false
            (lit "text")
            (Examples.state Examples.skills_fs (Examples.answering 0 5))))
  = [robot ++ lit "Executing task using GEMINI...";
     memo ++ lit "Logging to: /proj/artifacts/superpowers/subagents/gemini-plan-20231114-221320-01234567.log";
     lit "noise
"; lit "---SUBAGENT-RESULT-START---
"; lit "DONE
"; lit "---SUBAGENT-RESULT-END---
"; lit "more noise"].
Proof.
  refine (eq_trans
            (interactive_run_announces_then_echoes (lit "plan") (lit "do it")
               Examples.root true
               (Examples.state Examples.skills_fs (Examples.answering 0 5))
               (snd (prepare (lit "plan") Examples.root false (lit "text")
                       (Examples.state Examples.skills_fs (Examples.answering 0 5))))
               (lit "gemini")
               (of_str (lit "/proj/artifacts/superpowers/subagents/gemini-plan-20231114-221320-01234567.log"))
               (lit "01234567") 1700000000%Z (lit "Plan well.")
               [(Stdout, Examples.answer)] 0 5 _ _ _ _ _ _) _).
  - reflexivity.
  - apply run_eq. by_evaluation.
  - apply load_skill_instructions_eq. by_evaluation.
  - discriminate.
  - by_evaluation.
  - intros cmd prompt. reflexivity.
  - by_evaluation.
Defined.

End LogAndConsoleFacts.

(** ** The backend name, the command line and the identifiers *)

Section DispatchFacts.

(** A backend name that is not a text (a JSON number, [null], a list) stops
    [execute_task] only where the name is put in upper case, in text mode
    outside background mode; in background mode and in JSON mode the call goes
    on with the Gemini backend, the formatted value being part of the log
    file's name. *)
Theorem non_text_backend_name_fails_only_in_text_mode (skill task : pystr)
    (repo_root : Path) (yolo : bool) (w w2 : world) (d : dict) (v : pyval) :
  load_config (Some (repo_root </> lit ".agent")) w = (Ret (PDict d), w) ->
  dict_get d (lit "execution_backend") = Some v ->
  (forall s, v <> PStr s) ->
  mkdir_parents (log_dir repo_root) (next_uuid w) = (Ret tt, w2) ->
  execute_task skill task repo_root yolo false (lit "text") w
  = (Raise (mkExc AttributeError
              ([0x27] ++ type_name v ++ lit "' object has no attribute 'upper'")),
     w2)
  /\ forall background output_format,
       background = true \/ output_format <> lit "text" ->
       execute_task skill task repo_root yolo background output_format w
       = attempt
           (run_gemini_backend skill task repo_root yolo
              (log_dir repo_root
               </> log_name (py_format v w) skill (w_strftime w (w_clock w))
                     (prefix 8 (w_uuid w (w_uuid_next w))))
              (negb background))
           v
           (log_dir repo_root
            </> log_name (py_format v w) skill (w_strftime w (w_clock w))
                  (prefix 8 (w_uuid w (w_uuid_next w))))
           (prefix 8 (w_uuid w (w_uuid_next w))) (w_clock w) w2.
Proof.
  intros L G Hv Mk.
  assert (G' : match dict_get d (lit "execution_backend") with
               | Some x => x
               | None => PStr (lit "gemini")
               end = v) by (rewrite G; reflexivity).
  split.
  - rewrite execute_task_unfold.
    rewrite (prepare_eq skill repo_root false (lit "text") w d v L G'), Mk.
    rewrite bool_decide_eq_true_2 by reflexivity. cbn [negb andb].
    destruct v as [| b | z | l | s | xs | m]; try reflexivity.
    exfalso. apply (Hv s). reflexivity.
  - intros background output_format Hq.
    rewrite execute_task_unfold.
    rewrite (prepare_eq skill repo_root background output_format w d v L G'), Mk.
    assert (Q : bool_decide (output_format = lit "text") && negb background = false).
    { destruct Hq as [->|Hq]; [apply andb_false_r|].
      rewrite bool_decide_eq_false_2 by exact Hq. reflexivity. }
    rewrite Q. unfold dispatch.
    destruct v as [| b | z | l | s | xs | m]; try reflexivity.
    exfalso. apply (Hv s). reflexivity.
Qed.

Lemma non_text_backend_name_fails_only_in_text_mode_witness :
  fst (execute_task (lit "plan") (lit "do it") Examples.root true false (lit "text")
         (Examples.state
            (Examples.configured_fs
               (dumps 2 (PDict [(lit "execution_backend", PInt 5)])))
            (Examples.answering 0 5)))
  = Raise (mkExc AttributeError (lit "'int' object has no attribute 'upper'")).
Proof.
  refine (f_equal fst
            (proj1 (non_text_backend_name_fails_only_in_text_mode (lit "plan")
                      (lit "do it") Examples.root true
                      (Examples.state
                         (Examples.configured_fs
                            (dumps 2 (PDict [(lit "execution_backend", PInt 5)])))
                         (Examples.answering 0 5))
                      (snd (mkdir_parents (log_dir Examples.root)
                              (next_uuid
                                 (Examples.state
                                    (Examples.configured_fs
                                       (dumps 2 (PDict [(lit "execution_backend",
                                                         PInt 5)])))
                                    (Examples.answering 0 5)))))
                      [(lit "execution_backend", PInt 5)] (PInt 5) _ _ _ _))).
  - apply load_config_fst. by_evaluation.
  - by_evaluation.
  - discriminate.
  - apply run_eq. by_evaluation.
Defined.

(** The argument list a call hands to [subprocess], if it starts a child:
    [claude] with its fixed arguments, among them the one that skips the
    permission prompts, whatever [yolo] says; or [gemini], with [--yolo]
    exactly when [yolo] is set. The list is passed with [shell=True]: what
    the shell then runs from it depends on the platform and is not part of
    the statement. *)
Theorem subprocess_argument_list (skill task : pystr) (repo_root : Path)
    (yolo background : bool) (output_format : pystr) (w w1 : world)
    (backend : pyval) (log_file : Path) (subagent_id : pystr) (start_time : Z) :
  prepare skill repo_root background output_format w
    = (Ret (backend, log_file, subagent_id, start_time), w1) ->
  w_spawned
    (snd (execute_task skill task repo_root yolo background output_format w))
  = w_spawned w
  \/ w_spawned
       (snd (execute_task skill task repo_root yolo background output_format w))
     = w_spawned w
       ++ [if is_claude backend
           then [lit "claude"; lit "-p";
                 lit "Follow the instructions provided in the input.";
                 lit "--dangerously-skip-permissions"]
           else if yolo then [lit "gemini"; lit "--yolo"] else [lit "gemini"]].
Proof.
  intros P. rewrite execute_task_unfold, P, attempt_world.
  apply prepare_frame in P as (P1 & _ & _). rewrite <- P1.
  unfold dispatch. destruct (is_claude backend).
  - pose proof (run_claude_backend_post skill task repo_root yolo log_file
                  (negb background) w1 _ _ (surjective_pairing _)) as B.
    apply backend_post_spawned in B. exact B.
  - pose proof (run_gemini_backend_post skill task repo_root yolo log_file
                  (negb background) w1 _ _ (surjective_pairing _)) as B.
    apply backend_post_spawned in B. destruct yolo; exact B.
Qed.

Lemma subprocess_argument_list_witness :
  w_spawned
    (snd (execute_task (lit "plan") (lit "do it") Examples.root false true
            (lit "json")
            (Examples.state Examples.skills_fs (Examples.answering 0 5))))
  = []
  \/ w_spawned
       (snd (execute_task (lit "plan") (lit "do it") Examples.root false true
               (lit "json")
               (Examples.state Examples.skills_fs (Examples.answering 0 5))))
     = [] ++ [if is_claude (PStr (lit "gemini"))
              then [lit "claude"; lit "-p";
                    lit "Follow the instructions provided in the input.";
                    lit "--dangerously-skip-permissions"]
              else if false then [lit "gemini"; lit "--yolo"] else [lit "gemini"]].
Proof.
  apply (subprocess_argument_list (lit "plan") (lit "do it") Examples.root false true
           (lit "json")
           (Examples.state Examples.skills_fs (Examples.answering 0 5))
           (snd (prepare (lit "plan") Examples.root true (lit "json")
                   (Examples.state Examples.skills_fs (Examples.answering 0 5))))
           (PStr (lit "gemini"))
           (of_str (lit "/proj/artifacts/superpowers/subagents/gemini-plan-20231114-221320-01234567.log"))
           (lit "01234567") 1700000000%Z).
  apply run_eq. by_evaluation.
Defined.

(** What the steps before the [try] do with the identifier sources. *)
Lemma prepare_ids (skill : pystr) (repo_root : Path) (background : bool)
    (output_format : pystr) (w w1 : world) (backend : pyval) (log_file : Path)
    (subagent_id : pystr) (start_time : Z) :
  prepare skill repo_root background output_format w
    = (Ret (backend, log_file, subagent_id, start_time), w1) ->
  subagent_id = prefix 8 (w_uuid w (w_uuid_next w))
  /\ start_time = w_clock w /\ w_clock w1 = w_clock w
  /\ w_uuid w1 = w_uuid w /\ w_uuid_next w1 = S (w_uuid_next w).
Proof.
  unfold prepare, bind at 1.
  pose proof (load_config_world (Some (repo_root </> lit ".agent")) w) as Hw.
  destruct (load_config _ w) as [[cfg|e] w0]; cbn [snd] in Hw; subst w0;
    [|discriminate].
  unfold bind at 1.
  destruct (py_get cfg _ _ w) as [[v|e] w0] eqn:G; [|discriminate].
  assert (w0 = w) as -> by (destruct cfg; simpl in G; inversion G; reflexivity).
  unfold bind at 1, uuid4_hex. unfold bind at 1, strftime, gets. unfold bind at 1.
  destruct (mkdir_parents _ _) as [[[]|e] w2] eqn:Mk;
    apply mkdir_fuel_frame in Mk; rewrite Mk; [|discriminate].
  unfold bind at 1. unfold bind at 1, time_time, gets. unfold bind at 1.
  destruct (bool_decide _ && negb background).
  - unfold bind at 1.
    destruct v; unfold py_upper, raise, ret, bind, print, modify; try discriminate.
    intros [= <- <- <- <- <-]. repeat split.
  - unfold ret. intros [= <- <- <- <- <-]. repeat split.
Qed.

(** The identifier in the Gemini prompt's artifacts directory is not the
    [subagent_id] of the result: [execute_task] takes the first eight digits
    of one [uuid4] for the result and for the log file's name, the Gemini
    backend those of the next [uuid4] for the prompt. The result of a finished
    run carries the first identifier and is built from what the child fed
    with the prompt of the second prints. *)
Theorem gemini_prompt_names_another_id (skill task : pystr) (repo_root : Path)
    (yolo background : bool) (output_format : pystr) (w w1 : world)
    (backend : pyval) (log_file : Path) (subagent_id : pystr) (start_time : Z)
    (si : pystr) (chunks : list (fd * pystr)) (returncode elapsed : Z) :
  prepare skill repo_root background output_format w
    = (Ret (backend, log_file, subagent_id, start_time), w1) ->
  is_claude backend = false ->
  load_skill_instructions (skill_file repo_root skill) w1 = (Ret si, w1) ->
  si <> [] ->
  can_open_w log_file w1 = true ->
  w_agent w1 (gemini_cmd yolo)
    (gemini_prompt skill task si (prefix 8 (w_uuid w (S (w_uuid_next w)))))
  = Child (Exits chunks returncode elapsed) ->
  background = false \/ (elapsed <= 600)%Z ->
  subagent_id = prefix 8 (w_uuid w (w_uuid_next w))
  /\ log_file = log_dir repo_root
                </> log_name (py_format backend w) skill
                      (w_strftime w (w_clock w))
                      (prefix 8 (w_uuid w (w_uuid_next w)))
  /\ exists r,
       fst (execute_task skill task repo_root yolo background output_format w)
       = Ret r
       /\ dict_get r (lit "subagent_id")
          = Some (PStr (prefix 8 (w_uuid w (w_uuid_next w))))
       /\ dict_get r (lit "log_file") = Some (PStr (path_str log_file))
       /\ dict_get r (lit "success") = Some (PBool (returncode =? 0)%Z)
       /\ dict_get r (lit "output")
          = Some (PStr (extract_result (captured (negb background) chunks))).
Proof.
  intros P Hb L Hsi Ho Hag Ht. unfold can_open_w in Ho.
  destruct (os_open_w (w_fs w1) (w_cwd w1) log_file) as [e|[k fs1]] eqn:O;
    [discriminate|].
  destruct (prepare_ids _ _ _ _ _ _ _ _ _ _ P) as (Hid & Hst & Hc & Hu & Hn).
  pose proof (prepare_log_name _ _ _ _ _ _ _ _ _ _ P) as Hlog.
  split; [exact Hid|]. split; [rewrite <- Hid; exact Hlog|].
  rewrite execute_task_unfold, P. unfold dispatch. rewrite Hb.
  assert (T : negb (negb background) && (600 <? elapsed)%Z = false).
  { destruct Ht as [->|Ht]; [reflexivity|].
    apply Z.ltb_ge in Ht. rewrite Ht. apply andb_false_r. }
  erewrite attempt_ret.
  2:{ rewrite (run_gemini_backend_exact skill task repo_root yolo log_file
                 (negb background) w1 si k fs1 chunks returncode elapsed L Hsi O).
      - rewrite T. reflexivity.
      - rewrite Hu, Hn. exact Hag. }
  cbn [fst]. eexists. split; [reflexivity|].
  rewrite <- Hid. repeat split.
Qed.

Lemma gemini_prompt_names_another_id_witness :
  exists r,
    fst (execute_task (lit "plan") (lit "do it") Examples.root true true
           (lit "json") Examples.checking_state)
    = Ret r
    /\ dict_get r (lit "subagent_id") = Some (PStr (lit "aaaaaaaa"))
    /\ dict_get r (lit "log_file")
       = Some (PStr (lit "/proj/artifacts/superpowers/subagents/gemini-plan-20231114-221320-aaaaaaaa.log"))
    /\ dict_get r (lit "success") = Some (PBool true)
    /\ dict_get r (lit "output") = Some (PStr (lit "DONE")).
Proof.
  refine (proj2 (proj2
            (gemini_prompt_names_another_id (lit "plan") (lit "do it")
               Examples.root true true (lit "json") Examples.checking_state
               (snd (prepare (lit "plan") Examples.root true (lit "json")
                       Examples.checking_state))
               (PStr (lit "gemini"))
               (of_str (lit "/proj/artifacts/superpowers/subagents/gemini-plan-20231114-221320-aaaaaaaa.log"))
               (lit "aaaaaaaa") 1700000000%Z (lit "Plan well.")
               [(Stdout, Examples.answer)] 0 5 _ _ _ _ _ _ _))).
  - apply run_eq. by_evaluation.
  - by_evaluation.
  - apply load_skill_instructions_eq. by_evaluation.
  - discriminate.
  - by_evaluation.
  - by_evaluation.
  - right. lia.
Defined.

End DispatchFacts.

(** ** More on the configuration accessor *)

Section ConfigFacts.



(** When the root path is taken by a file, [save_config] raises
    [FileExistsError] for the root and writes nothing. *)
Theorem save_config_under_a_file_raises (config : pyval) (root : Path)
    (w : world) (t : option pystr) :
  stat (w_fs w) (w_cwd w) root = inr (File t) ->
  save_config config (Some root) w
  = (Raise (mkExc FileExistsError
              (lit "[Errno 17] File exists: " ++ repr_str w (path_str root))), w).
Proof.
  intros Hs.
  assert (E : of_str (lit "config.json") = mkPath false [lit "config.json"])
    by reflexivity.
  destruct (joinpath_name root (lit "config.json") E) as [_ Hparent].
  unfold save_config, bind at 1, gets. cbn [root_or_default].
  unfold bind at 1. rewrite Hparent. unfold mkdir_parents.
  cbn [mkdir_fuel]. unfold os_mkdir, is_dir, stat in *.
  destruct (namei (w_fs w) (w_cwd w) root) as [e|k]; [discriminate|].
  destruct (node_at (w_fs w) k) as [[|t']|]; try discriminate. reflexivity.
Qed.

Lemma save_config_under_a_file_raises_witness :
  save_config (PDict [])
    (Some (of_str (lit "/proj/.agent/skills/superpowers-plan/SKILL.md")))
    (Examples.state Examples.skills_fs (Examples.answering 0 5))
  = (Raise (mkExc FileExistsError
              (lit "[Errno 17] File exists: '/proj/.agent/skills/superpowers-plan/SKILL.md'")),
     Examples.state Examples.skills_fs (Examples.answering 0 5)).
Proof.
  apply (save_config_under_a_file_raises (PDict [])
           (of_str (lit "/proj/.agent/skills/superpowers-plan/SKILL.md"))
           (Examples.state Examples.skills_fs (Examples.answering 0 5))
           (Some (lit "Plan well."))).
  by_evaluation.
Defined.

End ConfigFacts.

(** ** Switching the backend *)

Section SetBackendFacts.

(** Writing a file where there is no directory changes no path resolution. *)
Lemma walk_insert_file (fs : fsys) (k0 : key) (t : option pystr) (cur : key)
    (comps : list pystr) (k : key) :
  node_at fs k0 <> Some Dir ->
  walk (<[k0 := File t]> fs) cur comps = inr k <-> walk fs cur comps = inr k.
Proof.
  intros Hk. split.
  - apply walk_mono. intros j Hj.
    destruct (decide (k0 = j)) as [<-|Hne].
    + destruct k0 as [|c k0]; [exfalso; apply Hk; reflexivity|].
      rewrite node_at_insert_eq in Hj by discriminate. discriminate.
    + rewrite node_at_insert_ne in Hj by exact Hne. exact Hj.
  - apply walk_mono. apply dirs_kept_by_insert. exact Hk.
Qed.

(** It changes the existence of the paths that lead to the file only. *)
Lemma path_exists_insert_file (w w' : world) (k0 : key) (t : option pystr)
    (p : Path) :
  node_at (w_fs w) k0 <> Some Dir ->
  w_fs w' = <[k0 := File t]> (w_fs w) ->
  w_cwd w' = w_cwd w ->
  namei (w_fs w) (w_cwd w) p <> inr k0 ->
  path_exists p w' = path_exists p w.
Proof.
  intros Hk Hfs Hcwd Hp. unfold path_exists, stat, namei in *. rewrite Hfs, Hcwd.
  destruct (walk (w_fs w) _ (parts p)) as [e|k] eqn:W.
  - destruct (walk (<[k0:=File t]> (w_fs w)) _ (parts p)) as [e'|k'] eqn:W';
      [reflexivity|].
    apply walk_insert_file in W'; [congruence|exact Hk].
  - rewrite (proj2 (walk_insert_file _ k0 t _ _ k Hk) W).
    rewrite node_at_insert_ne by congruence. reflexivity.
Qed.

(** The key of a path ends with the path's last component. *)
Lemma namei_last (fs : fsys) (cwd : key) (p : Path) (name : pystr) (k : key) :
  of_str name = mkPath false [name] -> name <> dotdot ->
  namei fs cwd (p </> name) = inr k -> exists k', k = k' ++ [name].
Proof.
  intros E Hdd. destruct (joinpath_name p name E) as [J _].
  unfold namei. rewrite J. cbn [anchored parts]. rewrite walk_app.
  destruct (walk fs _ (parts p)) as [e|k']; [discriminate|].
  cbn [walk]. destruct (node_at fs k') as [[|t]|]; try discriminate.
  rewrite bool_decide_eq_false_2 by exact Hdd. intros [= <-]. eauto.
Qed.



Lemma write_text_exact (p : Path) (text : pystr) (w : world) (k : key)
    (fs1 : fsys) :
  os_open_w (w_fs w) (w_cwd w) p = inr (k, fs1) ->
  write_text p text w = (Ret tt, set_fs (<[k := File (Some text)]> (w_fs w)) w).
Proof.
  intros Ho. unfold write_text, bind. pose proof (open_w_spec p w) as O.
  rewrite Ho in O. rewrite O. unfold write, modify. wsimpl.
  rewrite os_write_insert. reflexivity.
Qed.

(** Item assignment on a dict. *)
Lemma dict_get_set_eq (d : dict) (k : pystr) (v : pyval) :
  dict_get (dict_set d k v) k = Some v.
Proof.
  induction d as [|[k' v'] d IH]; cbn [dict_set dict_get].
  - rewrite bool_decide_eq_true_2 by reflexivity. reflexivity.
  - destruct (bool_decide (k' = k)) eqn:E; cbn [dict_get]; rewrite E;
      [reflexivity|exact IH].
Qed.


Lemma dict_set_keys (d : dict) (k : pystr) (v : pyval) :
  map fst (dict_set d k v) = map fst d
  \/ (~ In k (map fst d) /\ map fst (dict_set d k v) = map fst d ++ [k]).
Proof.
  induction d as [|[k' v'] d IH]; cbn [dict_set map fst].
  - right. split; [intros []|reflexivity].
  - destruct (bool_decide (k' = k)) eqn:E; cbn [map fst]; [left; reflexivity|].
    apply bool_decide_eq_false_1 in E.
    destruct IH as [IH|[Hn IH]].
    + left. rewrite IH. reflexivity.
    + right. split.
      * intros [H|H]; [exact (E H)|exact (Hn H)].
      * rewrite IH. reflexivity.
Qed.

Lemma dict_set_serializable (d : dict) (k : pystr) (v : pyval) :
  serializable (PDict d) = true ->
  forallb scalar_value k = true -> serializable v = true ->
  serializable (PDict (dict_set d k v)) = true.
Proof.
  cbn [serializable]. intros Hd Hk Hv.
  apply andb_true_iff in Hd as [Hu Hd]. apply andb_true_iff. split.
  - unfold keys_unique in *. apply bool_decide_eq_true_1 in Hu.
    apply bool_decide_eq_true_2.
    destruct (dict_set_keys d k v) as [->|[Hn ->]]; [exact Hu|].
    apply NoDup_app. split; [exact Hu|]. split.
    + intros x Hx Hx'. apply list_elem_of_In in Hx.
      apply list_elem_of_In in Hx'. destruct Hx' as [<-|[]]. exact (Hn Hx).
    + apply NoDup_singleton.
  - clear Hu. induction d as [|[k' v'] d IH]; cbn [dict_set forallb fst snd].
    + rewrite Hk, Hv. reflexivity.
    + cbn [forallb fst snd] in Hd. apply andb_true_iff in Hd as [H1 H2].
      destruct (bool_decide (k' = k)) eqn:E; cbn [forallb fst snd].
      * apply bool_decide_eq_true_1 in E. subst k'.
        apply andb_true_iff in H1 as [H1 _]. rewrite H1, Hv, H2. reflexivity.
      * rewrite H1. apply IH. exact H2.
Qed.

(** A run of the script on a configuration that is a JSON object, where the
    [.agent] directory exists: the state it ends in. *)
Lemma set_backend_run (backend : SetBackend.choice) (w : world) (d : dict) :
  load_config None w = (Ret (PDict d), w) ->
  is_dir (find_agent_root (cwd w) w) w = true ->
  is_dir (find_agent_root (cwd w) w </> lit "config.json") w = false ->
  exists k0,
    namei (w_fs w) (w_cwd w) (find_agent_root (cwd w) w </> lit "config.json")
    = inr k0
    /\ node_at (w_fs w) k0 <> Some Dir
    /\ SetBackend.main backend w
       = (SetBackend.Finished,
          add_console SetBackend.saved
            (add_console (SetBackend.switched backend)
               (set_fs
                  (<[k0 := File (Some (dumps 2
                       (PDict (dict_set d (lit "execution_backend")
                                 (PStr (SetBackend.choice_name backend))))))]>
                     (w_fs w)) w)))
    /\ stat
         (<[k0 := File (Some (dumps 2
              (PDict (dict_set d (lit "execution_backend")
                        (PStr (SetBackend.choice_name backend))))))]> (w_fs w))
         (w_cwd w) (find_agent_root (cwd w) w </> lit "config.json")
       = inr (File (Some (dumps 2
                (PDict (dict_set d (lit "execution_backend")
                          (PStr (SetBackend.choice_name backend))))))).
Proof.
  intros L Hr Hf.
  set (cfg := dict_set d (lit "execution_backend")
                (PStr (SetBackend.choice_name backend))).
  set (root := find_agent_root (cwd w) w) in *.
  assert (E : of_str (lit "config.json") = mkPath false [lit "config.json"])
    by reflexivity.
  destruct (joinpath_name root (lit "config.json") E) as [_ Hparent].
  assert (Ho : can_open_w (root </> lit "config.json") w = true).
  { apply can_open_in_dir; [exact E|discriminate|exact Hr|exact Hf]. }
  unfold can_open_w in Ho.
  destruct (os_open_w (w_fs w) (w_cwd w) (root </> lit "config.json"))
    as [e|[k0 fs1]] eqn:O; [discriminate|].
  destruct (os_open_w_inv _ _ _ _ _ O) as [Hn Hk].
  exists k0. split; [exact Hn|]. split; [exact Hk|]. split.
  - assert (S : save_config (PDict cfg) None w
                = (Ret tt,
                   set_fs (<[k0 := File (Some (dumps 2 (PDict cfg)))]> (w_fs w)) w)).
    { unfold save_config, bind at 1, gets. cbn [root_or_default]. fold root.
      unfold bind at 1. rewrite Hparent. unfold mkdir_parents.
      rewrite mkdir_existing by exact Hr.
      apply (write_text_exact _ _ _ _ _ O). }
    unfold SetBackend.main. rewrite L. fold cfg. unfold bind at 1. rewrite S.
    reflexivity.
  - apply (opened_file_exists _ _ _ _ _ (dumps 2 (PDict cfg)) O).
Qed.





End SetBackendFacts.

(** ** The command line of the executor *)

Section MainFacts.

Import ExecuteTaskMain.

(** A backend that returns gives the skill message or a process result. *)
Lemma backend_post_ret (cmd : list pystr) (prompt : pystr -> pystr)
    (piped : bool) (post : pystr -> pystr) (repo_root : Path) (skill : pystr)
    (log_file : Path) (w w' : world) (r : dict) :
  backend_post cmd prompt piped post repo_root skill log_file w (Ret r) w' ->
  r = skill_not_found repo_root skill
  \/ exists returncode output full_log,
       r = process_result returncode output full_log.
Proof.
  intros (_ & _ & B).
  destruct (load_skill_instructions _ w) as [[si|e] w0];
    [|destruct B as [[=] _]].
  destruct (bool_decide (si = [])); [destruct B as [[= ->] _]; auto|].
  destruct (os_open_w _ _ log_file) as [e|[k fs1]]; [destruct B as [[=] _]|].
  destruct B as (_ & B).
  destruct (w_agent w cmd (prompt si)) as [e|[chunks rc el|e]].
  - destruct B as [[=] _].
  - destruct B as [_ B]. destruct (negb piped && (600 <? el)%Z).
    + destruct B as [msg [=]].
    + injection B as ->. right. eauto.
  - destruct B as [_ [=]].
Qed.

(** What [execute_task] returns is a summary whose [success] is a
    boolean. *)
Lemma execute_task_result_shape (skill task : pystr) (repo_root : Path)
    (yolo background : bool) (output_format : pystr) (w w' : world) (r : dict) :
  execute_task skill task repo_root yolo background output_format w = (Ret r, w') ->
  exists b output error log_file duration_s subagent_id backend,
    r = summary (PBool b) output error log_file duration_s subagent_id backend.
Proof.
  rewrite execute_task_unfold.
  destruct (prepare skill repo_root background output_format w)
    as [[[[[backend lf] id] st]|e] w1]; [|discriminate].
  destruct (dispatch backend skill task repo_root yolo lf (negb background) w1)
    as [[r0|e] w2] eqn:D.
  - rewrite (attempt_ret _ _ _ _ _ _ _ _ D). intros [= <- <-].
    apply dispatch_post in D as (cmd & prompt & piped & post & B).
    apply backend_post_ret in B as [->|(rc & out & full & ->)].
    + change (dict_get (skill_not_found repo_root skill) (lit "success"))
        with (Some (PBool false)).
      change (dict_get (skill_not_found repo_root skill) (lit "output"))
        with (@None pyval).
      cbv iota. eauto 10.
    + change (dict_get (process_result rc out full) (lit "success"))
        with (Some (PBool (rc =? 0)%Z)).
      change (dict_get (process_result rc out full) (lit "output"))
        with (Some (PStr out)).
      cbv iota. eauto 10.
  - rewrite (attempt_raise _ _ _ _ _ _ _ _ D).
    destruct (is_Exception (exc_cls e)); [|discriminate].
    intros [= <- <-]. eauto 10.
Qed.

Lemma exit_code_of_summary (F : formatting) (b : bool)
    (output error : pyval) (log_file : Path) (duration_s : Z)
    (subagent_id : pystr) (backend : pyval) (w : world) :
  exit_code F (summary (PBool b) output error log_file duration_s subagent_id
                 backend) w
  = (Returned (if b then 0 else 1), w).
Proof. reflexivity. Qed.

(** [main] returns 0 exactly when the [success] field of the result is
    true, and 1 when it is false. In JSON mode and in background mode it
    returns whenever [execute_task] does; in interactive text mode it returns
    whenever the duration can be formatted. An exception of [execute_task]
    leaves [main] as it is. *)
Theorem main_returns_zero_iff_success (F : formatting) (a : args) (w : world) :
  match execute_task (arg_skill a) (arg_task a) (find_repo_root (cwd w) w)
          (negb (arg_no_yolo a)) (arg_background a) (arg_output_format a) w with
  | (Raise e, w1) => main F a w = (Uncaught e, w1)
  | (Ret result, w1) =>
      exists b duration_s,
        dict_get result (lit "success") = Some (PBool b)
        /\ dict_get result (lit "duration_s") = Some (PInt duration_s)
        /\ (forall code w', main F a w = (Returned code, w') ->
              code = if b then 0%Z else 1%Z)
        /\ (arg_output_format a = lit "json" \/ arg_background a = true
            \/ (exists seconds, format_1f F (PInt duration_s) = inr seconds) ->
            fst (main F a w) = Returned (if b then 0 else 1))
  end.
Proof.
  unfold main.
  destruct (execute_task _ _ _ _ _ _ w) as [[r|e] w1] eqn:X; [|reflexivity].
  apply execute_task_result_shape in X
    as (b & output & error & lf & dur & id & backend & ->).
  exists b, dur. split; [reflexivity|]. split; [reflexivity|].
  assert (T : forall w2,
            text_summary F (summary (PBool b) output error lf dur id backend) w2
            = match format_1f F (PInt dur) with
              | inl (c, m) => (FormatError c m, w2)
              | inr seconds =>
                  (Returned (if b then 0 else 1),
                   if b
                   then add_console
                          ([0x0A] ++ check_mark ++ lit " Task completed in "
                           ++ seconds ++ lit "s") w2
                   else add_console
                          (lit "Error: " ++ py_format error w2)
                          (add_console
                             ([0x0A] ++ cross_mark ++ lit " Task completed in "
                              ++ seconds ++ lit "s") w2))
              end).
  { intros w2. unfold text_summary.
    change (dict_get (summary (PBool b) output error lf dur id backend)
              (lit "success")) with (Some (PBool b)).
    change (dict_get (summary (PBool b) output error lf dur id backend)
              (lit "duration_s")) with (Some (PInt dur)).
    change (dict_get (summary (PBool b) output error lf dur id backend)
              (lit "error")) with (Some error).
    cbv iota. destruct (format_1f F (PInt dur)) as [[c m]|seconds]; [reflexivity|].
    cbn [truthy]. rewrite !exit_code_of_summary. destruct b; reflexivity. }
  split.
  - intros code w'.
    destruct (bool_decide (arg_output_format a = lit "json")).
    { rewrite exit_code_of_summary. intros [= <- _]. reflexivity. }
    destruct (arg_background a).
    { rewrite exit_code_of_summary. intros [= <- _]. reflexivity. }
    rewrite T. destruct (format_1f F (PInt dur)) as [[c m]|seconds];
      [discriminate|]. intros [= <- _]. reflexivity.
  - intros [Hj|[Hb|[seconds Hf]]].
    + rewrite bool_decide_eq_true_2 by exact Hj.
      rewrite exit_code_of_summary. reflexivity.
    + rewrite Hb. destruct (bool_decide _); rewrite exit_code_of_summary;
        reflexivity.
    + destruct (bool_decide _); [rewrite exit_code_of_summary; reflexivity|].
      destruct (arg_background a); [rewrite exit_code_of_summary; reflexivity|].
      rewrite T, Hf. reflexivity.
Qed.



(** In JSON mode with [--background], when [execute_task] returns a result,
    the script prints one thing only: the result as a JSON document. *)
Theorem background_json_prints_one_document (F : formatting) (a : args)
    (w w1 : world) (result : dict) :
  arg_output_format a = lit "json" ->
  arg_background a = true ->
  execute_task (arg_skill a) (arg_task a) (find_repo_root (cwd w) w)
    (negb (arg_no_yolo a)) (arg_background a) (arg_output_format a) w
  = (Ret result, w1) ->
  w_console (snd (main F a w)) = w_console w ++ [dumps 2 (PDict result)].
Proof.
  intros Hj Hb X.
  assert (C : w_console w1 = w_console w).
  { pose proof (f_equal snd X) as X'. cbn [snd] in X'. rewrite <- X'.
    rewrite execute_task_unfold. rewrite Hb.
    pose proof (prepare_silent (arg_skill a) (find_repo_root (cwd w) w) true
                  (arg_output_format a) w (andb_false_r _)) as P.
    destruct (prepare _ _ true _ w) as [[[[[backend lf] id] st]|e] w0];
      cbn [snd] in P; [|exact P].
    rewrite attempt_world. cbn [negb]. rewrite dispatch_silent. exact P. }
  unfold main. rewrite X. rewrite bool_decide_eq_true_2 by exact Hj.
  pose proof X as X2.
  apply execute_task_result_shape in X2
    as (b & output & error & lf & dur & id & backend & ->).
  rewrite exit_code_of_summary. cbn [snd w_console add_console]. rewrite C.
  reflexivity.
Qed.

Lemma background_json_prints_one_document_witness :
  w_console
    (snd (main (mkFormatting (fun _ => true) (fun _ => inr (lit "0.0")))
            (mkArgs (lit "plan") (lit "do it") false true (lit "json"))
            (Examples.state Examples.skills_fs (Examples.answering 0 5))))
  = [dumps 2
       (PDict (result_of
                 (execute_task (lit "plan") (lit "do it") Examples.root true true
                    (lit "json")
                    (Examples.state Examples.skills_fs (Examples.answering 0 5)))))].
Proof.
  refine (background_json_prints_one_document
            (mkFormatting (fun _ => true) (fun _ => inr (lit "0.0")))
            (mkArgs (lit "plan") (lit "do it") false true (lit "json"))
            (Examples.state Examples.skills_fs (Examples.answering 0 5))
            (snd (execute_task (lit "plan") (lit "do it") Examples.root
                    true true (lit "json")
                    (Examples.state Examples.skills_fs
                       (Examples.answering 0 5))))
            (result_of
               (execute_task (lit "plan") (lit "do it") Examples.root true
                  true (lit "json")
                  (Examples.state Examples.skills_fs
                     (Examples.answering 0 5))))
            _ _ _).
  - reflexivity.
  - reflexivity.
  - replace (find_repo_root
               (cwd (Examples.state Examples.skills_fs (Examples.answering 0 5)))
               (Examples.state Examples.skills_fs (Examples.answering 0 5)))
      with Examples.root by by_evaluation.
    apply returned_eq. by_evaluation.
Defined.

End MainFacts.

(** ** Invariants *)

Section InvariantFacts.

(** The [output] field of the Gemini backend is always a contiguous part of
    the captured text; when the start marker occurs in the text, it has no
    white space at either end. *)
Theorem extract_result_is_part_of_the_output (s : pystr) :
  (exists a b, s = a ++ extract_result s ++ b)
  /\ (contains START_MARKER s = true ->
      match extract_result s with c :: _ => isspace c = false | [] => True end
      /\ match rev (extract_result s) with
         | c :: _ => isspace c = false
         | [] => True
         end).
Proof.
  unfold extract_result, contains, split1.
  destruct (find START_MARKER s) as [[before after]|] eqn:F1.
  - apply find_Some in F1 as [-> _].
    destruct (find END_MARKER after) as [[res rest]|] eqn:F2.
    + apply find_Some in F2 as [-> _].
      destruct (strip_spec res) as (l & r & Hres & _ & _ & H1 & H2).
      split; [|intros _; split; assumption].
      exists (before ++ START_MARKER ++ l), (r ++ END_MARKER ++ rest).
      rewrite Hres at 1. rewrite <- !app_assoc. reflexivity.
    + destruct (strip_spec after) as (l & r & Hres & _ & _ & H1 & H2).
      split; [|intros _; split; assumption].
      exists (before ++ START_MARKER ++ l), r.
      rewrite Hres at 1. rewrite <- !app_assoc. reflexivity.
  - split; [|discriminate]. exists [], []. rewrite app_nil_r. reflexivity.
Qed.

(** The two loops walk together as long as a marker lies ahead. *)
Lemma roots_agree_loop (n : nat) (curr : Path) (w : world) :
  (exists k, (k < n)%nat
             /\ path_exists (ancestor k curr </> lit ".agent") w = true) ->
  find_agent_root_loop n curr w = find_repo_root_loop n curr w </> lit ".agent".
Proof.
  revert curr. induction n as [|n IH]; intros curr (k & Hk & He); [lia|].
  cbn [find_agent_root_loop find_repo_root_loop].
  destruct (path_exists (curr </> lit ".agent") w) eqn:E0; [reflexivity|].
  assert (Hp : parent curr <> curr).
  { intros Hp. rewrite ancestor_fixed in He by exact Hp. congruence. }
  destruct k as [|k]; [change (ancestor 0 curr) with curr in He; congruence|].
  rewrite ancestor_S in He.
  rewrite (bool_decide_eq_false_2 _ Hp).
  destruct (path_exists (curr </> lit "skills") w
            && path_exists (parent curr </> lit ".agent") w) eqn:E1.
  - apply andb_true_iff in E1 as [_ E1].
    destruct n as [|n]; [lia|]. cbn [find_repo_root_loop]. rewrite E1.
    reflexivity.
  - apply IH. exists k. split; [lia|exact He].
Qed.

(** When [find_repo_root] finds a project root at the start directory or
    one of its first nine ancestors, [find_agent_root] from the same start
    finds that root's [.agent] directory: the executor and the configuration
    scripts then use the same [config.json]. *)
Theorem repo_root_and_agent_root_agree (start : Path) (w : world) :
  (exists k, (k < 10)%nat
             /\ path_exists (ancestor k (resolve start w) </> lit ".agent") w
                = true) ->
  find_agent_root start w = find_repo_root start w </> lit ".agent"
  /\ path_exists (find_agent_root start w) w = true.
Proof.
  intros H. unfold find_agent_root, find_repo_root.
  rewrite (roots_agree_loop 10 _ w H). split; [reflexivity|].
  destruct (find_repo_root_loop_spec 10 (resolve start w) w)
    as [(k & _ & -> & He & _)|[_ Hn]]; [exact He|].
  destruct H as (k & Hk & He). rewrite Hn in He by exact Hk. discriminate.
Qed.

Lemma repo_root_and_agent_root_agree_witness :
  find_agent_root (of_str (lit "/proj/.agent/skills"))
    (Examples.state Examples.skills_fs (Examples.answering 0 5))
  = find_repo_root (of_str (lit "/proj/.agent/skills"))
      (Examples.state Examples.skills_fs (Examples.answering 0 5))
    </> lit ".agent"
  /\ path_exists
       (find_agent_root (of_str (lit "/proj/.agent/skills"))
          (Examples.state Examples.skills_fs (Examples.answering 0 5)))
       (Examples.state Examples.skills_fs (Examples.answering 0 5)) = true.
Proof.
  apply (repo_root_and_agent_root_agree (of_str (lit "/proj/.agent/skills"))
           (Examples.state Examples.skills_fs (Examples.answering 0 5))).
  exists 2%nat. split; [lia|by_evaluation].
Defined.

(** Making directories keeps every entry of the file system. *)
Lemma mkdir_fuel_keeps (fuel : nat) (parents : bool) (p : Path) (w : world)
    (o : outcome unit) (w' : world) (k : key) (n : node) :
  mkdir_fuel fuel parents p w = (o, w') ->
  node_at (w_fs w) k = Some n -> node_at (w_fs w') k = Some n.
Proof.
  assert (Made : forall p w fs', os_mkdir (w_fs w) (w_cwd w) p = inr fs' ->
                   node_at (w_fs w) k = Some n -> node_at fs' k = Some n).
  { intros q v fs'. unfold os_mkdir.
    destruct (namei _ _ q) as [e|k0]; [discriminate|].
    destruct (node_at (w_fs v) k0) eqn:Nk; [discriminate|]. intros [= <-] Hk.
    rewrite node_at_insert_ne; [exact Hk|]. intros ->. congruence. }
  revert parents p w o w'.
  induction fuel as [|f IH]; intros parents p w o w'; cbn [mkdir_fuel].
  - destruct (os_mkdir _ _ _) as [[]|fs'] eqn:Mk;
      repeat match goal with |- context [if ?b then _ else _] => destruct b end;
      intros [= <- <-] Hk; try exact Hk.
    wsimpl. exact (Made _ _ _ Mk Hk).
  - destruct (os_mkdir _ _ _) as [[]|fs'] eqn:Mk;
      repeat match goal with |- context [if ?b then _ else _] => destruct b end;
      try (intros [= <- <-] Hk; try exact Hk; wsimpl; exact (Made _ _ _ Mk Hk)).
    unfold bind.
    destruct (mkdir_fuel f true (parent p) w) as [[[]|e] w1] eqn:E1.
    + intros E2 Hk. apply (IH _ _ _ _ _ E2). apply (IH _ _ _ _ _ E1). exact Hk.
    + intros [= <- <-] Hk. apply (IH _ _ _ _ _ E1). exact Hk.
Qed.

(** So do the steps before the [try]. *)
Lemma prepare_keeps (skill : pystr) (repo_root : Path) (background : bool)
    (output_format : pystr) (w : world)
    (o : outcome (pyval * Path * pystr * Z)) (w1 : world) (k : key) (n : node) :
  prepare skill repo_root background output_format w = (o, w1) ->
  node_at (w_fs w) k = Some n -> node_at (w_fs w1) k = Some n.
Proof.
  unfold prepare, bind at 1.
  pose proof (load_config_world (Some (repo_root </> lit ".agent")) w) as Hw.
  destruct (load_config _ w) as [[cfg|e] w0]; cbn [snd] in Hw; subst w0.
  2:{ intros [= <- <-] Hk. exact Hk. }
  unfold bind at 1.
  destruct (py_get cfg _ _ w) as [[backend|e] w0] eqn:G.
  2:{ destruct cfg; simpl in G; inversion G; subst; intros [= <- <-] Hk; exact Hk. }
  assert (w0 = w) as -> by (destruct cfg; simpl in G; inversion G; reflexivity).
  unfold bind at 1, uuid4_hex. unfold bind at 1, strftime, gets. unfold bind at 1.
  destruct (mkdir_parents _ _) as [[[]|e] w2] eqn:Mk;
    pose proof (fun H => mkdir_fuel_keeps _ _ _ _ _ _ k n Mk H) as Keep;
    wsimpl.
  2:{ intros [= <- <-] Hk. exact (Keep Hk). }
  unfold bind at 1. unfold bind at 1, time_time, gets. unfold bind at 1.
  destruct (bool_decide _ && negb background).
  - unfold bind at 1.
    destruct backend; unfold py_upper, raise, ret, bind, print, modify;
      intros [= <- <-] Hk; wsimpl; exact (Keep Hk).
  - unfold ret. intros [= <- <-] Hk. exact (Keep Hk).
Qed.

(** A call of [execute_task] that starts no child (the skill is missing,
    the log file cannot be opened, the program cannot be started, or a step
    before the [try] raises) removes and changes nothing that exists: every
    directory stays, and every file stays as it is, unless it lies where the
    log file of this call is opened and is overwritten by it. What a started
    child does to the files is its own affair. *)
Theorem execute_task_keeps_existing_files (skill task : pystr)
    (repo_root : Path) (yolo background : bool) (output_format : pystr)
    (w : world) (k : key) (n : node) :
  w_spawned
    (snd (execute_task skill task repo_root yolo background output_format w))
  = w_spawned w ->
  node_at (w_fs w) k = Some n ->
  node_at
    (w_fs (snd (execute_task skill task repo_root yolo background output_format w)))
    k = Some n
  \/ (n <> Dir
      /\ exists backend log_file subagent_id start_time w1 t,
           prepare skill repo_root background output_format w
           = (Ret (backend, log_file, subagent_id, start_time), w1)
           /\ namei (w_fs w1) (w_cwd w1) log_file = inr k
           /\ node_at
                (w_fs (snd (execute_task skill task repo_root yolo background
                              output_format w)))
                k = Some (File (Some t))).
Proof.
  intros _ Hk. rewrite execute_task_unfold.
  destruct (prepare skill repo_root background output_format w)
    as [[[[[backend lf] id] st]|e] w1] eqn:P.
  2:{ left. apply (prepare_keeps _ _ _ _ _ _ _ _ _ P Hk). }
  pose proof (prepare_keeps _ _ _ _ _ _ _ _ _ P Hk) as Hk1.
  rewrite attempt_world.
  destruct (dispatch backend skill task repo_root yolo lf (negb background) w1)
    as [o w2] eqn:D. cbn [snd].
  apply dispatch_post in D as (cmd & prompt & piped & post & (_ & _ & B)).
  destruct (load_skill_instructions _ w1) as [[si|e] w0];
    [|destruct B as [_ ->]; left; exact Hk1].
  destruct (bool_decide (si = [])); [destruct B as [_ ->]; left; exact Hk1|].
  destruct (os_open_w (w_fs w1) (w_cwd w1) lf) as [e|[klog fs1]] eqn:O.
  { destruct B as (_ & -> & _). left. exact Hk1. }
  destruct B as ([t Hfs] & _). rewrite Hfs.
  destruct (os_open_w_inv _ _ _ _ _ O) as [Hn Hd].
  destruct (decide (klog = k)) as [->|Hne].
  - right. split; [congruence|].
    exists backend, lf, id, st, w1, t. split; [reflexivity|]. split; [exact Hn|].
    apply node_at_insert_eq. intros ->. apply Hd. reflexivity.
  - left. rewrite node_at_insert_ne by exact Hne. exact Hk1.
Qed.

Lemma execute_task_keeps_existing_files_witness :
  node_at
    (w_fs (snd (execute_task (lit "plan") (lit "do it") Examples.root true true
                  (lit "json")
                  (Examples.state Examples.skills_fs
                     (Examples.unstartable
                        (mkExc OSError (lit "[Errno 12] Cannot allocate memory")))))))
    [lit "proj"; lit ".agent"; lit "skills"; lit "superpowers-plan"; lit "SKILL.md"]
  = Some (File (Some (lit "Plan well.")))
  \/ (File (Some (lit "Plan well.")) <> Dir
      /\ exists backend log_file subagent_id start_time w1 t,
           prepare (lit "plan") Examples.root true (lit "json")
             (Examples.state Examples.skills_fs
                (Examples.unstartable
                   (mkExc OSError (lit "[Errno 12] Cannot allocate memory"))))
           = (Ret (backend, log_file, subagent_id, start_time), w1)
           /\ namei (w_fs w1) (w_cwd w1) log_file
              = inr [lit "proj"; lit ".agent"; lit "skills";
                     lit "superpowers-plan"; lit "SKILL.md"]
           /\ node_at
                (w_fs (snd (execute_task (lit "plan") (lit "do it") Examples.root
                              true true (lit "json")
                              (Examples.state Examples.skills_fs
                                 (Examples.unstartable
                                    (mkExc OSError
                                       (lit "[Errno 12] Cannot allocate memory")))))))
                [lit "proj"; lit ".agent"; lit "skills"; lit "superpowers-plan";
                 lit "SKILL.md"]
              = Some (File (Some t))).
Proof.
  apply (execute_task_keeps_existing_files (lit "plan") (lit "do it")
           Examples.root true true (lit "json")
           (Examples.state Examples.skills_fs
              (Examples.unstartable
                 (mkExc OSError (lit "[Errno 12] Cannot allocate memory"))))).
  - by_evaluation.
  - by_evaluation.
Defined.

End InvariantFacts.

(** ** From the switch to the next run *)

Section EndToEndFacts.

(** The loop of [find_repo_root] asks for one name only. *)
Lemma find_repo_root_loop_names (n : nat) (curr : Path) (w w2 : world) :
  w_cwd w2 = w_cwd w ->
  (forall k, (k <= n)%nat ->
     path_exists (ancestor k curr </> lit ".agent") w2
     = path_exists (ancestor k curr </> lit ".agent") w) ->
  find_repo_root_loop n curr w2 = find_repo_root_loop n curr w.
Proof.
  intros Hcwd. revert curr. induction n as [|n IH]; intros curr H.
  - cbn [find_repo_root_loop]. unfold cwd. rewrite Hcwd. reflexivity.
  - cbn [find_repo_root_loop].
    pose proof (H 0%nat ltac:(lia)) as H0. change (ancestor 0 curr) with curr in H0.
    rewrite H0. unfold cwd. rewrite Hcwd.
    rewrite IH; [reflexivity|]. intros k Hk.
    rewrite <- !ancestor_S. apply H. lia.
Qed.

Lemma find_repo_root_after_write (w w' : world) (root : Path) (k0 : key)
    (t : option pystr) (start : Path) :
  namei (w_fs w) (w_cwd w) (root </> lit "config.json") = inr k0 ->
  node_at (w_fs w) k0 <> Some Dir ->
  w_fs w' = <[k0 := File t]> (w_fs w) ->
  w_cwd w' = w_cwd w ->
  find_repo_root start w' = find_repo_root start w.
Proof.
  intros Hn Hk Hfs Hcwd. unfold find_repo_root, resolve. rewrite Hcwd.
  apply find_repo_root_loop_names; [exact Hcwd|]. intros j _.
  apply (path_exists_insert_file w w' k0 t _ Hk Hfs Hcwd).
  intros Hp.
  apply namei_last in Hn as [k1 ->]; [|reflexivity|discriminate].
  apply namei_last in Hp as [k2 Hp]; [|reflexivity|discriminate].
  apply app_inj_tail in Hp as [_ Hp]. discriminate Hp.
Qed.

(** After the switch of a configuration that is a JSON object without
    floats, its texts made of Unicode scalar values and no key twice, the
    executor started from the same working directory reads the chosen name
    from the same [config.json] and dispatches to the chosen backend: whenever
    the steps before its [try] succeed, the backend they yield is the chosen
    name, and the dispatch on it gives the Claude backend for [claude] and the
    Gemini backend for [gemini]. *)
Theorem switched_backend_is_used (backend : SetBackend.choice) (w : world)
    (d : dict) :
  load_config None w = (Ret (PDict d), w) ->
  (exists k, (k < 10)%nat
             /\ path_exists (ancestor k (resolve (cwd w) w) </> lit ".agent") w
                = true) ->
  is_dir (find_agent_root (cwd w) w) w = true ->
  is_dir (find_agent_root (cwd w) w </> lit "config.json") w = false ->
  serializable (PDict d) = true ->
  exists w',
    SetBackend.main backend w = (SetBackend.Finished, w')
    /\ forall skill background output_format p w1,
         prepare skill (find_repo_root (cwd w') w') background output_format w'
         = (Ret p, w1) ->
         fst (fst (fst p)) = PStr (SetBackend.choice_name backend)
         /\ dispatch (fst (fst (fst p)))
            = match backend with
              | SetBackend.Gemini => run_gemini_backend
              | SetBackend.Claude => run_claude_backend
              end.
Proof.
  intros L Hfound Hr Hf Hd.
  destruct (set_backend_run backend w d L Hr Hf) as (k0 & Hn & Hk & Hm & Hs).
  assert (Hc : serializable
                 (PDict (dict_set d (lit "execution_backend")
                           (PStr (SetBackend.choice_name backend)))) = true).
  { apply dict_set_serializable; [exact Hd|reflexivity|].
    destruct backend; reflexivity. }
  assert (A : find_agent_root (cwd w) w = find_repo_root (cwd w) w </> lit ".agent").
  { unfold find_agent_root, find_repo_root. apply roots_agree_loop. exact Hfound. }
  eexists. split; [exact Hm|].
  intros skill background output_format p w1.
  erewrite (find_repo_root_after_write w _ _ k0 _ _ Hn Hk);
    [|reflexivity|reflexivity].
  change (cwd (add_console _ (add_console _ (set_fs _ w)))) with (cwd w).
  erewrite prepare_eq; [| |reflexivity].
  2:{ rewrite load_config_eq. cbn [root_or_default]. wsimpl.
      rewrite <- A, Hs. rewrite loads_dumps by exact Hc. reflexivity. }
  rewrite dict_get_set_eq.
  assert (D : dispatch (PStr (SetBackend.choice_name backend))
              = match backend with
                | SetBackend.Gemini => run_gemini_backend
                | SetBackend.Claude => run_claude_backend
                end) by (destruct backend; reflexivity).
  destruct (mkdir_parents _ _) as [[[]|e] w2]; [|discriminate].
  destruct (bool_decide _ && negb background); intros [= <- _];
    (split; [reflexivity|exact D]).
Qed.

Lemma switched_backend_is_used_witness :
  exists w',
    SetBackend.main SetBackend.Claude
      (Examples.state Examples.skills_fs (Examples.answering 0 5))
    = (SetBackend.Finished, w')
    /\ forall skill background output_format p w1,
         prepare skill (find_repo_root (cwd w') w') background output_format w'
         = (Ret p, w1) ->
         fst (fst (fst p)) = PStr (SetBackend.choice_name SetBackend.Claude)
         /\ dispatch (fst (fst (fst p)))
            = match SetBackend.Claude with
              | SetBackend.Gemini => run_gemini_backend
              | SetBackend.Claude => run_claude_backend
              end.
Proof.
  apply (switched_backend_is_used SetBackend.Claude
           (Examples.state Examples.skills_fs (Examples.answering 0 5))
           [(lit "execution_backend", PStr (lit "gemini"))]).
  - apply load_config_fst. by_evaluation.
  - exists 0%nat. split; [lia|by_evaluation].
  - by_evaluation.
  - by_evaluation.
  - by_evaluation.
Defined.

End EndToEndFacts.

(** ** The first save *)

Section FirstSaveFacts.




End FirstSaveFacts.
